(** * Solar-energy compilation pipeline: a shallow embedding

    The development follows [src/preprocessing.py] and the aggregation
    and export steps of [src/plotting.py].  Python floats are IEEE-754
    binary64 numbers and are modelled by Rocq's primitive floats; the
    operating system (current directory, file tree, terminal) is an
    explicit world threaded through a state-and-exception monad; the
    text-level routines of the libraries (CSV parsing and printing,
    timestamp parsing, image encoding) are taken as an interface, while
    the table operations (elementwise arithmetic, concatenation, grouping
    with compensated sums, selection) and the way [savefig] names its
    file are written out. *)

From Stdlib Require Import ZArith List String Ascii Bool Lia.
From Stdlib Require Import Sorting.Sorted Sorting.Permutation.
From Stdlib Require Import Floats.
From stdpp Require Import gmap strings pretty.
Import ListNotations.

Open Scope string_scope.
Open Scope list_scope.

(** ** Strings *)

Module PyStr.

(** [p] is a prefix of [s] ([s.startswith(p)]). *)
Fixpoint startswith (p s : string) : bool :=
  match p, s with
  | EmptyString, _ => true
  | String _ _, EmptyString => false
  | String a p', String b s' => Ascii.eqb a b && startswith p' s'
  end.

(** [sub in s]: substring test, scanning [s] from the left. *)
Fixpoint contains (sub s : string) : bool :=
  startswith sub s
  || match s with
     | EmptyString => false
     | String _ s' => contains sub s'
     end.

(** Last character test, for [s.endswith("/")]. *)
Fixpoint endswith_char (c : ascii) (s : string) : bool :=
  match s with
  | EmptyString => false
  | String a EmptyString => Ascii.eqb a c
  | String _ s' => endswith_char c s'
  end.

(** [str.upper] on text held as UTF-8 bytes.  The letters a-z move to
    A-Z.  Outside ASCII, the long s (U+017F, bytes C5 BF) is the one
    character whose upper case is a single ASCII letter, S; it is mapped
    as Python maps it.  Every other byte is kept: no other character has
    an upper case that the program compares with. *)
Definition upper_ascii (c : ascii) : ascii :=
  let n := nat_of_ascii c in
  if (97 <=? n)%nat && (n <=? 122)%nat then ascii_of_nat (n - 32) else c.

Definition is_long_s (c1 c2 : ascii) : bool :=
  (nat_of_ascii c1 =? 197)%nat && (nat_of_ascii c2 =? 191)%nat.

Fixpoint upper (s : string) : string :=
  match s with
  | EmptyString => EmptyString
  | String c1 s1 =>
      match s1 with
      | String c2 s2 =>
          if is_long_s c1 c2 then String "S"%char (upper s2)
          else String (upper_ascii c1) (upper s1)
      | EmptyString => String (upper_ascii c1) EmptyString
      end
  end.

(** [str.lower] restricted to what the program's libraries compare
    with: the letters A-Z move to a-z, every other byte is kept.  No
    character outside ASCII has a lower case made of the letters [p],
    [n] or [g]. *)
Definition lower_ascii (c : ascii) : ascii :=
  let n := nat_of_ascii c in
  if (65 <=? n)%nat && (n <=? 90)%nat then ascii_of_nat (n + 32) else c.

Fixpoint lower (s : string) : string :=
  match s with
  | EmptyString => EmptyString
  | String c s' => String (lower_ascii c) (lower s')
  end.

(** [s[1:]]. *)
Definition tail (s : string) : string :=
  match s with
  | EmptyString => EmptyString
  | String _ s' => s'
  end.

End PyStr.

(** ** Paths ([os.path] on POSIX) *)

Module OsPath.

Definition sep : ascii := "/"%char.

(** [os.path.join(a, b)]: an absolute [b] replaces [a]; otherwise the
    two are glued with exactly one separator, none when [a] is empty or
    already ends with one. *)
Definition join (a b : string) : string :=
  if PyStr.startswith "/" b then b
  else if (String.eqb a "" || PyStr.endswith_char sep a)%bool then a +:+ b
  else a +:+ "/" +:+ b.

(** [os.path.join(a, b, c)]. *)
Definition join3 (a b c : string) : string := join (join a b) c.

(** Characters of a string, and back. *)
Fixpoint chars (s : string) : list ascii :=
  match s with
  | EmptyString => []
  | String c s' => c :: chars s'
  end.

Fixpoint of_chars (l : list ascii) : string :=
  match l with
  | [] => EmptyString
  | c :: l' => String c (of_chars l')
  end.

Definition is_sep (c : ascii) : bool := Ascii.eqb c sep.

Fixpoint span_not_sep (l : list ascii) : list ascii * list ascii :=
  match l with
  | [] => ([], [])
  | c :: l' =>
      if is_sep c then ([], l)
      else let '(t, h) := span_not_sep l' in (c :: t, h)
  end.

Fixpoint drop_seps (l : list ascii) : list ascii :=
  match l with
  | [] => []
  | c :: l' => if is_sep c then drop_seps l' else l
  end.

(** [os.path.split(p)]: the part up to the last separator and the part
    after it; trailing separators of the head are stripped unless the
    head consists of separators only. *)
Definition split (p : string) : string * string :=
  let '(tail_rev, head_rev) := span_not_sep (rev (chars p)) in
  let head_rev' :=
    if forallb is_sep head_rev then head_rev else drop_seps head_rev in
  (of_chars (rev head_rev'), of_chars (rev tail_rev)).

Definition dirname (p : string) : string := fst (split p).
Definition basename (p : string) : string := snd (split p).

Definition is_dot (c : ascii) : bool := Ascii.eqb c "."%char.

(** [s.rfind(c)]: the last position of [c], if any. *)
Fixpoint rfind (c : ascii) (l : list ascii) : option nat :=
  match l with
  | [] => None
  | x :: l' =>
      match rfind c l' with
      | Some i => Some (S i)
      | None => if Ascii.eqb x c then Some O else None
      end
  end.

(** [os.path.splitext(p)]: the extension starts at the last dot, when
    that dot lies in the last component and a character other than a
    dot comes before it there; otherwise there is no extension. *)
Definition splitext (p : string) : string * string :=
  let l := chars p in
  let start := match rfind sep l with Some i => S i | None => O end in
  match rfind "."%char l with
  | Some d =>
      if (start <=? d)%nat
         && existsb (fun c => negb (is_dot c)) (firstn (d - start) (skipn start l))
      then (of_chars (firstn d l), of_chars (skipn d l))
      else (p, "")
  | None => (p, "")
  end.

(** [s.rstrip(".")]. *)
Fixpoint drop_dots (l : list ascii) : list ascii :=
  match l with
  | [] => []
  | c :: l' => if is_dot c then drop_dots l' else l
  end.

Definition rstrip_dots (s : string) : string :=
  of_chars (rev (drop_dots (rev (chars s)))).

End OsPath.

(** ** Exceptions and results *)

Inductive exn : Type :=
| ValueError (msg : string)
| KeyError (key : string)
| AttributeError (msg : string)
| InvalidIndexError
| ParserError
| EOFError
| FileNotFoundError (path : string)
| NotADirectoryError (path : string)
| IsADirectoryError (path : string)
| FileExistsError (path : string).

Inductive result (A : Type) : Type :=
| Ok (a : A)
| Raise (e : exn).

Arguments Ok {A} a.
Arguments Raise {A} e.

Definition rbind {A B : Type} (r : result A) (k : A -> result B) : result B :=
  match r with
  | Ok a => k a
  | Raise e => Raise e
  end.

(** Run [f] over a list from left to right, stopping at the first error. *)
Fixpoint rmapM {A B : Type} (f : A -> result B) (l : list A) : result (list B) :=
  match l with
  | [] => Ok []
  | a :: l' =>
      rbind (f a) (fun b => rbind (rmapM f l') (fun bs => Ok (b :: bs)))
  end.

(** ** The world: working directory, file tree, terminal, and a trace *)

Inductive node : Type :=
| File (content : string)
| Dir (entries : list string).

(** Every interaction with the operating system is recorded, in order. *)
Inductive event : Type :=
| EvExists (path : string)
| EvInput (prompt : string)
| EvListdir (path : string)
| EvRead (path : string)
| EvMakedirs (path : string)
| EvWrite (path : string)
| EvRender (title : string)
| EvShow.

Record world : Type := mkWorld {
  w_cwd : string;
  w_fs : gmap string node;
  w_stdin : list string;
  w_stdout : list string;
  w_trace : list event
}.

Definition log (e : event) (w : world) : world :=
  mkWorld (w_cwd w) (w_fs w) (w_stdin w) (w_stdout w) (w_trace w ++ [e]).

Definition set_fs (fs : gmap string node) (w : world) : world :=
  mkWorld (w_cwd w) fs (w_stdin w) (w_stdout w) (w_trace w).

(** A relative path is resolved against the working directory. *)
Definition resolve (w : world) (p : string) : string := OsPath.join (w_cwd w) p.

(** Computations that read and change the world and may raise. *)
Definition M (A : Type) : Type := world -> result A * world.

Definition ret {A : Type} (a : A) : M A := fun w => (Ok a, w).

Definition raise {A : Type} (e : exn) : M A := fun w => (Raise e, w).

Definition bind {A B : Type} (m : M A) (k : A -> M B) : M B :=
  fun w =>
    match m w with
    | (Ok a, w') => k a w'
    | (Raise e, w') => (Raise e, w')
    end.

Definition lift {A : Type} (r : result A) : M A := fun w => (r, w).

Declare Scope py_scope.
Delimit Scope py_scope with py.
Notation "x <- m ;; k" := (bind m (fun x => k))
  (at level 100, m at next level, right associativity) : py_scope.
Notation "m ;;; k" := (bind m (fun _ => k))
  (at level 100, right associativity) : py_scope.
Open Scope py_scope.

(** A [for] loop that appends one result per element. *)
Fixpoint mapM {A B : Type} (f : A -> M B) (l : list A) : M (list B) :=
  match l with
  | [] => ret []
  | a :: l' => b <- f a ;; bs <- mapM f l' ;; ret (b :: bs)
  end.

(** *** File-tree operations *)

Module Fs.

Definition exists_ (p : string) (fs : gmap string node) : bool :=
  match fs !! p with Some _ => true | None => false end.

Definition isdir (p : string) (fs : gmap string node) : bool :=
  match fs !! p with Some (Dir _) => true | _ => false end.

(** [os.listdir]. *)
Definition listdir (p : string) (fs : gmap string node) : result (list string) :=
  match fs !! p with
  | Some (Dir es) => Ok es
  | Some (File _) => Raise (NotADirectoryError p)
  | None => Raise (FileNotFoundError p)
  end.

(** Reading a whole file. *)
Definition read (p : string) (fs : gmap string node) : result string :=
  match fs !! p with
  | Some (File c) => Ok c
  | Some (Dir _) => Raise (IsADirectoryError p)
  | None => Raise (FileNotFoundError p)
  end.

(** A new name is appended to the listing of its parent. *)
Definition add_entry (parent name : string) (fs : gmap string node) : gmap string node :=
  match fs !! parent with
  | Some (Dir es) => <[parent := Dir (es ++ [name])]> fs
  | _ => fs
  end.

(** [os.mkdir]: one level, the parent must be a directory. *)
Definition mkdir (p : string) (fs : gmap string node) : result (gmap string node) :=
  match fs !! p with
  | Some _ => Raise (FileExistsError p)
  | None =>
      match fs !! OsPath.dirname p with
      | Some (Dir _) => Ok (<[p := Dir []]> (add_entry (OsPath.dirname p) (OsPath.basename p) fs))
      | Some (File _) => Raise (NotADirectoryError p)
      | None => Raise (FileNotFoundError p)
      end
  end.

(** The last step of [os.makedirs(name, exist_ok=True)]: an error of
    [mkdir] is swallowed when [name] is a directory. *)
Definition mkdir_exist_ok (p : string) (fs : gmap string node) : result (gmap string node) :=
  match mkdir p fs with
  | Ok fs' => Ok fs'
  | Raise e => if isdir p fs then Ok fs else Raise e
  end.

(** [os.makedirs(name, exist_ok=True)]: missing ancestors are created
    first.  The recursion is on the head of the path, which gets
    shorter each time; [fuel] bounds it by the length of the path. *)
Fixpoint makedirs_fuel (fuel : nat) (name : string) (fs : gmap string node)
  : result (gmap string node) :=
  match fuel with
  | O => mkdir_exist_ok name fs
  | S fuel' =>
      let '(head, tail) := OsPath.split name in
      let '(head, tail) :=
        if String.eqb tail "" then OsPath.split head else (head, tail) in
      if negb (String.eqb head "") && negb (String.eqb tail "") && negb (exists_ head fs)
      then
        match makedirs_fuel fuel' head fs with
        | Ok fs' =>
            if String.eqb tail "." then Ok fs' else mkdir_exist_ok name fs'
        | Raise (FileExistsError _) =>
            if String.eqb tail "." then Ok fs else mkdir_exist_ok name fs
        | Raise e => Raise e
        end
      else mkdir_exist_ok name fs
  end.

Definition makedirs (name : string) (fs : gmap string node) : result (gmap string node) :=
  makedirs_fuel (String.length name) name fs.

(** Opening a path for writing and storing [content]: the file is
    created in an existing directory or truncated. *)
Definition write (p content : string) (fs : gmap string node) : result (gmap string node) :=
  match fs !! p with
  | Some (Dir _) => Raise (IsADirectoryError p)
  | Some (File _) => Ok (<[p := File content]> fs)
  | None =>
      match fs !! OsPath.dirname p with
      | Some (Dir _) => Ok (<[p := File content]> (add_entry (OsPath.dirname p) (OsPath.basename p) fs))
      | Some (File _) => Raise (NotADirectoryError p)
      | None => Raise (FileNotFoundError p)
      end
  end.

End Fs.

(** *** System calls *)

Definition getcwd : M string := fun w => (Ok (w_cwd w), w).

(** [os.path.exists]. *)
Definition path_exists (p : string) : M bool :=
  fun w => (Ok (Fs.exists_ (resolve w p) (w_fs w)), log (EvExists p) w).

(** [input(prompt)]: the prompt is printed, one line is taken from the
    terminal; an exhausted terminal raises [EOFError]. *)
Definition input (prompt : string) : M string :=
  fun w =>
    let w1 := mkWorld (w_cwd w) (w_fs w) (w_stdin w) (w_stdout w ++ [prompt])
                      (w_trace w ++ [EvInput prompt]) in
    match w_stdin w with
    | [] => (Raise EOFError, w1)
    | line :: rest =>
        (Ok line, mkWorld (w_cwd w1) (w_fs w1) rest (w_stdout w1) (w_trace w1))
    end.

Definition listdir (p : string) : M (list string) :=
  fun w => (Fs.listdir (resolve w p) (w_fs w), log (EvListdir p) w).

Definition read_text (p : string) : M string :=
  fun w => (Fs.read (resolve w p) (w_fs w), log (EvRead p) w).

(** An operation that changes the file tree, or fails and leaves it. *)
Definition update_fs (e : event) (f : gmap string node -> result (gmap string node)) : M unit :=
  fun w =>
    match f (w_fs w) with
    | Ok fs' => (Ok tt, log e (set_fs fs' w))
    | Raise x => (Raise x, log e w)
    end.

(** [os.makedirs(p, exist_ok=True)]. *)
Definition makedirs_exist_ok (p : string) : M unit :=
  fun w => update_fs (EvMakedirs p) (Fs.makedirs (resolve w p)) w.

Definition write_text (p content : string) : M unit :=
  fun w => update_fs (EvWrite p) (Fs.write (resolve w p) content) w.

(** ** Tables *)

Record Timestamp : Type := mkTimestamp {
  ts_year : Z;
  ts_month : Z;
  ts_day : Z;
  ts_hour : Z;
  ts_minute : Z
}.

(** Index labels: text as read from a file, parsed timestamps, and the
    integer keys produced by grouping. *)
Inductive label : Type :=
| LStr (s : string)
| LTime (t : Timestamp)
| LInt (z : Z).

(** A table of binary64 cells with named columns and one index label per
    row; a missing value is a NaN.  Rows are stored in order. *)
Record DataFrame : Type := mkDataFrame {
  columns : list string;
  index : list label;
  values : list (list float)
}.

(** The keyword arguments of [pd.read_csv] that the program uses, with
    the library's defaults. *)
Record read_csv_kwargs : Type := mkKwargs {
  skiprows : nat;
  sep : string;
  encoding : string;
  index_col : option nat;
  decimal : string;
  parse_dates : bool
}.

Definition default_kwargs : read_csv_kwargs :=
  mkKwargs 0 "," "utf-8" None "." false.

(** The text-level routines of the libraries, used as black boxes: the
    CSV reader and writer, the timestamp parser behind [pd.to_datetime]
    with a format, and the image encoders behind [plt.savefig]: the PNG
    encoder, and for any other file extension the encoder of that
    format, which refuses an extension that the backend does not
    support. *)
Class Libraries : Type := {
  pd_parse_csv : read_csv_kwargs -> string -> result DataFrame;
  pd_format_csv : DataFrame -> string;
  pd_strptime : string -> label -> result Timestamp;
  plt_encode_png : DataFrame -> string;
  plt_encode : string -> DataFrame -> result string
}.

Module Pd.

(** [df.rename(columns={old: new})]. *)
Definition rename_column (old new : string) (df : DataFrame) : DataFrame :=
  mkDataFrame
    (map (fun c => if String.eqb c old then new else c) (columns df))
    (index df) (values df).

(** [df.map(f)]: [f] on every cell of every column. *)
Definition map_cells (f : float -> float) (df : DataFrame) : DataFrame :=
  mkDataFrame (columns df) (index df) (map (map f) (values df)).

(** [df /= k] and [df *= k]. *)
Definition div_scalar (k : float) (df : DataFrame) : DataFrame :=
  map_cells (fun x => PrimFloat.div x k) df.

Definition mul_scalar (k : float) (df : DataFrame) : DataFrame :=
  map_cells (fun x => PrimFloat.mul x k) df.

(** [df.index = idx]: the new index must have one label per row. *)
Definition set_index (idx : list label) (df : DataFrame) : result DataFrame :=
  if Nat.eqb (length idx) (length (index df))
  then Ok (mkDataFrame (columns df) idx (values df))
  else Raise (ValueError "Length mismatch").

Definition nrows (df : DataFrame) : nat := length (index df).

(** Position of a column label, first occurrence. *)
Fixpoint index_of (c : string) (cols : list string) : option nat :=
  match cols with
  | [] => None
  | c' :: cols' =>
      if String.eqb c c' then Some O
      else match index_of c cols' with
           | Some i => Some (S i)
           | None => None
           end
  end.

Definition mem (c : string) (cols : list string) : bool :=
  match index_of c cols with Some _ => true | None => false end.

Fixpoint has_dup (cols : list string) : bool :=
  match cols with
  | [] => false
  | c :: cols' => mem c cols' || has_dup cols'
  end.

(** Union of column labels in order of first appearance. *)
Fixpoint union_columns (acc : list string) (cols : list string) : list string :=
  match cols with
  | [] => acc
  | c :: cols' =>
      union_columns (if mem c acc then acc else acc ++ [c]) cols'
  end.

Definition all_columns (frames : list DataFrame) : list string :=
  fold_left (fun acc df => union_columns acc (columns df)) frames [].

(** A row laid out for the target columns; absent columns give NaN. *)
Definition reindex_row (src dst : list string) (row : list float) : list float :=
  map (fun c =>
         match index_of c src with
         | Some j => nth j row PrimFloat.nan
         | None => PrimFloat.nan
         end) dst.

Definition list_eqb (a b : list string) : bool :=
  if decide (a = b) then true else false.

(** [pd.concat(frames, axis=0)]: rows are stacked in order and keep
    their labels; columns are the union over the frames.  An empty
    list is refused, and so are repeated column labels when the frames
    do not all carry the same columns. *)
Definition concat (frames : list DataFrame) : result DataFrame :=
  match frames with
  | [] => Raise (ValueError "No objects to concatenate")
  | first :: _ =>
      let idx := flat_map index frames in
      if forallb (fun df => list_eqb (columns df) (columns first)) frames
      then Ok (mkDataFrame (columns first) idx (flat_map values frames))
      else if existsb (fun df => has_dup (columns df)) frames
      then Raise InvalidIndexError
      else
        let cols := all_columns frames in
        Ok (mkDataFrame cols idx
              (flat_map (fun df => map (reindex_row (columns df) cols) (values df)) frames))
  end.

(** [pd.to_datetime(idx, format=fmt)]. *)
Definition to_datetime `{Libraries} (fmt : string) (idx : list label) : result (list label) :=
  rmapM (fun l => rbind (pd_strptime fmt l) (fun t => Ok (LTime t))) idx.

(** [pd.read_csv(path, **kwargs)]. *)
Definition read_csv `{Libraries} (path : string) (kw : read_csv_kwargs) : M DataFrame :=
  text <- read_text path ;; lift (pd_parse_csv kw text).

(** [df.to_csv(path)], index included. *)
Definition to_csv `{Libraries} (df : DataFrame) (path : string) : M unit :=
  write_text path (pd_format_csv df).

(** [idx.year] of a datetime index; other indexes have no such
    attribute. *)
Definition index_year (idx : list label) : result (list Z) :=
  rmapM (fun l => match l with
                  | LTime t => Ok (ts_year t)
                  | _ => Raise (AttributeError "year")
                  end) idx.

(** Sorted list of distinct keys. *)
Fixpoint insert_key (k : Z) (ks : list Z) : list Z :=
  match ks with
  | [] => [k]
  | k' :: ks' =>
      if (k <? k')%Z then k :: ks
      else if (k =? k')%Z then ks
      else k' :: insert_key k ks'
  end.

Definition group_keys (keys : list Z) : list Z :=
  fold_right insert_key [] keys.

(** The running state of the grouped sum for one group and column: the
    sum so far and the compensation of Kahan's summation. *)
Record kahan : Type := mkKahan {
  sumx : float;
  compensation : float
}.

(** One cell added by the kernel of the grouped sum and mean: a NaN
    is skipped; otherwise the cell joins the sum with the rounding
    error of the previous additions taken off, and the new error is
    kept.  An error that is not a number (a sum that reached infinity)
    is reset to zero. *)
Definition kahan_step (acc : kahan) (val : float) : kahan :=
  if PrimFloat.is_nan val then acc
  else
    let y := PrimFloat.sub val (compensation acc) in
    let t := PrimFloat.add (sumx acc) y in
    let c := PrimFloat.sub (PrimFloat.sub t (sumx acc)) y in
    mkKahan t (if PrimFloat.is_nan c then PrimFloat.zero else c).

(** Sum of a column within a group, NaN cells skipped, cells added in
    row order. *)
Definition nansum (xs : list float) : float :=
  sumx (fold_left kahan_step xs (mkKahan PrimFloat.zero PrimFloat.zero)).

Definition column_cells (j : nat) (rows : list (list float)) : list float :=
  map (fun row => nth j row PrimFloat.nan) rows.

(** Rows whose key is [k]. *)
Definition group_rows (k : Z) (keys : list Z) (rows : list (list float)) : list (list float) :=
  map snd (List.filter (fun kr => (fst kr =? k)%Z) (combine keys rows)).

(** [df.groupby(keys).sum()]: one row per distinct key, keys ascending,
    every column summed within the group. *)
Definition groupby_sum (keys : list Z) (df : DataFrame) : DataFrame :=
  let ks := group_keys keys in
  mkDataFrame (columns df) (map LInt ks)
    (map (fun k =>
            let rows := group_rows k keys (values df) in
            map (fun j => nansum (column_cells j rows)) (seq 0 (length (columns df))))
         ks).

(** Stable insertion into a list kept in descending order of [key]. *)
Fixpoint insert_desc {A : Type} (key : A -> float) (x : A) (l : list A) : list A :=
  match l with
  | [] => [x]
  | y :: l' =>
      if PrimFloat.ltb (key x) (key y) then y :: insert_desc key x l'
      else x :: l
  end.

Definition sort_desc {A : Type} (key : A -> float) (l : list A) : list A :=
  fold_right (insert_desc key) [] l.

(** Positions of the columns labelled [c], as [df[c]] selects them. *)
Fixpoint positions (c : string) (cols : list string) (from : nat) : list nat :=
  match cols with
  | [] => []
  | c' :: cols' =>
      if String.eqb c c' then from :: positions c cols' (S from)
      else positions c cols' (S from)
  end.

(** [df.nlargest(n, col)]: the [n] rows with the largest value in
    [col], largest first, ties in their original order, rows whose
    value is NaN last.  The column is looked up with [df[col]] and its
    [dtype] is read: a missing label is a key error, and a label carried
    by several columns selects a table, which has no [dtype]. *)
Definition nlargest (n : Z) (col : string) (df : DataFrame) : result DataFrame :=
  match positions col (columns df) O with
  | [] => Raise (KeyError col)
  | [j] =>
      let key := fun r : label * list float => nth j (snd r) PrimFloat.nan in
      let rows := combine (index df) (values df) in
      let nums := List.filter (fun r => negb (PrimFloat.is_nan (key r))) rows in
      let nans := List.filter (fun r => PrimFloat.is_nan (key r)) rows in
      let top := firstn (Z.to_nat n) (sort_desc key nums ++ nans) in
      Ok (mkDataFrame (columns df) (map fst top) (map snd top))
  | _ :: _ :: _ => Raise (AttributeError "dtype")
  end.

(** [idx.hour] and [idx.month] of a datetime index. *)
Definition index_hour (idx : list label) : result (list Z) :=
  rmapM (fun l => match l with
                  | LTime t => Ok (ts_hour t)
                  | _ => Raise (AttributeError "hour")
                  end) idx.

Definition index_month (idx : list label) : result (list Z) :=
  rmapM (fun l => match l with
                  | LTime t => Ok (ts_month t)
                  | _ => Raise (AttributeError "month")
                  end) idx.

(** Number of cells that hold a number. *)
Definition count_numbers (xs : list float) : nat :=
  length (List.filter (fun x => negb (PrimFloat.is_nan x)) xs).

Definition float_of_nat (n : nat) : float :=
  PrimFloat.of_uint63 (Uint63.of_Z (Z.of_nat n)).

(** Mean of a column within a group, NaN cells skipped: the sum of the
    numbers over their count, and NaN when there is none. *)
Definition nanmean (xs : list float) : float :=
  match count_numbers xs with
  | O => PrimFloat.nan
  | S n => PrimFloat.div (nansum xs) (float_of_nat (S n))
  end.

(** [df.groupby(keys).mean()]. *)
Definition groupby_mean (keys : list Z) (df : DataFrame) : DataFrame :=
  let ks := group_keys keys in
  mkDataFrame (columns df) (map LInt ks)
    (map (fun k =>
            let rows := group_rows k keys (values df) in
            map (fun j => nanmean (column_cells j rows)) (seq 0 (length (columns df))))
         ks).

End Pd.

(** ** [preprocessing.py] *)

Section Preprocessing.

Context `{Libraries}.

(** [list_files]: every entry of the directory is joined with the
    directory, and the joined paths that contain the dataset name are
    kept, in listing order. *)
Definition list_files (directory dataset_name : string) : M (list string) :=
  names <- listdir directory ;;
  let files := map (fun file => OsPath.join directory file) names in
  ret (List.filter (fun file_path => PyStr.contains dataset_name file_path) files).

(** The function passed to [df.map]: [0 if x < 0 else x]. *)
Definition clamp_negative (x : float) : float :=
  if PrimFloat.ltb x PrimFloat.zero then PrimFloat.zero else x.

Definition one_thousand : float := 1000%float.

(** The steps of [read_and_format_data] after the file is parsed. *)
Definition format_data (df : DataFrame) : result DataFrame :=
  let df := Pd.rename_column "kW" "Energy" df in
  let df := Pd.div_scalar one_thousand df in
  let df := Pd.map_cells clamp_negative df in
  rbind (Pd.to_datetime "%d/%m/%y %H:%M" (index df))
        (fun idx => Pd.set_index idx df).

Definition read_and_format_data (file_path : string) (kwargs : read_csv_kwargs) : M DataFrame :=
  df <- Pd.read_csv file_path kwargs ;;
  lift (format_data df).

Definition prompt_text : string :=
  "Arquivo já existe, deseja processar e salvar outra versão? (S/N)".

Definition invalid_answer : exn :=
  ValueError "Por favor, insira uma resposta válida (S/N)".

Definition check_file_processing (file_path : string) : M bool :=
  found <- path_exists file_path ;;
  if found then
    user_response <- input prompt_text ;;
    if String.eqb (PyStr.upper user_response) "S" then ret true
    else if String.eqb (PyStr.upper user_response) "N" then ret false
    else raise invalid_answer
  else ret true.

(** Keyword arguments used for the source files. *)
Definition source_kwargs : read_csv_kwargs :=
  mkKwargs 11 ";" "latin-1" (Some O) "," false.

(** Keyword arguments used for the compiled file. *)
Definition compiled_kwargs : read_csv_kwargs :=
  mkKwargs 0 "," "utf-8" (Some O) "." true.

Definition float_one : float := PrimFloat.one.

(** [(1 - transformer_loss) * (1 - transmission_loss)]. *)
Definition loss_factor (transformer_loss transmission_loss : float) : float :=
  PrimFloat.mul (PrimFloat.sub float_one transformer_loss)
                (PrimFloat.sub float_one transmission_loss).

(** The branch of [compile_data] taken when the data is processed. *)
Definition compile_fresh (directory dataset_name : string)
    (transformer_loss transmission_loss : float) (save_data : bool)
    (output_dir output_file : string) : M DataFrame :=
  files <- list_files directory dataset_name ;;
  data_frames <- mapM (fun file => read_and_format_data file source_kwargs) files ;;
  compiled_df <- lift (Pd.concat data_frames) ;;
  let compiled_df := Pd.mul_scalar (loss_factor transformer_loss transmission_loss) compiled_df in
  (if save_data then
     makedirs_exist_ok output_dir ;;;
     Pd.to_csv compiled_df output_file
   else ret tt) ;;;
  ret compiled_df.

Definition output_dir_of (cwd : string) : string :=
  OsPath.join3 cwd "data" "output".

Definition output_file_of (cwd dataset_name : string) : string :=
  OsPath.join (output_dir_of cwd) ("dados_compilados_" +:+ dataset_name +:+ ".csv").

Definition compile_data (directory dataset_name : string)
    (transformer_loss transmission_loss : float) (save_data : bool) : M DataFrame :=
  cwd <- getcwd ;;
  let output_dir := output_dir_of cwd in
  let output_file := output_file_of cwd dataset_name in
  process <- check_file_processing output_file ;;
  if process then
    compile_fresh directory dataset_name transformer_loss transmission_loss
                  save_data output_dir output_file
  else
    Pd.read_csv output_file compiled_kwargs.

End Preprocessing.

(** ** [plotting.py]: the Top-N Years renderer *)

Section Plotting.

Context `{Libraries}.

(** [plt.savefig(fname)]: the format is the extension of [fname].
    Without an extension the format is the default one, PNG, and the
    file name is [fname] stripped of trailing dots with [.png] added.
    With the extension [png] in any case the PNG goes to [fname]
    itself.  Any other extension is a matter of the encoder of that
    format, whose refusal comes before a file is opened. *)
Definition savefig (figure : DataFrame) (fname : string) : M unit :=
  let format := PyStr.tail (snd (OsPath.splitext fname)) in
  if String.eqb format ""
  then write_text (OsPath.rstrip_dots fname +:+ ".png") (plt_encode_png figure)
  else if String.eqb (PyStr.lower format) "png"
  then write_text fname (plt_encode_png figure)
  else content <- lift (plt_encode format figure) ;; write_text fname content.

(** [export_figure]: the image goes under [<cwd>/images]. *)
Definition export_figure (figure : DataFrame) (filename : string) : M unit :=
  cwd <- getcwd ;;
  let output_dir := OsPath.join cwd "images" in
  makedirs_exist_ok output_dir ;;;
  let output_path := OsPath.join output_dir filename in
  savefig figure output_path.

(** The table that the renderer draws: yearly sums, then the [top_n]
    largest by [Energy]. *)
Definition top_years (data : DataFrame) (top_n : Z) : result DataFrame :=
  rbind (Pd.index_year (index data))
        (fun years => Pd.nlargest top_n "Energy" (Pd.groupby_sum years data)).

(** [str(n)] of an integer, in decimal. *)
Definition str_of_int (n : Z) : string := pretty n.

Definition plot_top_years (data : DataFrame) (top_n : Z) (save_image : bool) : M unit :=
  top <- lift (top_years data top_n) ;;
  (fun w => (Ok tt, log (EvRender ("Top " +:+ str_of_int top_n +:+ " Anos de Maior Geração de Energia Solar")) w)) ;;;
  (if save_image
   then export_figure top ("top_" +:+ str_of_int top_n +:+ "_anos.png")
   else ret tt) ;;;
  (fun w => (Ok tt, log EvShow w)).

(** Drawing a chart and showing the figure leave a mark in the trace
    and nothing else. *)
Definition render (title : string) : M unit :=
  fun w => (Ok tt, log (EvRender title) w).

Definition show : M unit := fun w => (Ok tt, log EvShow w).

(** The table drawn by the Hourly Distribution renderer. *)
Definition hourly_table (data : DataFrame) : result DataFrame :=
  rbind (Pd.index_hour (index data)) (fun hours => Ok (Pd.groupby_sum hours data)).

Definition plot_hourly_distribution (data : DataFrame) (save_image : bool) : M unit :=
  energy_by_hour <- lift (hourly_table data) ;;
  render "Distribuição Horária da Energia Solar" ;;;
  (if save_image
   then export_figure energy_by_hour "distribuicao_horaria.png"
   else ret tt) ;;;
  show.

(** The table drawn by the Monthly Distribution renderer. *)
Definition monthly_table (data : DataFrame) : result DataFrame :=
  rbind (Pd.index_month (index data)) (fun months => Ok (Pd.groupby_mean months data)).

Definition plot_monthly_distribution (data : DataFrame) (save_image : bool) : M unit :=
  monthly_avg <- lift (monthly_table data) ;;
  render "Distribuição Mensal da Energia Solar" ;;;
  (if save_image
   then export_figure monthly_avg "distribuicao_mensal.png"
   else ret tt) ;;;
  show.

End Plotting.

(** ** A concrete instance of the library interface and a small world,
       used to run the definitions *)

Module Demo.

Definition digit (c : ascii) : option Z :=
  let n := nat_of_ascii c in
  if (48 <=? n)%nat && (n <=? 57)%nat then Some (Z.of_nat (n - 48)) else None.

Definition two_digits (a b : ascii) : option Z :=
  match digit a, digit b with
  | Some x, Some y => Some (10 * x + y)%Z
  | _, _ => None
  end.

(** Fixed-width reading of [dd/mm/yy HH:MM]; two-digit years 69-99
    belong to the 1900s and 00-68 to the 2000s. *)
Definition strptime (fmt : string) (l : label) : result Timestamp :=
  match l with
  | LStr s =>
      if String.eqb fmt "%d/%m/%y %H:%M" then
        match OsPath.chars s with
        | [d1; d2; s1; m1; m2; s2; y1; y2; sp; h1; h2; co; i1; i2] =>
            if Ascii.eqb s1 "/" && Ascii.eqb s2 "/" && Ascii.eqb sp " " && Ascii.eqb co ":"
            then
              match two_digits d1 d2, two_digits m1 m2, two_digits y1 y2,
                    two_digits h1 h2, two_digits i1 i2 with
              | Some d, Some m, Some y, Some h, Some i =>
                  Ok (mkTimestamp (if (y <? 69)%Z then 2000 + y else 1900 + y) m d h i)
              | _, _, _, _, _ => Raise (ValueError "time data does not match format")
              end
            else Raise (ValueError "time data does not match format")
        | _ => Raise (ValueError "time data does not match format")
        end
      else Raise (ValueError "unsupported format")
  | LTime t => Ok t
  | LInt _ => Raise (ValueError "time data does not match format")
  end.

Definition raw_a : DataFrame :=
  mkDataFrame ["kW"] [LStr "01/01/20 10:00"; LStr "01/01/20 11:00"]
              [[5000%float]; [(-5)%float]].

Definition raw_b : DataFrame :=
  mkDataFrame ["kW"] [LStr "02/01/21 10:00"] [[2500%float]].

Definition cached : DataFrame :=
  mkDataFrame ["Energy"] [LTime (mkTimestamp 2019 6 1 12 0)] [[42%float]].

(** The reader knows three texts; the writer always produces the third. *)
Definition parse_csv (kw : read_csv_kwargs) (text : string) : result DataFrame :=
  if String.eqb text "A" then Ok raw_a
  else if String.eqb text "B" then Ok raw_b
  else if String.eqb text "C" then Ok cached
  else Raise ParserError.

#[global] Instance libs : Libraries := {
  pd_parse_csv := parse_csv;
  pd_format_csv := fun _ => "C";
  pd_strptime := strptime;
  plt_encode_png := fun _ => "PNG";
  plt_encode := fun format _ =>
    if String.eqb (PyStr.lower format) "pdf" then Ok "PDF"
    else Raise (ValueError "Format is not supported")
}.

Definition tree : gmap string node :=
  <["/home/u" := Dir ["src"]]>
  (<["/home/u/src" := Dir ["Solcast_A.csv"; "notes.txt"; "Solcast_B.csv"]]>
  (<["/home/u/src/Solcast_A.csv" := File "A"]>
  (<["/home/u/src/notes.txt" := File "hello"]>
  (<["/home/u/src/Solcast_B.csv" := File "B"]> ∅)))).

Definition world0 (answers : list string) : world :=
  mkWorld "/home/u" tree answers [] [].

(** The same tree after a compilation was saved. *)
Definition tree_cached : gmap string node :=
  <["/home/u/data/output/dados_compilados_Solcast.csv" := File "C"]>
  (<["/home/u/data/output" := Dir ["dados_compilados_Solcast.csv"]]>
  (<["/home/u/data" := Dir ["output"]]>
  (<["/home/u" := Dir ["src"; "data"]]> tree))).

Definition world_cached (answers : list string) : world :=
  mkWorld "/home/u" tree_cached answers [] [].

(** A directory whose own name contains the dataset name. *)
Definition tree_named : gmap string node :=
  <["/home/u/Solcast" := Dir ["notes.txt"]]>
  (<["/home/u/Solcast/notes.txt" := File "hello"]> ∅).

Definition world_named : world :=
  mkWorld "/home/u" tree_named [] [] [].

(** The compiled table of [tree] for the loss factors 0.5 and 0.25. *)
Definition compiled : DataFrame :=
  mkDataFrame ["Energy"]
    [LTime (mkTimestamp 2020 1 1 10 0); LTime (mkTimestamp 2020 1 1 11 0);
     LTime (mkTimestamp 2021 1 2 10 0)]
    [[1.875%float]; [0%float]; [0.9375%float]].

Definition yearly : DataFrame :=
  mkDataFrame ["Energy"]
    [LTime (mkTimestamp 2020 1 1 10 0); LTime (mkTimestamp 2021 3 1 10 0);
     LTime (mkTimestamp 2020 7 1 10 0); LTime (mkTimestamp 2019 5 1 10 0)]
    [[1%float]; [5%float]; [2%float]; [4%float]].

(** A table in which two columns carry the label [Energy], as a source
    file with both a [kW] and an [Energy] column gives after the
    renaming. *)
Definition doubled : DataFrame :=
  mkDataFrame ["Energy"; "Energy"]
    [LTime (mkTimestamp 2020 1 1 10 0); LTime (mkTimestamp 2021 3 1 10 0)]
    [[1%float; 2%float]; [5%float; 3%float]].

End Demo.

(** A second instance, whose reader returns a table with a label that
    is not a timestamp. *)

Module DemoBad.

Definition raw_bad : DataFrame :=
  mkDataFrame ["kW"] [LStr "01/01/20 10:00"; LStr "2020-01-01"; LStr "x"]
              [[1%float]; [2%float]; [3%float]].

Definition libs : Libraries := {|
  pd_parse_csv := fun _ _ => Ok raw_bad;
  pd_format_csv := fun _ => "";
  pd_strptime := Demo.strptime;
  plt_encode_png := fun _ => "";
  plt_encode := fun _ _ => Raise (ValueError "Format is not supported")
|}.

End DemoBad.

(** ** Derived notions used in the statements *)

Section Notions.

Context `{Libraries}.

(** The Formatted Table of one file, as [read_and_format_data] returns
    it in world [w]. *)
Definition formatted_table (w : world) (file : string) : result DataFrame :=
  fst (read_and_format_data file source_kwargs w).

(** The outcome of the existence check and prompt for a dataset. *)
Definition gate (dataset_name : string) (w : world) : result bool :=
  fst (check_file_processing (output_file_of (w_cwd w) dataset_name) w).

(** A fresh compilation: the output file is absent, or it is present
    and the next line on the terminal answers [S] in either case. *)
Definition fresh (dataset_name : string) (w : world) : Prop :=
  let out := resolve w (output_file_of (w_cwd w) dataset_name) in
  Fs.exists_ out (w_fs w) = false
  \/ (Fs.exists_ out (w_fs w) = true
      /\ exists line rest, w_stdin w = line :: rest /\ PyStr.upper line = "S").

(** Two worlds offer the same inputs to a compilation of [directory]:
    the same listing, and the same content for every listed entry. *)
Definition same_inputs (directory : string) (w w' : world) : Prop :=
  Fs.listdir (resolve w directory) (w_fs w) = Fs.listdir (resolve w' directory) (w_fs w')
  /\ forall names name,
      Fs.listdir (resolve w directory) (w_fs w) = Ok names ->
      In name names ->
      Fs.read (resolve w (OsPath.join directory name)) (w_fs w)
      = Fs.read (resolve w' (OsPath.join directory name)) (w_fs w').

(** The tables of the located files, in order. *)
Definition formatted_tables (directory dataset_name : string) (w : world)
  : result (list DataFrame) :=
  rbind (fst (list_files directory dataset_name w)) (rmapM (formatted_table w)).

(** What a compilation computes from the inputs found in [w], before
    anything is saved. *)
Definition compiled_table (directory dataset_name : string)
    (transformer_loss transmission_loss : float) (w : world) : result DataFrame :=
  rbind (formatted_tables directory dataset_name w)
        (fun frames =>
           rbind (Pd.concat frames)
                 (fun cat => Ok (Pd.mul_scalar (loss_factor transformer_loss transmission_loss) cat))).

(** The file tree after [os.makedirs(dir, exist_ok=True)] and writing
    [content] to [file]; [None] when one of the two fails. *)
Definition saved_tree (dir file content : string) (fs : gmap string node)
  : result (gmap string node) :=
  rbind (Fs.makedirs dir fs) (Fs.write file content).

(** A table whose index holds timestamps only. *)
Definition datetime_indexed (df : DataFrame) : Prop :=
  Forall (fun l => match l with LTime _ => True | _ => False end) (index df).

(** [max(0, y)] as Python evaluates it: the first argument is kept
    unless the second is greater. *)
Definition py_max0 (y : float) : float :=
  if PrimFloat.ltb PrimFloat.zero y then y else PrimFloat.zero.

(** "Not followed by a larger value": the order of a descending list. *)
Definition not_below (a b : float) : Prop := PrimFloat.ltb a b = false.

(** The order of a list sorted by descending key. *)
Definition desc {A : Type} (key : A -> float) (a b : A) : Prop :=
  not_below (key a) (key b).

(** The order in which [nlargest] ranks the rows: numbers by descending
    key, then the rows without a number. *)
Definition ranked {A : Type} (key : A -> float) (rows : list A) : list A :=
  Pd.sort_desc key (List.filter (fun r => negb (PrimFloat.is_nan (key r))) rows)
  ++ List.filter (fun r => PrimFloat.is_nan (key r)) rows.

(** Where [export_figure] puts its directory and a file of a given name. *)
Definition images_dir (w : world) : string :=
  resolve w (OsPath.join (w_cwd w) "images").

Definition image_file (w : world) (filename : string) : string :=
  resolve w (OsPath.join (OsPath.join (w_cwd w) "images") filename).

(** The file name that [plot_top_years] saves under. *)
Definition top_years_filename (top_n : Z) : string :=
  "top_" +:+ pretty top_n +:+ "_anos.png".

(** A name without a path separator, as directory entries are. *)
Definition no_sep (s : string) : bool :=
  forallb (fun c => negb (OsPath.is_sep c)) (OsPath.chars s).

(** Timestamps whose fields are in their calendar ranges. *)
Definition valid_clock (l : label) : Prop :=
  match l with
  | LTime t => (0 <= ts_hour t <= 23)%Z /\ (1 <= ts_month t <= 12)%Z
  | _ => False
  end.

(** The sum of the numbers of a list, taken from left to right with
    Kahan's compensation: [sum] is the sum so far and [comp] the rounding
    error carried along.  Cells without a number are passed over. *)
Fixpoint compensated (sum comp : float) (xs : list float) : float :=
  match xs with
  | [] => sum
  | x :: xs' =>
      if PrimFloat.is_nan x then compensated sum comp xs'
      else
        let y := PrimFloat.sub x comp in
        let t := PrimFloat.add sum y in
        let c := PrimFloat.sub (PrimFloat.sub t sum) y in
        compensated t (if PrimFloat.is_nan c then PrimFloat.zero else c) xs'
  end.

Definition compensated_sum (xs : list float) : float :=
  compensated PrimFloat.zero PrimFloat.zero xs.

(** The cells of column [j] in the rows of [data] whose timestamp lies
    in year [y], in row order. *)
Definition cells_of_year (data : DataFrame) (j : nat) (y : Z) : list float :=
  flat_map (fun r : label * list float =>
              match fst r with
              | LTime t => if (ts_year t =? y)%Z then [nth j (snd r) PrimFloat.nan] else []
              | _ => []
              end)
           (combine (index data) (values data)).

(** The sums of year [y], one per column of [data]. *)
Definition year_sums (data : DataFrame) (y : Z) : list float :=
  map (fun j => compensated_sum (cells_of_year data j y))
      (seq 0 (length (columns data))).

(** A row of one of the per-file tables as it stands in the compiled
    table: laid out for the columns [cols] of the compiled table, with a
    NaN where the file has no such column, and every cell multiplied by
    the loss factor [k]. *)
Definition compiled_row (k : float) (cols : list string)
    (source : list string * list float) (row : list float) : Prop :=
  length row = length cols
  /\ forall j c,
      nth_error cols j = Some c ->
      (forall i, nth_error (fst source) i = Some c ->
                 (forall i', i' < i -> nth_error (fst source) i' <> Some c) ->
                 nth j row PrimFloat.nan
                 = PrimFloat.mul (nth i (snd source) PrimFloat.nan) k)
      /\ (~ In c (fst source) ->
          nth j row PrimFloat.nan = PrimFloat.mul PrimFloat.nan k).

End Notions.

(** ** Proof automation *)

Ltac ascii_cases c H :=
  destruct c as [[] [] [] [] [] [] [] []]; vm_compute in H;
  try discriminate H; auto.

Ltac letters :=
  repeat match goal with
         | H : _ \/ _ |- _ => destruct H
         | H : _ /\ _ |- _ => destruct H
         end;
  subst; try discriminate; try congruence; try tauto; auto.

Ltac cmp_cases :=
  repeat match goal with
         | |- context [Pos.compare_cont Eq ?a ?b] =>
             change (Pos.compare_cont Eq a b) with (Pos.compare a b)
         | H : context [Pos.compare_cont Eq ?a ?b] |- _ =>
             change (Pos.compare_cont Eq a b) with (Pos.compare a b) in H
         end;
  repeat match goal with
         | H : context [Z.compare ?a ?b] |- _ =>
             destruct (Z.compare_spec a b); simpl in H
         | |- context [Z.compare ?a ?b] =>
             destruct (Z.compare_spec a b); simpl
         | H : context [Pos.compare ?a ?b] |- _ =>
             destruct (Pos.compare_spec a b); simpl in H
         | |- context [Pos.compare ?a ?b] =>
             destruct (Pos.compare_spec a b); simpl
         end;
  subst; try discriminate; try reflexivity; try lia.

(** * Properties *)

(** ** Strings and paths *)

Lemma startswith_spec (p s : string) :
  PyStr.startswith p s = true <-> exists post, s = p +:+ post.
Proof.
  revert s. induction p as [|a p IH]; intros s; simpl.
  - split; [intros _; exists s; reflexivity | reflexivity].
  - destruct s as [|b s]; simpl.
    + split; [discriminate | intros [post Hp]; discriminate].
    + rewrite andb_true_iff, IH. split.
      * intros [Hab [post ->]]. apply Ascii.eqb_eq in Hab. subst b.
        exists post. reflexivity.
      * intros [post Hp]. injection Hp as -> ->. split.
        -- apply Ascii.eqb_refl.
        -- exists post. reflexivity.
Qed.

Lemma contains_spec (sub s : string) :
  PyStr.contains sub s = true <-> exists pre post, s = pre +:+ sub +:+ post.
Proof.
  induction s as [|c s IH].
  - simpl. rewrite orb_false_r, startswith_spec. split.
    + intros [post Hp]. exists "", post. exact Hp.
    + intros [pre [post Hp]]. destruct pre; simpl in Hp; [|discriminate].
      exists post. exact Hp.
  - cbn [PyStr.contains]. rewrite orb_true_iff, startswith_spec, IH. split.
    + intros [[post Hp] | [pre [post Hp]]].
      * exists "", post. exact Hp.
      * exists (String c pre), post. simpl. rewrite Hp. reflexivity.
    + intros [pre [post Hp]]. destruct pre as [|c' pre]; simpl in Hp.
      * left. exists post. exact Hp.
      * right. injection Hp as _ Hp. exists pre, post. exact Hp.
Qed.

Lemma upper_empty (s : string) : PyStr.upper s = "" -> s = "".
Proof.
  destruct s as [|c1 [|c2 s2]]; cbn [PyStr.upper]; [reflexivity|discriminate|].
  destruct (PyStr.is_long_s c1 c2); discriminate.
Qed.

Lemma upper_ascii_S (c : ascii) :
  PyStr.upper_ascii c = "S"%char -> c = "S"%char \/ c = "s"%char.
Proof. intros Hc. ascii_cases c Hc. Qed.

Lemma upper_ascii_N (c : ascii) :
  PyStr.upper_ascii c = "N"%char -> c = "N"%char \/ c = "n"%char.
Proof. intros Hc. ascii_cases c Hc. Qed.

Lemma is_long_s_bytes (c1 c2 : ascii) :
  PyStr.is_long_s c1 c2 = true -> String c1 (String c2 "") = "ſ".
Proof.
  unfold PyStr.is_long_s. rewrite andb_true_iff, !Nat.eqb_eq. intros [H1 H2].
  rewrite <- (ascii_nat_embedding c1), <- (ascii_nat_embedding c2), H1, H2.
  reflexivity.
Qed.

(** The answers that read as [S]: the two ASCII letters and the long s. *)
Lemma upper_is_S (r : string) :
  PyStr.upper r = "S" <-> r = "S" \/ r = "s" \/ r = "ſ".
Proof.
  split.
  - destruct r as [|c1 [|c2 r2]]; cbn [PyStr.upper]; [discriminate| |].
    + intros Hu. injection Hu as Hc.
      destruct (upper_ascii_S c1 Hc) as [-> | ->]; auto.
    + destruct (PyStr.is_long_s c1 c2) eqn:El; intros Hu.
      * injection Hu as Hr. apply upper_empty in Hr. subst r2.
        right. right. apply is_long_s_bytes. exact El.
      * injection Hu as _ Hr.
        destruct r2 as [|c3 r3]; [discriminate Hr|].
        destruct (PyStr.is_long_s c2 c3); discriminate Hr.
  - intros [-> | [-> | ->]]; reflexivity.
Qed.

Lemma upper_is_N (r : string) : PyStr.upper r = "N" <-> r = "N" \/ r = "n".
Proof.
  split.
  - destruct r as [|c1 [|c2 r2]]; cbn [PyStr.upper]; [discriminate| |].
    + intros Hu. injection Hu as Hc.
      destruct (upper_ascii_N c1 Hc) as [-> | ->]; auto.
    + destruct (PyStr.is_long_s c1 c2) eqn:El; intros Hu.
      * discriminate Hu.
      * injection Hu as _ Hr.
        destruct r2 as [|c3 r3]; [discriminate Hr|].
        destruct (PyStr.is_long_s c2 c3); discriminate Hr.
  - intros [-> | ->]; reflexivity.
Qed.

Lemma append_assoc (a b c : string) : (a +:+ b) +:+ c = a +:+ b +:+ c.
Proof.
  induction a as [|x a IH]; [reflexivity|].
  change (String x ((a +:+ b) +:+ c) = String x (a +:+ b +:+ c)).
  rewrite IH. reflexivity.
Qed.

(** A joined path ends with the entry name, so a name that contains the
    dataset name always yields a matching path. *)
Lemma join_suffix (a b : string) : exists pre, OsPath.join a b = pre +:+ b.
Proof.
  unfold OsPath.join. destruct (PyStr.startswith "/" b).
  - exists "". reflexivity.
  - destruct (String.eqb a "" || PyStr.endswith_char OsPath.sep a)%bool.
    + exists a. reflexivity.
    + exists (a +:+ "/"). symmetry. apply append_assoc.
Qed.

Lemma contains_join_name (directory name sub : string) :
  PyStr.contains sub name = true ->
  PyStr.contains sub (OsPath.join directory name) = true.
Proof.
  rewrite !contains_spec. intros [pre [post ->]].
  destruct (join_suffix directory (pre +:+ sub +:+ post)) as [q ->].
  exists (q +:+ pre), post. rewrite !append_assoc. reflexivity.
Qed.

(** ** The File Locator *)

Lemma list_files_run (directory dataset_name : string) (w : world) :
  list_files directory dataset_name w
  = (rbind (Fs.listdir (resolve w directory) (w_fs w))
           (fun names =>
              Ok (List.filter (PyStr.contains dataset_name)
                              (map (OsPath.join directory) names))),
     log (EvListdir directory) w).
Proof.
  unfold list_files, bind, listdir, ret. simpl.
  destruct (Fs.listdir (resolve w directory) (w_fs w)); reflexivity.
Qed.

(** C4, as amended: the File Locator keeps the entries whose joined
    path (directory joined with the entry name) contains the dataset
    name, in listing order.  Every entry whose own name contains it is
    among them, and the result is empty when no joined path contains it. *)
Theorem list_files_filters_joined_paths
    (directory dataset_name : string) (w : world) (names : list string) :
  Fs.listdir (resolve w directory) (w_fs w) = Ok names ->
  let joined := map (OsPath.join directory) names in
  let found := List.filter (PyStr.contains dataset_name) joined in
  fst (list_files directory dataset_name w) = Ok found
  /\ (forall p, In p found <->
                In p joined /\ exists pre post, p = pre +:+ dataset_name +:+ post)
  /\ (forall name, In name names -> PyStr.contains dataset_name name = true ->
                   In (OsPath.join directory name) found)
  /\ ((forall name, In name names ->
                    PyStr.contains dataset_name (OsPath.join directory name) = false) ->
      found = []).
Proof.
  intros Hls joined found. rewrite list_files_run, Hls. simpl.
  split; [reflexivity|]. split; [|split].
  - intros p. unfold found. rewrite filter_In, contains_spec. reflexivity.
  - intros name Hin Hc. unfold found. apply filter_In. split.
    + unfold joined. apply in_map. exact Hin.
    + apply contains_join_name. exact Hc.
  - intros Hnone. unfold found, joined.
    clear Hls joined found. induction names as [|n names IH]; [reflexivity|].
    simpl. rewrite (Hnone n (or_introl eq_refl)).
    apply IH. intros name Hin. apply Hnone. right. exact Hin.
Qed.

Lemma list_files_filters_joined_paths_witness :
  fst (list_files "src" "Solcast" (Demo.world0 []))
  = Ok ["src/Solcast_A.csv"; "src/Solcast_B.csv"].
Proof.
  apply (list_files_filters_joined_paths "src" "Solcast" (Demo.world0 [])
           ["Solcast_A.csv"; "notes.txt"; "Solcast_B.csv"]).
  vm_compute. reflexivity.
Defined.

(** C4, as stated, fails: in a directory called [Solcast] no entry name
    contains the dataset name, and the only entry is returned all the
    same, because its joined path does. *)
Lemma list_files_by_name_counterexample :
  Fs.listdir (resolve Demo.world_named "Solcast") (w_fs Demo.world_named) = Ok ["notes.txt"]
  /\ List.filter (PyStr.contains "Solcast") ["notes.txt"] = []
  /\ fst (list_files "Solcast" "Solcast" Demo.world_named) = Ok ["Solcast/notes.txt"]
  /\ fst (list_files "Solcast" "Solcast" Demo.world_named)
     <> Ok (map (OsPath.join "Solcast")
                (List.filter (PyStr.contains "Solcast") ["notes.txt"])).
Proof.
  repeat split; try (vm_compute; reflexivity).
  vm_compute. discriminate.
Qed.

(** ** The interactive gate *)

Lemma check_absent (file_path : string) (w : world) :
  Fs.exists_ (resolve w file_path) (w_fs w) = false ->
  check_file_processing file_path w = (Ok true, log (EvExists file_path) w).
Proof.
  intros Hno. unfold check_file_processing, bind, path_exists. rewrite Hno.
  reflexivity.
Qed.

(** The world after the prompt was shown and one line was consumed. *)
Lemma check_present (file_path : string) (w : world) (line : string) (rest : list string) :
  Fs.exists_ (resolve w file_path) (w_fs w) = true ->
  w_stdin w = line :: rest ->
  check_file_processing file_path w
  = (if String.eqb (PyStr.upper line) "S" then Ok true
     else if String.eqb (PyStr.upper line) "N" then Ok false
     else Raise invalid_answer,
     mkWorld (w_cwd w) (w_fs w) rest (w_stdout w ++ [prompt_text])
             (w_trace w ++ [EvExists file_path] ++ [EvInput prompt_text])).
Proof.
  intros Hyes Hin. unfold check_file_processing, bind, path_exists, input.
  rewrite Hyes. simpl. rewrite Hin. simpl.
  rewrite <- app_assoc.
  destruct (String.eqb (PyStr.upper line) "S"); [reflexivity|].
  destruct (String.eqb (PyStr.upper line) "N"); reflexivity.
Qed.

(** The check answers [True] exactly in a fresh compilation. *)
Lemma fresh_gate (dataset_name : string) (w : world) :
  fresh dataset_name w <-> gate dataset_name w = Ok true.
Proof.
  unfold fresh, gate. cbv zeta.
  set (out := output_file_of (w_cwd w) dataset_name).
  destruct (Fs.exists_ (resolve w out) (w_fs w)) eqn:Hex.
  - split.
    + intros [Hno | (_ & line & rest & Hin & Hs)]; [discriminate|].
      rewrite (check_present out w line rest Hex Hin), Hs. reflexivity.
    + intros Hg. right. split; [reflexivity|].
      destruct (w_stdin w) as [|line rest] eqn:Hin.
      * unfold check_file_processing, bind, path_exists, input in Hg.
        rewrite Hex in Hg. cbn [fst snd log w_stdin] in Hg. rewrite Hin in Hg.
        discriminate Hg.
      * exists line, rest. split; [reflexivity|].
        rewrite (check_present out w line rest Hex Hin) in Hg. cbn [fst] in Hg.
        destruct (String.eqb_spec (PyStr.upper line) "S") as [Hs|_]; [exact Hs|].
        destruct (String.eqb (PyStr.upper line) "N"); discriminate Hg.
  - split; [|intros _; left; reflexivity].
    intros _. rewrite (check_absent out w Hex). reflexivity.
Qed.

(** C6: when the file exists, the answers [S] and [s] (and the long s,
    whose upper case is [S]) mean "process again", [N] and [n] mean
    "reuse", and every other line raises the value error with its
    message; the prompt is shown once. *)
Theorem check_file_processing_answers
    (file_path : string) (w : world) (line : string) (rest : list string) :
  Fs.exists_ (resolve w file_path) (w_fs w) = true ->
  w_stdin w = line :: rest ->
  let r := fst (check_file_processing file_path w) in
  (r = Ok true <-> PyStr.upper line = "S")
  /\ (r = Ok false <-> PyStr.upper line = "N")
  /\ (r = Raise (ValueError "Por favor, insira uma resposta válida (S/N)")
      <-> PyStr.upper line <> "S" /\ PyStr.upper line <> "N")
  /\ (PyStr.upper line = "S" <-> line = "S" \/ line = "s" \/ line = "ſ")
  /\ (PyStr.upper line = "N" <-> line = "N" \/ line = "n")
  /\ w_stdout (snd (check_file_processing file_path w))
     = w_stdout w ++ ["Arquivo já existe, deseja processar e salvar outra versão? (S/N)"].
Proof.
  intros Hyes Hin r. unfold r. rewrite (check_present _ _ _ _ Hyes Hin). simpl.
  pose proof (upper_is_S line) as HS. pose proof (upper_is_N line) as HN.
  destruct (String.eqb_spec (PyStr.upper line) "S") as [Hs | Hs];
    [|destruct (String.eqb_spec (PyStr.upper line) "N") as [Hn | Hn]].
  - assert (PyStr.upper line <> "N") by (rewrite Hs; discriminate).
    repeat split; intros; letters.
  - repeat split; intros; letters.
  - repeat split; intros; letters.
Qed.

Lemma check_file_processing_answers_witness :
  fst (check_file_processing "/home/u/data/output/dados_compilados_Solcast.csv"
                             (Demo.world_cached ["x"]))
  = Raise (ValueError "Por favor, insira uma resposta válida (S/N)").
Proof.
  apply (check_file_processing_answers
           "/home/u/data/output/dados_compilados_Solcast.csv"
           (Demo.world_cached ["x"]) "x" []).
  - vm_compute. reflexivity.
  - reflexivity.
  - split; vm_compute; discriminate.
Defined.

(** C7: an invalid answer makes [compile_data] raise the value error
    right after the prompt: the trace holds the existence check and the
    prompt and nothing else (no listing, no read, no directory creation,
    no write), and the file tree is the one it started from. *)
Theorem compile_data_invalid_answer `{Libraries}
    (directory dataset_name : string) (transformer_loss transmission_loss : float)
    (save_data : bool) (w : world) (line : string) (rest : list string) :
  Fs.exists_ (resolve w (output_file_of (w_cwd w) dataset_name)) (w_fs w) = true ->
  w_stdin w = line :: rest ->
  PyStr.upper line <> "S" ->
  PyStr.upper line <> "N" ->
  let run := compile_data directory dataset_name transformer_loss transmission_loss save_data w in
  fst run = Raise (ValueError "Por favor, insira uma resposta válida (S/N)")
  /\ w_fs (snd run) = w_fs w
  /\ w_cwd (snd run) = w_cwd w
  /\ w_trace (snd run)
     = w_trace w ++ [EvExists (output_file_of (w_cwd w) dataset_name); EvInput prompt_text].
Proof.
  intros Hyes Hin Hs Hn run. unfold run, compile_data, bind, getcwd.
  rewrite (check_present _ _ _ _ Hyes Hin).
  destruct (String.eqb_spec (PyStr.upper line) "S") as [|_]; [contradiction|].
  destruct (String.eqb_spec (PyStr.upper line) "N") as [|_]; [contradiction|].
  simpl. repeat split.
Qed.

Lemma compile_data_invalid_answer_witness :
  fst (compile_data "src" "Solcast" 0.5%float 0.25%float true (Demo.world_cached ["X"]))
  = Raise (ValueError "Por favor, insira uma resposta válida (S/N)")
  /\ w_fs (snd (compile_data "src" "Solcast" 0.5%float 0.25%float true (Demo.world_cached ["X"])))
     = w_fs (Demo.world_cached ["X"]).
Proof.
  destruct (compile_data_invalid_answer "src" "Solcast" 0.5%float 0.25%float true
              (Demo.world_cached ["X"]) "X" []) as (Hr & Hfs & _).
  - vm_compute. reflexivity.
  - reflexivity.
  - vm_compute. discriminate.
  - vm_compute. discriminate.
  - split; [exact Hr | exact Hfs].
Defined.

(** ** Reading the source files never changes the world beyond the trace *)

Lemma log_fs (e : event) (w : world) : w_fs (log e w) = w_fs w.
Proof. reflexivity. Qed.

Lemma log_cwd (e : event) (w : world) : w_cwd (log e w) = w_cwd w.
Proof. reflexivity. Qed.

Lemma read_and_format_data_run `{Libraries} (file : string) (kw : read_csv_kwargs) (w : world) :
  read_and_format_data file kw w
  = (rbind (Fs.read (resolve w file) (w_fs w))
           (fun text => rbind (pd_parse_csv kw text) format_data),
     log (EvRead file) w).
Proof.
  unfold read_and_format_data, Pd.read_csv, bind, read_text, lift. simpl.
  destruct (Fs.read (resolve w file) (w_fs w)) as [text|e]; simpl; [|reflexivity].
  destruct (pd_parse_csv kw text); reflexivity.
Qed.

(** The table of a file depends on the working directory and the file
    tree only. *)
Lemma formatted_table_frame `{Libraries} (w w' : world) (file : string) :
  w_cwd w' = w_cwd w -> w_fs w' = w_fs w ->
  formatted_table w' file = formatted_table w file.
Proof.
  intros Hc Hf. unfold formatted_table. rewrite !read_and_format_data_run. simpl.
  unfold resolve. rewrite Hc, Hf. reflexivity.
Qed.

(** The loop over the files: its result is the list of the files'
    tables, and the world afterwards differs by the trace only. *)
Lemma rmapM_ext {A B : Type} (f g : A -> result B) (l : list A) :
  (forall x, f x = g x) -> rmapM f l = rmapM g l.
Proof.
  intros Hfg. induction l as [|a l IH]; simpl; [reflexivity|].
  rewrite Hfg, IH. reflexivity.
Qed.

Lemma read_all_run `{Libraries} (files : list string) (w : world) :
  let run := mapM (fun file => read_and_format_data file source_kwargs) files w in
  fst run = rmapM (formatted_table w) files
  /\ w_fs (snd run) = w_fs w
  /\ w_cwd (snd run) = w_cwd w
  /\ w_stdin (snd run) = w_stdin w
  /\ w_stdout (snd run) = w_stdout w.
Proof.
  revert w. induction files as [|file files IH]; intros w run.
  - repeat split.
  - unfold run. cbn [mapM rmapM]. unfold bind. unfold formatted_table at 1.
    rewrite read_and_format_data_run. cbn [fst snd].
    destruct (rbind (Fs.read (resolve w file) (w_fs w))
                    (fun text => rbind (pd_parse_csv source_kwargs text) format_data))
      as [b|e]; [|repeat split].
    specialize (IH (log (EvRead file) w)). cbv zeta in IH.
    rewrite (rmapM_ext (formatted_table (log (EvRead file) w)) (formatted_table w)) in IH
      by (intros x; apply formatted_table_frame; reflexivity).
    destruct (mapM (fun file0 => read_and_format_data file0 source_kwargs) files
                   (log (EvRead file) w)) as [[bs|e] w'];
      cbn [fst snd] in IH; destruct IH as (I1 & I2 & I3 & I4 & I5);
      rewrite <- I1; cbn [rbind fst snd ret]; repeat split; assumption.
Qed.


(** ** The processing branch *)

Lemma update_fs_run (e : event) (f : gmap string node -> result (gmap string node)) (w : world) :
  update_fs e f w
  = (rbind (f (w_fs w)) (fun _ => Ok tt),
     log e (set_fs (match f (w_fs w) with Ok fs' => fs' | Raise _ => w_fs w end) w)).
Proof.
  unfold update_fs. destruct (f (w_fs w)); [reflexivity|].
  destruct w; reflexivity.
Qed.

(** Without saving, the branch returns the compiled table and leaves
    the file tree and the terminal as they were. *)
Lemma compile_fresh_unsaved `{Libraries}
    (directory dataset_name : string) (transformer_loss transmission_loss : float)
    (output_dir output_file : string) (w : world) :
  let run := compile_fresh directory dataset_name transformer_loss transmission_loss
                           false output_dir output_file w in
  fst run = compiled_table directory dataset_name transformer_loss transmission_loss w
  /\ w_fs (snd run) = w_fs w
  /\ w_cwd (snd run) = w_cwd w
  /\ w_stdin (snd run) = w_stdin w
  /\ w_stdout (snd run) = w_stdout w.
Proof.
  intros run. unfold run, compile_fresh, compiled_table, formatted_tables, bind.
  rewrite list_files_run. cbn [fst snd].
  destruct (rbind (Fs.listdir (resolve w directory) (w_fs w)) _) as [files|e];
    cbn [rbind]; [|repeat split].
  pose proof (read_all_run files (log (EvListdir directory) w)) as Hread.
  cbv zeta in Hread.
  rewrite (rmapM_ext (formatted_table (log (EvListdir directory) w)) (formatted_table w))
    in Hread by (intros x; apply formatted_table_frame; reflexivity).
  destruct (mapM _ files (log (EvListdir directory) w)) as [[frames|e] w2];
    cbn [fst snd] in Hread; destruct Hread as (R1 & R2 & R3 & R4 & R5);
    rewrite <- R1; cbn [rbind]; [|repeat split; assumption].
  unfold lift. destruct (Pd.concat frames) as [cat|e]; cbn [rbind fst snd ret];
    repeat split; assumption.
Qed.

(** With saving, the same table is computed first; then the output
    directory is created and the table written, and a failure of either
    step is the only way to lose the result. *)
Lemma compile_fresh_saved `{Libraries}
    (directory dataset_name : string) (transformer_loss transmission_loss : float)
    (output_dir output_file : string) (w : world) :
  let run := compile_fresh directory dataset_name transformer_loss transmission_loss
                           true output_dir output_file w in
  match compiled_table directory dataset_name transformer_loss transmission_loss w with
  | Raise e => fst run = Raise e /\ w_fs (snd run) = w_fs w
  | Ok df =>
      match Fs.makedirs (resolve w output_dir) (w_fs w) with
      | Raise e => fst run = Raise e /\ w_fs (snd run) = w_fs w
      | Ok fs1 =>
          match Fs.write (resolve w output_file) (pd_format_csv df) fs1 with
          | Raise e => fst run = Raise e /\ w_fs (snd run) = fs1
          | Ok fs2 => fst run = Ok df /\ w_fs (snd run) = fs2
          end
      end
  end
  /\ w_cwd (snd run) = w_cwd w
  /\ w_stdin (snd run) = w_stdin w
  /\ w_stdout (snd run) = w_stdout w.
Proof.
  intros run. unfold run, compile_fresh, compiled_table, formatted_tables, bind.
  rewrite list_files_run. cbn [fst snd].
  destruct (rbind (Fs.listdir (resolve w directory) (w_fs w)) _) as [files|e];
    cbn [rbind]; [|repeat split].
  pose proof (read_all_run files (log (EvListdir directory) w)) as Hread.
  cbv zeta in Hread.
  rewrite (rmapM_ext (formatted_table (log (EvListdir directory) w)) (formatted_table w))
    in Hread by (intros x; apply formatted_table_frame; reflexivity).
  destruct (mapM _ files (log (EvListdir directory) w)) as [[frames|e] w2];
    cbn [fst snd] in Hread; destruct Hread as (R1 & R2 & R3 & R4 & R5);
    cbn [log w_fs w_cwd w_stdin w_stdout] in R2, R3, R4, R5;
    rewrite <- R1; cbn [rbind]; [|repeat split; assumption].
  unfold lift. destruct (Pd.concat frames) as [cat|e]; cbn [rbind fst snd ret];
    [|repeat split; assumption].
  unfold makedirs_exist_ok, Pd.to_csv, write_text. rewrite update_fs_run.
  unfold resolve. rewrite R3, R2.
  destruct (Fs.makedirs (OsPath.join (w_cwd w) output_dir) (w_fs w)) as [fs1|e];
    cbn [rbind fst snd]; [|repeat split; assumption].
  rewrite update_fs_run. cbn [log set_fs w_cwd w_fs]. rewrite R3.
  destruct (Fs.write _ _ fs1) as [fs2|e]; cbn [rbind fst snd log set_fs w_fs w_cwd w_stdin w_stdout];
    repeat split; assumption.
Qed.

(** ** The two branches of [compile_data] *)

Lemma check_frame (file_path : string) (w : world) :
  w_fs (snd (check_file_processing file_path w)) = w_fs w
  /\ w_cwd (snd (check_file_processing file_path w)) = w_cwd w.
Proof.
  unfold check_file_processing, bind, path_exists, input. cbn [fst snd].
  destruct (Fs.exists_ (resolve w file_path) (w_fs w)); [|split; reflexivity].
  cbn [log w_stdin]. destruct (w_stdin w) as [|line rest]; [split; reflexivity|].
  destruct (String.eqb (PyStr.upper line) "S"); [split; reflexivity|].
  destruct (String.eqb (PyStr.upper line) "N"); split; reflexivity.
Qed.

Lemma compile_data_when_fresh `{Libraries}
    (directory dataset_name : string) (transformer_loss transmission_loss : float)
    (save_data : bool) (w : world) :
  gate dataset_name w = Ok true ->
  compile_data directory dataset_name transformer_loss transmission_loss save_data w
  = compile_fresh directory dataset_name transformer_loss transmission_loss save_data
                  (output_dir_of (w_cwd w)) (output_file_of (w_cwd w) dataset_name)
                  (snd (check_file_processing (output_file_of (w_cwd w) dataset_name) w)).
Proof.
  unfold gate, compile_data, bind, getcwd.
  destruct (check_file_processing (output_file_of (w_cwd w) dataset_name) w) as [[b|e] w1];
    cbn [fst snd]; intros Hg; [|discriminate].
  injection Hg as ->. reflexivity.
Qed.

Lemma compile_data_when_cached `{Libraries}
    (directory dataset_name : string) (transformer_loss transmission_loss : float)
    (save_data : bool) (w : world) :
  gate dataset_name w = Ok false ->
  compile_data directory dataset_name transformer_loss transmission_loss save_data w
  = Pd.read_csv (output_file_of (w_cwd w) dataset_name) compiled_kwargs
                (snd (check_file_processing (output_file_of (w_cwd w) dataset_name) w)).
Proof.
  unfold gate, compile_data, bind, getcwd.
  destruct (check_file_processing (output_file_of (w_cwd w) dataset_name) w) as [[b|e] w1];
    cbn [fst snd]; intros Hg; [|discriminate].
  injection Hg as ->. reflexivity.
Qed.

(** The compiled table is a function of the working directory and the
    file tree. *)
Lemma compiled_table_frame `{Libraries}
    (directory dataset_name : string) (transformer_loss transmission_loss : float)
    (w w' : world) :
  w_cwd w' = w_cwd w -> w_fs w' = w_fs w ->
  compiled_table directory dataset_name transformer_loss transmission_loss w'
  = compiled_table directory dataset_name transformer_loss transmission_loss w.
Proof.
  intros Hc Hf. unfold compiled_table, formatted_tables.
  rewrite !list_files_run. cbn [fst]. unfold resolve. rewrite Hc, Hf.
  destruct (rbind (Fs.listdir _ _) _) as [files|e]; cbn [rbind]; [|reflexivity].
  rewrite (rmapM_ext (formatted_table w') (formatted_table w))
    by (intros x; apply formatted_table_frame; assumption).
  reflexivity.
Qed.

(** A processing run returns the compiled table of the world it started
    in, whenever it returns a table at all. *)
Lemma compile_data_fresh_result `{Libraries}
    (directory dataset_name : string) (transformer_loss transmission_loss : float)
    (save_data : bool) (w : world) (df : DataFrame) :
  gate dataset_name w = Ok true ->
  fst (compile_data directory dataset_name transformer_loss transmission_loss save_data w) = Ok df ->
  compiled_table directory dataset_name transformer_loss transmission_loss w = Ok df.
Proof.
  intros Hg. rewrite (compile_data_when_fresh _ _ _ _ _ _ Hg).
  destruct (check_frame (output_file_of (w_cwd w) dataset_name) w) as [Hf Hc].
  set (w1 := snd (check_file_processing (output_file_of (w_cwd w) dataset_name) w)) in *.
  rewrite <- (compiled_table_frame directory dataset_name transformer_loss transmission_loss
                w w1 Hc Hf).
  destruct save_data.
  - pose proof (compile_fresh_saved directory dataset_name transformer_loss transmission_loss
                  (output_dir_of (w_cwd w)) (output_file_of (w_cwd w) dataset_name) w1) as Hs.
    cbv zeta in Hs. destruct Hs as [Hs _].
    destruct (compiled_table directory dataset_name transformer_loss transmission_loss w1)
      as [t|e]; [|destruct Hs as [-> _]; discriminate].
    destruct (Fs.makedirs _ _) as [fs1|e]; [|destruct Hs as [-> _]; discriminate].
    destruct (Fs.write _ _ fs1) as [fs2|e]; destruct Hs as [-> _]; [|discriminate].
    intros Hdf. exact Hdf.
  - pose proof (compile_fresh_unsaved directory dataset_name transformer_loss transmission_loss
                  (output_dir_of (w_cwd w)) (output_file_of (w_cwd w) dataset_name) w1) as Hs.
    cbv zeta in Hs. destruct Hs as [-> _]. intros Hdf. exact Hdf.
Qed.

(** C10: when the output file does not exist, the check answers [True]
    at once: nothing is printed and no line is taken from the terminal,
    and [compile_data] runs the processing branch, which does not touch
    the terminal either. *)
Theorem first_compile_skips_prompt `{Libraries}
    (directory dataset_name : string) (transformer_loss transmission_loss : float)
    (save_data : bool) (w : world) :
  Fs.exists_ (resolve w (output_file_of (w_cwd w) dataset_name)) (w_fs w) = false ->
  let out := output_file_of (w_cwd w) dataset_name in
  let run := compile_data directory dataset_name transformer_loss transmission_loss save_data w in
  check_file_processing out w = (Ok true, log (EvExists out) w)
  /\ w_stdin (snd (check_file_processing out w)) = w_stdin w
  /\ w_stdout (snd (check_file_processing out w)) = w_stdout w
  /\ run = compile_fresh directory dataset_name transformer_loss transmission_loss save_data
                         (output_dir_of (w_cwd w)) out (log (EvExists out) w)
  /\ w_stdin (snd run) = w_stdin w
  /\ w_stdout (snd run) = w_stdout w.
Proof.
  intros Hno out run.
  pose proof (check_absent out w Hno) as Hc.
  assert (Hg : gate dataset_name w = Ok true) by (unfold gate; fold out; rewrite Hc; reflexivity).
  assert (Hrun : run = compile_fresh directory dataset_name transformer_loss transmission_loss
                         save_data (output_dir_of (w_cwd w)) out (log (EvExists out) w)).
  { unfold run. rewrite (compile_data_when_fresh _ _ _ _ _ _ Hg). fold out. rewrite Hc.
    reflexivity. }
  rewrite Hc. cbn [fst snd log w_stdin w_stdout].
  split; [reflexivity|]. split; [reflexivity|]. split; [reflexivity|].
  split; [exact Hrun|]. rewrite Hrun. destruct save_data.
  - pose proof (compile_fresh_saved directory dataset_name transformer_loss transmission_loss
                  (output_dir_of (w_cwd w)) out (log (EvExists out) w)) as Hs.
    cbv zeta in Hs. destruct Hs as (_ & _ & Hi & Ho). split; assumption.
  - pose proof (compile_fresh_unsaved directory dataset_name transformer_loss transmission_loss
                  (output_dir_of (w_cwd w)) out (log (EvExists out) w)) as Hs.
    cbv zeta in Hs. destruct Hs as (_ & _ & _ & Hi & Ho). split; assumption.
Qed.

Lemma first_compile_skips_prompt_witness :
  w_stdin (snd (compile_data "src" "Solcast" 0.5%float 0.25%float true (Demo.world0 ["S"])))
  = ["S"].
Proof.
  apply (first_compile_skips_prompt "src" "Solcast" 0.5%float 0.25%float true
           (Demo.world0 ["S"])).
  vm_compute. reflexivity.
Defined.

(** C5: when the output file exists and the answer is [N] or [n],
    [compile_data] returns what reading that file gives (first column as
    index, dates parsed).  The directory, the loss factors and the save
    flag play no part: any other choice of them gives the same run.  The
    only file operation is that one read, and the tree is unchanged. *)
Theorem compile_data_reuses_saved_file `{Libraries}
    (directory dataset_name : string) (transformer_loss transmission_loss : float)
    (save_data : bool) (w : world) (line : string) (rest : list string) :
  Fs.exists_ (resolve w (output_file_of (w_cwd w) dataset_name)) (w_fs w) = true ->
  w_stdin w = line :: rest ->
  PyStr.upper line = "N" ->
  let out := output_file_of (w_cwd w) dataset_name in
  let run := compile_data directory dataset_name transformer_loss transmission_loss save_data w in
  fst run = rbind (Fs.read (resolve w out) (w_fs w))
                  (pd_parse_csv (mkKwargs 0 "," "utf-8" (Some O) "." true))
  /\ w_fs (snd run) = w_fs w
  /\ w_trace (snd run) = w_trace w ++ [EvExists out; EvInput prompt_text; EvRead out]
  /\ forall directory' transformer_loss' transmission_loss' save_data',
      compile_data directory' dataset_name transformer_loss' transmission_loss' save_data' w
      = run.
Proof.
  intros Hyes Hin Hn out run.
  pose proof (check_present out w line rest Hyes Hin) as Hc.
  rewrite Hn in Hc. cbn [String.eqb] in Hc.
  change (String.eqb "N" "S") with false in Hc.
  change (String.eqb "N" "N") with true in Hc. cbv iota in Hc.
  assert (Hg : gate dataset_name w = Ok false) by (unfold gate; fold out; rewrite Hc; reflexivity).
  assert (Hall : forall d tl txl s,
             compile_data d dataset_name tl txl s w
             = Pd.read_csv out compiled_kwargs
                 (mkWorld (w_cwd w) (w_fs w) rest (w_stdout w ++ [prompt_text])
                          (w_trace w ++ [EvExists out] ++ [EvInput prompt_text]))).
  { intros d tl txl s. rewrite (compile_data_when_cached _ _ _ _ _ _ Hg). fold out.
    rewrite Hc. reflexivity. }
  unfold run. rewrite Hall.
  repeat split.
  - unfold Pd.read_csv, bind, read_text, lift, resolve. cbn [fst snd w_cwd w_fs log].
    destruct (Fs.read _ _); reflexivity.
  - unfold Pd.read_csv, bind, read_text, lift. cbn [fst snd].
    destruct (Fs.read _ _); reflexivity.
  - unfold Pd.read_csv, bind, read_text, lift. cbn [fst snd].
    destruct (Fs.read _ _); cbn [snd log w_trace]; rewrite <- !app_assoc; reflexivity.
  - intros d tl txl s. apply Hall.
Qed.

Lemma compile_data_reuses_saved_file_witness :
  fst (compile_data "src" "Solcast" 0.5%float 0.25%float true (Demo.world_cached ["n"]))
  = Ok Demo.cached.
Proof.
  destruct (compile_data_reuses_saved_file "src" "Solcast" 0.5%float 0.25%float true
              (Demo.world_cached ["n"]) "n" []) as [Hr _].
  - vm_compute. reflexivity.
  - reflexivity.
  - reflexivity.
  - rewrite Hr. vm_compute. reflexivity.
Defined.

(** ** Order on binary64 values *)

Lemma sf_zero : Prim2SF PrimFloat.zero = S754_zero false.
Proof. vm_compute. reflexivity. Qed.

Lemma SFcompare_refl (x : spec_float) :
  x <> S754_nan -> SFcompare x x = Some Eq.
Proof.
  destruct x as [s|s| |s m e]; intros Hx; try contradiction; simpl.
  - reflexivity.
  - destruct s; reflexivity.
  - rewrite Z.compare_refl.
    change (Pos.compare_cont Eq m m) with (Pos.compare m m).
    rewrite Pos.compare_refl. destruct s; reflexivity.
Qed.

Lemma is_nan_spec (x : float) :
  PrimFloat.is_nan x = match Prim2SF x with S754_nan => true | _ => false end.
Proof.
  unfold PrimFloat.is_nan. rewrite FloatAxioms.eqb_spec. unfold SFeqb.
  destruct (Prim2SF x) eqn:E; try (rewrite SFcompare_refl by discriminate; reflexivity).
  reflexivity.
Qed.

Lemma SFltb_asym (x y : spec_float) : SFltb x y = true -> SFltb y x = false.
Proof.
  unfold SFltb.
  destruct x as [s1|s1| |s1 m1 e1], y as [s2|s2| |s2 m2 e2]; simpl;
    try destruct s1; try destruct s2; simpl; intros Hlt;
    try discriminate; try reflexivity; cmp_cases.
Qed.

Lemma SFltb_neg_trans (x y z : spec_float) :
  y <> S754_nan ->
  SFltb x y = false -> SFltb y z = false -> SFltb x z = false.
Proof.
  unfold SFltb.
  destruct x as [s1|s1| |s1 m1 e1], y as [s2|s2| |s2 m2 e2], z as [s3|s3| |s3 m3 e3];
    simpl; intros Hy; try contradiction;
    try destruct s1; try destruct s2; try destruct s3; simpl; intros H1 H2;
    try discriminate; try reflexivity; cmp_cases.
Qed.

Lemma ltb_asym (x y : float) : PrimFloat.ltb x y = true -> PrimFloat.ltb y x = false.
Proof. rewrite !FloatAxioms.ltb_spec. apply SFltb_asym. Qed.

(** "Not below" is transitive through a value that is a number. *)
Lemma not_below_trans (x y z : float) :
  PrimFloat.is_nan y = false ->
  not_below x y -> not_below y z -> not_below x z.
Proof.
  unfold not_below. rewrite is_nan_spec, !FloatAxioms.ltb_spec. intros Hy.
  apply SFltb_neg_trans. intros E. rewrite E in Hy. discriminate.
Qed.

Lemma eqb_refl_number (y : float) :
  PrimFloat.is_nan y = false -> PrimFloat.eqb y y = true.
Proof. unfold PrimFloat.is_nan. destruct (PrimFloat.eqb y y); [reflexivity | discriminate]. Qed.

(** A number that is neither below nor above zero is a zero. *)
Lemma between_zero (y : float) :
  PrimFloat.is_nan y = false ->
  PrimFloat.ltb y PrimFloat.zero = false ->
  PrimFloat.ltb PrimFloat.zero y = false ->
  PrimFloat.eqb y PrimFloat.zero = true.
Proof.
  rewrite is_nan_spec, !FloatAxioms.ltb_spec, FloatAxioms.eqb_spec, sf_zero.
  unfold SFltb, SFeqb.
  destruct (Prim2SF y) as [s|s| |s m e]; simpl; try destruct s; simpl;
    intros; try discriminate; reflexivity.
Qed.

(** ** The Record Parser *)

Lemma clamp_never_negative (x : float) :
  PrimFloat.ltb (clamp_negative x) PrimFloat.zero = false.
Proof.
  unfold clamp_negative.
  destruct (PrimFloat.ltb x PrimFloat.zero) eqn:E; [vm_compute; reflexivity | exact E].
Qed.

(** On numbers the clamp agrees with Python's [max(0, y)], up to the
    sign of a zero. *)
Lemma clamp_is_max0 (y : float) :
  PrimFloat.is_nan y = false ->
  PrimFloat.eqb (clamp_negative y) (py_max0 y) = true.
Proof.
  intros Hy. unfold clamp_negative, py_max0.
  destruct (PrimFloat.ltb y PrimFloat.zero) eqn:A;
    destruct (PrimFloat.ltb PrimFloat.zero y) eqn:B.
  - apply ltb_asym in A. congruence.
  - vm_compute. reflexivity.
  - apply eqb_refl_number. exact Hy.
  - apply between_zero; assumption.
Qed.

Lemma format_data_shape `{Libraries} (raw df : DataFrame) :
  format_data raw = Ok df ->
  columns df = map (fun c => if String.eqb c "kW" then "Energy" else c) (columns raw)
  /\ values df = map (map (fun x => clamp_negative (PrimFloat.div x one_thousand))) (values raw)
  /\ Pd.to_datetime "%d/%m/%y %H:%M" (index raw) = Ok (index df).
Proof.
  cbv beta iota zeta delta
      [format_data Pd.set_index Pd.map_cells Pd.div_scalar Pd.rename_column].
  cbn [index columns values].
  destruct (Pd.to_datetime "%d/%m/%y %H:%M" (index raw)) as [idx|e]; cbn [rbind];
    intros Hdf; [|discriminate Hdf].
  destruct (Nat.eqb (length idx) (length (index raw))); [|discriminate Hdf].
  injection Hdf as <-. cbn [index columns values].
  rewrite map_map. split; [reflexivity|]. split; [|reflexivity].
  apply map_ext. intros row. rewrite map_map. reflexivity.
Qed.

(** C2: every cell of a Formatted Table, whatever its column, is the raw
    cell divided by 1000 with negative results replaced by 0.  No cell is
    below zero, and on numbers the value is Python's [max(0, raw/1000)].
    The raw value -5 gives 0, while -5/1000 itself is -0.005. *)
Theorem formatted_cells_are_clamped `{Libraries}
    (file_path : string) (kwargs : read_csv_kwargs) (w : world) (df : DataFrame) :
  fst (read_and_format_data file_path kwargs w) = Ok df ->
  exists raw,
    fst (Pd.read_csv file_path kwargs w) = Ok raw
    /\ values df
       = map (map (fun x => clamp_negative (PrimFloat.div x 1000%float))) (values raw)
    /\ Forall (Forall (fun c => PrimFloat.ltb c 0%float = false)) (values df)
    /\ Forall (Forall (fun x =>
                         PrimFloat.is_nan (PrimFloat.div x 1000%float) = false ->
                         PrimFloat.eqb (clamp_negative (PrimFloat.div x 1000%float))
                                       (py_max0 (PrimFloat.div x 1000%float)) = true))
               (values raw)
    /\ clamp_negative (PrimFloat.div (-5)%float 1000%float) = 0%float
    /\ PrimFloat.div (-5)%float 1000%float = (-0x1.47ae147ae147bp-8)%float.
Proof.
  rewrite read_and_format_data_run. cbn [fst].
  unfold Pd.read_csv, bind, read_text, lift. cbn [fst snd].
  destruct (Fs.read (resolve w file_path) (w_fs w)) as [text|e]; cbn [rbind fst];
    intros Hdf; [|discriminate Hdf].
  destruct (pd_parse_csv kwargs text) as [raw|e]; cbn [rbind] in Hdf; [|discriminate Hdf].
  exists raw. split; [reflexivity|].
  destruct (format_data_shape raw df Hdf) as (_ & Hv & _).
  split; [exact Hv|]. split; [|split; [|split]].
  - rewrite Hv. apply List.Forall_forall. intros row Hrow.
    apply List.in_map_iff in Hrow as [r0 [<- _]].
    apply List.Forall_forall. intros c Hc. apply List.in_map_iff in Hc as [x [<- _]].
    apply clamp_never_negative.
  - apply List.Forall_forall. intros row _. apply List.Forall_forall. intros x _.
    apply clamp_is_max0.
  - vm_compute. reflexivity.
  - vm_compute. reflexivity.
Qed.

Lemma formatted_cells_are_clamped_witness :
  exists raw,
    fst (Pd.read_csv "src/Solcast_A.csv" source_kwargs (Demo.world0 [])) = Ok raw
    /\ [[5%float]; [0%float]]
       = map (map (fun x => clamp_negative (PrimFloat.div x 1000%float))) (values raw).
Proof.
  destruct (formatted_cells_are_clamped "src/Solcast_A.csv" source_kwargs (Demo.world0 [])
              (mkDataFrame ["Energy"]
                 [LTime (mkTimestamp 2020 1 1 10 0); LTime (mkTimestamp 2020 1 1 11 0)]
                 [[5%float]; [0%float]]))
    as [raw (Hraw & Hv & _)].
  - vm_compute. reflexivity.
  - exists raw. split; [exact Hraw | exact Hv].
Defined.

(** ** The Compiler: what a processing run returns *)

Lemma rmapM_Forall2 {A B : Type} (f : A -> result B) (l : list A) (l' : list B) :
  rmapM f l = Ok l' -> Forall2 (fun a b => f a = Ok b) l l'.
Proof.
  revert l'. induction l as [|a l IH]; intros l'; simpl.
  - intros E. injection E as <-. constructor.
  - destruct (f a) as [b|e] eqn:Ea; cbn [rbind]; [|discriminate].
    destruct (rmapM f l) as [bs|e]; cbn [rbind]; [|discriminate].
    intros E. injection E as <-. constructor; [exact Ea | apply IH; reflexivity].
Qed.

Lemma rmapM_ext_in {A B : Type} (f g : A -> result B) (l : list A) :
  (forall x, In x l -> f x = g x) -> rmapM f l = rmapM g l.
Proof.
  induction l as [|a l IH]; intros Hfg; simpl; [reflexivity|].
  rewrite (Hfg a (or_introl eq_refl)), IH; [reflexivity|].
  intros x Hx. apply Hfg. right. exact Hx.
Qed.

Lemma length_flat_map_sum {A B : Type} (f : A -> list B) (l : list A) :
  length (flat_map f l) = list_sum (map (fun a => length (f a)) l).
Proof.
  induction l as [|a l IH]; simpl; [reflexivity|].
  rewrite length_app, IH. reflexivity.
Qed.

Lemma mem_In (c : string) (cols : list string) : Pd.mem c cols = true <-> In c cols.
Proof.
  unfold Pd.mem. induction cols as [|c' cols IH]; simpl.
  - split; [discriminate | intros []].
  - destruct (String.eqb_spec c c') as [->|Hne].
    + split; [intros _; left; reflexivity | reflexivity].
    + destruct (Pd.index_of c cols); split.
      * intros _. right. apply IH. reflexivity.
      * reflexivity.
      * discriminate.
      * intros [->|Hin]; [contradiction|]. apply IH in Hin. discriminate Hin.
Qed.

Lemma index_of_In (c : string) (cols : list string) :
  In c cols -> exists j, Pd.index_of c cols = Some j.
Proof.
  intros Hin. apply mem_In in Hin. unfold Pd.mem in Hin.
  destruct (Pd.index_of c cols) as [j|]; [exists j; reflexivity | discriminate].
Qed.

Lemma union_columns_in (c : string) (cols acc : list string) :
  In c acc \/ In c cols -> In c (Pd.union_columns acc cols).
Proof.
  revert acc. induction cols as [|c' cols IH]; intros acc; simpl.
  - intros [Hin|[]]. exact Hin.
  - intros [Hin|[->|Hin]]; apply IH.
    + left. destruct (Pd.mem c' acc); [exact Hin | apply in_or_app; left; exact Hin].
    + left. destruct (Pd.mem c acc) eqn:Hm.
      * apply mem_In. exact Hm.
      * apply in_or_app. right. left. reflexivity.
    + right. exact Hin.
Qed.

Lemma all_columns_in (c : string) (frames : list DataFrame) (acc : list string) :
  In c acc \/ (exists t, In t frames /\ In c (columns t)) ->
  In c (fold_left (fun acc df => Pd.union_columns acc (columns df)) frames acc).
Proof.
  revert acc. induction frames as [|t frames IH]; intros acc; simpl.
  - intros [Hin|(t & [] & _)]. exact Hin.
  - intros [Hin|(t' & [<-|Ht'] & Hc)]; apply IH.
    + left. apply union_columns_in. left. exact Hin.
    + left. apply union_columns_in. right. exact Hc.
    + right. exists t'. split; assumption.
Qed.

(** Every column of every table survives the concatenation. *)
Lemma concat_columns_cover (frames : list DataFrame) (cat t : DataFrame) (c : string) :
  Pd.concat frames = Ok cat -> In t frames -> In c (columns t) -> In c (columns cat).
Proof.
  unfold Pd.concat. destruct frames as [|first rest] eqn:Ef; [discriminate|].
  rewrite <- Ef. intros E Ht Hc.
  destruct (forallb _ frames) eqn:Hsame.
  - injection E as <-. cbn [columns].
    pose proof (proj1 (forallb_forall _ _) Hsame t Ht) as Heq.
    unfold Pd.list_eqb in Heq.
    destruct (decide (columns t = columns first)) as [<-|]; [exact Hc | discriminate Heq].
  - destruct (existsb _ frames); [discriminate E|].
    injection E as <-. cbn [columns]. unfold Pd.all_columns.
    apply all_columns_in. right. exists t. split; assumption.
Qed.

Lemma index_of_first (c : string) (cols : list string) (i : nat) :
  nth_error cols i = Some c ->
  (forall i', i' < i -> nth_error cols i' <> Some c) ->
  Pd.index_of c cols = Some i.
Proof.
  revert i. induction cols as [|c' cols IH]; intros i Hi Hfirst.
  - destruct i; discriminate Hi.
  - simpl. destruct i as [|i].
    + injection Hi as ->. rewrite String.eqb_refl. reflexivity.
    + destruct (String.eqb_spec c c') as [->|Hne].
      * exfalso. apply (Hfirst O); [lia | reflexivity].
      * rewrite (IH i Hi); [reflexivity|].
        intros i' Hlt. apply (Hfirst (S i')). lia.
Qed.

Lemma index_of_absent (c : string) (cols : list string) :
  ~ In c cols -> Pd.index_of c cols = None.
Proof.
  intros Hno. destruct (Pd.index_of c cols) as [j|] eqn:E; [|reflexivity].
  exfalso. apply Hno, mem_In. unfold Pd.mem. rewrite E. reflexivity.
Qed.

(** A row laid out for other columns and scaled is that row as it
    stands in the compiled table. *)
Lemma reindexed_row_compiled
    (k : float) (cols src : list string) (row : list float) :
  compiled_row k cols (src, row)
    (map (fun x => PrimFloat.mul x k) (Pd.reindex_row src cols row)).
Proof.
  unfold compiled_row, Pd.reindex_row. cbn [fst snd]. split.
  - rewrite !length_map. reflexivity.
  - intros j c Hj. split.
    + intros i Hi Hfirst. apply nth_error_nth.
      erewrite map_nth_error; [|apply map_nth_error; exact Hj]. cbv beta.
      rewrite (index_of_first c src i Hi Hfirst). reflexivity.
    + intros Hno. apply nth_error_nth.
      erewrite map_nth_error; [|apply map_nth_error; exact Hj]. cbv beta.
      rewrite (index_of_absent c src Hno). reflexivity.
Qed.

Lemma reindexed_rows_compiled
    (k : float) (cols : list string) (frames : list DataFrame) :
  Forall2 (compiled_row k cols)
    (flat_map (fun t => map (pair (columns t)) (values t)) frames)
    (map (map (fun x => PrimFloat.mul x k))
         (flat_map (fun t => map (Pd.reindex_row (columns t) cols) (values t)) frames)).
Proof.
  induction frames as [|t frames IH]; cbn [flat_map map]; [constructor|].
  rewrite map_app. apply Forall2_app; [|exact IH].
  induction (values t) as [|row rows IHr]; cbn [map]; constructor;
    [apply reindexed_row_compiled | exact IHr].
Qed.

(** What the concatenation does with the cells: tables that all carry
    the same columns are stacked as they are; otherwise every row is
    laid out for the union of the columns. *)
Lemma concat_cells (frames : list DataFrame) (cat : DataFrame) :
  Pd.concat frames = Ok cat ->
  (Forall (fun t => columns t = columns cat) frames
   /\ values cat = flat_map values frames)
  \/ values cat
     = flat_map (fun t => map (Pd.reindex_row (columns t) (columns cat)) (values t)) frames.
Proof.
  unfold Pd.concat. destruct frames as [|first rest] eqn:Ef; [discriminate|].
  rewrite <- Ef. destruct (forallb _ frames) eqn:Hsame.
  - intros E. injection E as <-. cbn [columns values]. left. split; [|reflexivity].
    apply List.Forall_forall. intros t Ht.
    pose proof (proj1 (forallb_forall _ _) Hsame t Ht) as Heq.
    unfold Pd.list_eqb in Heq.
    destruct (decide (columns t = columns first)) as [E|]; [exact E | discriminate Heq].
  - destruct (existsb _ frames); [discriminate|].
    intros E. injection E as <-. cbn [columns values]. right. reflexivity.
Qed.

(** Concatenation keeps every row of every table, in order, with its
    label. *)
Lemma concat_rows (frames : list DataFrame) (cat : DataFrame) :
  Pd.concat frames = Ok cat ->
  frames <> []
  /\ index cat = flat_map index frames
  /\ length (values cat) = list_sum (map (fun t => length (values t)) frames)
  /\ (forall cols, Forall (fun t => columns t = cols) frames ->
                   columns cat = cols /\ values cat = flat_map values frames).
Proof.
  unfold Pd.concat. destruct frames as [|first rest] eqn:Ef; [discriminate|].
  rewrite <- Ef.
  assert (Hne : frames <> []) by (rewrite Ef; discriminate).
  destruct (forallb _ frames) eqn:Hsame.
  - intros E. injection E as <-. cbn [index values columns].
    split; [exact Hne|]. split; [reflexivity|]. split.
    + apply length_flat_map_sum.
    + intros cols Hall. split; [|reflexivity].
      rewrite Ef in Hall. apply List.Forall_inv in Hall. exact Hall.
  - destruct (existsb _ frames); [discriminate|].
    intros E. injection E as <-. cbn [index values columns].
    split; [exact Hne|]. split; [reflexivity|]. split.
    + rewrite length_flat_map_sum. f_equal. apply map_ext. intros t.
      apply length_map.
    + intros cols Hall. exfalso.
      assert (Hf : forallb (fun df => Pd.list_eqb (columns df) (columns first)) frames = true).
      { apply forallb_forall. intros t Ht.
        pose proof (proj1 (List.Forall_forall _ _) Hall) as Hin.
        unfold Pd.list_eqb. rewrite (Hin t Ht), (Hin first).
        - destruct (decide (cols = cols)); [reflexivity | contradiction].
        - rewrite Ef. left. reflexivity. }
      rewrite Hf in Hsame. discriminate.
Qed.

Lemma compiled_table_inv `{Libraries}
    (directory dataset_name : string) (transformer_loss transmission_loss : float)
    (w : world) (df : DataFrame) :
  compiled_table directory dataset_name transformer_loss transmission_loss w = Ok df ->
  exists files frames cat,
    fst (list_files directory dataset_name w) = Ok files
    /\ rmapM (formatted_table w) files = Ok frames
    /\ Pd.concat frames = Ok cat
    /\ df = Pd.mul_scalar (loss_factor transformer_loss transmission_loss) cat.
Proof.
  unfold compiled_table, formatted_tables.
  destruct (fst (list_files directory dataset_name w)) as [files|e]; cbn [rbind];
    intros E; [|discriminate E].
  destruct (rmapM (formatted_table w) files) as [frames|e] eqn:Hfr; cbn [rbind] in E;
    [|discriminate E].
  destruct (Pd.concat frames) as [cat|e] eqn:Hcat; cbn [rbind] in E; [|discriminate E].
  injection E as <-. exists files, frames, cat.
  split; [reflexivity|]. split; [exact Hfr|]. split; [exact Hcat | reflexivity].
Qed.

(** C3: a processing run that returns a table found at least one file,
    and the compiled table holds the rows of the per-file tables, one
    file after the other in listing order, repeated labels included: its
    labels are their labels, its row count is the sum of theirs, every
    column of every file is a column of it, and its rows are their rows
    with every cell multiplied by the loss factor.  When the files all
    carry the same columns the rows are taken as they are; otherwise each
    row is laid out for the columns of the compiled table, with a NaN
    where the file has no such column. *)
Theorem compiled_rows_are_all_rows `{Libraries}
    (directory dataset_name : string) (transformer_loss transmission_loss : float)
    (save_data : bool) (w : world) (df : DataFrame) :
  fresh dataset_name w ->
  fst (compile_data directory dataset_name transformer_loss transmission_loss save_data w) = Ok df ->
  exists files frames,
    fst (list_files directory dataset_name w) = Ok files
    /\ files <> []
    /\ Forall2 (fun file t => formatted_table w file = Ok t) files frames
    /\ index df = flat_map index frames
    /\ Pd.nrows df = list_sum (map Pd.nrows frames)
    /\ length (values df) = list_sum (map (fun t => length (values t)) frames)
    /\ (forall t c, In t frames -> In c (columns t) -> In c (columns df))
    /\ (let k := PrimFloat.mul (PrimFloat.sub 1%float transformer_loss)
                              (PrimFloat.sub 1%float transmission_loss) in
        (Forall (fun t => columns t = columns df) frames
         /\ values df
            = flat_map (fun t => map (map (fun x => PrimFloat.mul x k)) (values t)) frames)
        \/ Forall2 (compiled_row k (columns df))
                   (flat_map (fun t => map (pair (columns t)) (values t)) frames)
                   (values df)).
Proof.
  intros Hg Hrun. apply fresh_gate in Hg.
  apply (compile_data_fresh_result _ _ _ _ _ _ _ Hg) in Hrun.
  apply compiled_table_inv in Hrun as (files & frames & cat & Hfiles & Hframes & Hcat & ->).
  apply rmapM_Forall2 in Hframes.
  destruct (concat_rows frames cat Hcat) as (Hne & Hidx & Hlen & _).
  exists files, frames. split; [exact Hfiles|]. split.
  { intros ->. inversion Hframes. subst. contradiction. }
  split; [exact Hframes|]. unfold Pd.nrows, Pd.mul_scalar, Pd.map_cells.
  cbn [index values columns]. rewrite Hidx, length_map, Hlen.
  split; [reflexivity|]. split; [apply length_flat_map_sum|].
  split; [reflexivity|]. split.
  { intros t c Ht Hc. exact (concat_columns_cover frames cat t c Hcat Ht Hc). }
  cbv zeta. fold float_one. fold (loss_factor transformer_loss transmission_loss).
  destruct (concat_cells frames cat Hcat) as [[Hsame Hvals]|Hvals]; rewrite Hvals.
  - left. split; [exact Hsame|].
    clear. induction frames as [|t frames IH]; cbn [flat_map map]; [reflexivity|].
    rewrite map_app, IH. reflexivity.
  - right. apply reindexed_rows_compiled.
Qed.

Lemma compiled_rows_are_all_rows_witness :
  exists files frames,
    fst (list_files "src" "Solcast" (Demo.world0 [])) = Ok files
    /\ files <> []
    /\ Forall2 (fun file t => formatted_table (Demo.world0 []) file = Ok t) files frames
    /\ index Demo.compiled = flat_map index frames
    /\ Pd.nrows Demo.compiled = list_sum (map Pd.nrows frames)
    /\ length (values Demo.compiled) = list_sum (map (fun t => length (values t)) frames)
    /\ (forall t c, In t frames -> In c (columns t) -> In c (columns Demo.compiled))
    /\ (let k := PrimFloat.mul (PrimFloat.sub 1%float 0.5%float)
                              (PrimFloat.sub 1%float 0.25%float) in
        (Forall (fun t => columns t = columns Demo.compiled) frames
         /\ values Demo.compiled
            = flat_map (fun t => map (map (fun x => PrimFloat.mul x k)) (values t)) frames)
        \/ Forall2 (compiled_row k (columns Demo.compiled))
                   (flat_map (fun t => map (pair (columns t)) (values t)) frames)
                   (values Demo.compiled)).
Proof.
  apply (compiled_rows_are_all_rows "src" "Solcast" 0.5%float 0.25%float true
           (Demo.world0 []) Demo.compiled).
  - left. vm_compute. reflexivity.
  - vm_compute. reflexivity.
Defined.

Lemma compiled_table_same_inputs `{Libraries}
    (directory dataset_name : string) (transformer_loss transmission_loss : float)
    (w w' : world) :
  same_inputs directory w w' ->
  compiled_table directory dataset_name transformer_loss transmission_loss w'
  = compiled_table directory dataset_name transformer_loss transmission_loss w.
Proof.
  intros [Hls Hrd]. unfold compiled_table, formatted_tables.
  rewrite !list_files_run. cbn [fst]. rewrite <- Hls.
  destruct (Fs.listdir (resolve w directory) (w_fs w)) as [names|e] eqn:Hnames;
    cbn [rbind]; [|reflexivity].
  rewrite (rmapM_ext_in (formatted_table w') (formatted_table w)); [reflexivity|].
  intros file Hin. apply filter_In in Hin as [Hin _].
  apply List.in_map_iff in Hin as [name [<- Hname]].
  unfold formatted_table. rewrite !read_and_format_data_run. cbn [fst].
  rewrite (Hrd names name eq_refl Hname). reflexivity.
Qed.

(** C1: the table returned by a processing run is the concatenation of
    the per-file tables with every cell multiplied, once, by
    [(1 - transformer_loss) * (1 - transmission_loss)]; labels and
    columns are those of the concatenation.  Any other processing run
    over the same inputs, whatever was saved before and whatever its save
    flag, returns the same table. *)
Theorem compiled_values_scaled_once `{Libraries}
    (directory dataset_name : string) (transformer_loss transmission_loss : float)
    (save_data : bool) (w : world) (df : DataFrame) :
  fresh dataset_name w ->
  fst (compile_data directory dataset_name transformer_loss transmission_loss save_data w) = Ok df ->
  (exists files frames cat,
      fst (list_files directory dataset_name w) = Ok files
      /\ Forall2 (fun file t => formatted_table w file = Ok t) files frames
      /\ Pd.concat frames = Ok cat
      /\ columns df = columns cat
      /\ index df = index cat
      /\ values df
         = map (map (fun x =>
                       PrimFloat.mul x
                         (PrimFloat.mul (PrimFloat.sub 1%float transformer_loss)
                                        (PrimFloat.sub 1%float transmission_loss))))
               (values cat))
  /\ (forall save_data' w' df',
         same_inputs directory w w' ->
         fresh dataset_name w' ->
         fst (compile_data directory dataset_name transformer_loss transmission_loss
                           save_data' w') = Ok df' ->
         df' = df).
Proof.
  intros Hg Hrun. apply fresh_gate in Hg.
  apply (compile_data_fresh_result _ _ _ _ _ _ _ Hg) in Hrun.
  split.
  - apply compiled_table_inv in Hrun as (files & frames & cat & Hfiles & Hframes & Hcat & ->).
    exists files, frames, cat. split; [exact Hfiles|].
    split; [apply rmapM_Forall2; exact Hframes|]. split; [exact Hcat|].
    repeat split.
  - intros s' w' df' Hsame Hg' Hrun'. apply fresh_gate in Hg'.
    apply (compile_data_fresh_result _ _ _ _ _ _ _ Hg') in Hrun'.
    rewrite (compiled_table_same_inputs _ _ _ _ _ _ Hsame), Hrun in Hrun'.
    injection Hrun' as <-. reflexivity.
Qed.

Lemma compiled_values_scaled_once_witness :
  let w := Demo.world0 ["S"] in
  let w1 := snd (compile_data "src" "Solcast" 0.5%float 0.25%float true w) in
  (exists files frames cat,
      fst (list_files "src" "Solcast" w) = Ok files
      /\ Forall2 (fun file t => formatted_table w file = Ok t) files frames
      /\ Pd.concat frames = Ok cat
      /\ columns Demo.compiled = columns cat
      /\ index Demo.compiled = index cat
      /\ values Demo.compiled
         = map (map (fun x =>
                       PrimFloat.mul x
                         (PrimFloat.mul (PrimFloat.sub 1%float 0.5%float)
                                        (PrimFloat.sub 1%float 0.25%float))))
               (values cat))
  /\ (forall df',
         fst (compile_data "src" "Solcast" 0.5%float 0.25%float true w1) = Ok df' ->
         df' = Demo.compiled).
Proof.
  intros w w1.
  destruct (compiled_values_scaled_once "src" "Solcast" 0.5%float 0.25%float true
              w Demo.compiled) as [Hfirst Hagain].
  - left. vm_compute. reflexivity.
  - vm_compute. reflexivity.
  - split; [exact Hfirst|]. intros df' Hrun.
    apply (Hagain true w1 df');
      [|right; split; [vm_compute; reflexivity|];
        exists "S", []; split; [vm_compute; reflexivity | reflexivity]
       |exact Hrun].
    split; [vm_compute; reflexivity|].
    intros names name Hls Hin. vm_compute in Hls. injection Hls as <-.
    destruct Hin as [<-|[<-|[<-|[]]]]; vm_compute; reflexivity.
Defined.

(** ** Saving *)

Lemma chars_app (a b : string) :
  OsPath.chars (a +:+ b) = OsPath.chars a ++ OsPath.chars b.
Proof.
  induction a as [|c a IH]; [reflexivity|].
  change (c :: OsPath.chars (a +:+ b) = c :: (OsPath.chars a ++ OsPath.chars b)).
  rewrite IH. reflexivity.
Qed.

Lemma of_chars_app (l1 l2 : list ascii) :
  OsPath.of_chars (l1 ++ l2) = OsPath.of_chars l1 +:+ OsPath.of_chars l2.
Proof.
  induction l1 as [|c l1 IH]; [reflexivity|].
  change (String c (OsPath.of_chars (l1 ++ l2))
          = String c (OsPath.of_chars l1 +:+ OsPath.of_chars l2)).
  rewrite IH. reflexivity.
Qed.

Lemma of_chars_chars (s : string) : OsPath.of_chars (OsPath.chars s) = s.
Proof. induction s as [|c s IH]; simpl; [reflexivity | rewrite IH; reflexivity]. Qed.

(** Splitting a path that ends in [data/output]. *)
Lemma split_data_output (p : string) :
  OsPath.split (p +:+ "data/output") = (p +:+ "data", "output").
Proof.
  unfold OsPath.split. rewrite chars_app, rev_app_distr.
  cbn. rewrite rev_involutive, <- !app_assoc.
  rewrite of_chars_app, of_chars_chars. reflexivity.
Qed.

Lemma endswith_char_app (c : ascii) (a b : string) :
  b <> "" -> PyStr.endswith_char c (a +:+ b) = PyStr.endswith_char c b.
Proof.
  intros Hb. induction a as [|x a IH]; [reflexivity|].
  change (PyStr.endswith_char c (String x (a +:+ b)) = PyStr.endswith_char c b).
  cbn [PyStr.endswith_char]. rewrite IH.
  destruct (a +:+ b) eqn:E; [|reflexivity].
  destruct a; [|discriminate E]. simpl in E. contradiction.
Qed.

Lemma eqb_app_nonempty (a b : string) : b <> "" -> String.eqb (a +:+ b) "" = false.
Proof.
  intros Hb. destruct a as [|x a]; [|reflexivity].
  destruct b; [contradiction | reflexivity].
Qed.

Lemma output_dir_form (cwd : string) :
  exists p, output_dir_of cwd = p +:+ "data/output".
Proof.
  unfold output_dir_of, OsPath.join3.
  assert (Hdata : exists q, OsPath.join cwd "data" = q +:+ "data").
  { apply join_suffix. }
  destruct Hdata as [q ->]. exists q.
  unfold OsPath.join at 1. cbn [PyStr.startswith Ascii.eqb Bool.eqb andb].
  rewrite eqb_app_nonempty by discriminate.
  rewrite endswith_char_app by discriminate.
  cbn [orb]. change (PyStr.endswith_char OsPath.sep "data") with false. cbv iota.
  rewrite append_assoc. reflexivity.
Qed.

Lemma resolved_output_dir_form (w : world) :
  exists p, resolve w (output_dir_of (w_cwd w)) = p +:+ "data/output".
Proof.
  destruct (output_dir_form (w_cwd w)) as [p Hp].
  destruct (join_suffix (w_cwd w) (output_dir_of (w_cwd w))) as [q Hq].
  exists (q +:+ p). unfold resolve. rewrite Hq, Hp, append_assoc. reflexivity.
Qed.

Lemma mkdir_exist_ok_isdir (p : string) (fs fs' : gmap string node) :
  Fs.mkdir_exist_ok p fs = Ok fs' -> Fs.isdir p fs' = true.
Proof.
  unfold Fs.mkdir_exist_ok, Fs.mkdir, Fs.isdir.
  destruct (fs !! p) as [[c|es]|] eqn:Ep.
  - discriminate.
  - intros E. injection E as <-. rewrite Ep. reflexivity.
  - destruct (fs !! OsPath.dirname p) as [[c|es]|]; try discriminate.
    intros E. injection E as <-. rewrite lookup_insert_eq. reflexivity.
Qed.

(** After [makedirs] succeeds, the directory is there. *)
Lemma makedirs_creates (name : string) (fs fs' : gmap string node) :
  OsPath.basename name <> "" ->
  OsPath.basename name <> "." ->
  Fs.makedirs name fs = Ok fs' ->
  Fs.isdir name fs' = true.
Proof.
  unfold Fs.makedirs, OsPath.basename. intros Hne Hdot.
  destruct (String.length name) as [|fuel]; cbn [Fs.makedirs_fuel];
    [apply mkdir_exist_ok_isdir|].
  destruct (OsPath.split name) as [head tail]. cbn [snd] in Hne, Hdot.
  apply String.eqb_neq in Hne, Hdot. rewrite Hne. cbv beta iota.
  rewrite ?Hne, ?Hdot.
  destruct (negb (String.eqb head "") && negb false && negb (Fs.exists_ head fs));
    [|apply mkdir_exist_ok_isdir].
  destruct (Fs.makedirs_fuel fuel head fs) as [fs1|e].
  - apply mkdir_exist_ok_isdir.
  - destruct e; try discriminate. apply mkdir_exist_ok_isdir.
Qed.

(** Creating a directory that exists, in a tree that holds its parent,
    changes nothing. *)
Lemma makedirs_idempotent (name : string) (fs : gmap string node) :
  OsPath.basename name <> "" ->
  Fs.isdir name fs = true ->
  Fs.exists_ (OsPath.dirname name) fs = true ->
  Fs.makedirs name fs = Ok fs.
Proof.
  unfold Fs.makedirs, OsPath.basename, OsPath.dirname. intros Hne Hdir Hpar.
  assert (Hlast : Fs.mkdir_exist_ok name fs = Ok fs).
  { unfold Fs.mkdir_exist_ok, Fs.mkdir. rewrite Hdir.
    unfold Fs.isdir in Hdir. destruct (fs !! name) as [[c|es]|]; try discriminate.
    reflexivity. }
  destruct (String.length name) as [|fuel]; cbn [Fs.makedirs_fuel]; [exact Hlast|].
  destruct (OsPath.split name) as [head tail]. cbn [fst snd] in Hne, Hpar.
  apply String.eqb_neq in Hne. rewrite Hne. cbv beta iota. rewrite Hpar.
  rewrite andb_false_r. exact Hlast.
Qed.

Lemma write_result (p content : string) (fs fs' : gmap string node) :
  Fs.write p content fs = Ok fs' ->
  fs' !! p = Some (File content)
  /\ forall q, Fs.isdir q fs = true -> Fs.isdir q fs' = true.
Proof.
  unfold Fs.write, Fs.isdir.
  destruct (fs !! p) as [[c|es]|] eqn:Ep.
  - intros E. injection E as <-. split; [apply lookup_insert_eq|].
    intros q Hq. destruct (decide (p = q)) as [<-|Hpq].
    + rewrite Ep in Hq. discriminate.
    + rewrite lookup_insert_ne by exact Hpq. exact Hq.
  - discriminate.
  - destruct (fs !! OsPath.dirname p) as [[c|es]|] eqn:Ed; try discriminate.
    intros E. injection E as <-. split; [apply lookup_insert_eq|].
    intros q Hq. destruct (decide (p = q)) as [<-|Hpq].
    + rewrite Ep in Hq. discriminate.
    + rewrite lookup_insert_ne by exact Hpq. unfold Fs.add_entry. rewrite Ed.
      destruct (decide (OsPath.dirname p = q)) as [<-|Hdq].
      * rewrite lookup_insert_eq. reflexivity.
      * rewrite lookup_insert_ne by exact Hdq. exact Hq.
Qed.

(** ** The recursion of [makedirs] ends within its fuel *)

Lemma length_chars (s : string) : length (OsPath.chars s) = String.length s.
Proof. induction s as [|c s IH]; simpl; [reflexivity | rewrite IH; reflexivity]. Qed.

Lemma length_of_chars (l : list ascii) : String.length (OsPath.of_chars l) = length l.
Proof. induction l as [|c l IH]; simpl; [reflexivity | rewrite IH; reflexivity]. Qed.

Lemma span_not_sep_length (l t h : list ascii) :
  OsPath.span_not_sep l = (t, h) -> length t + length h = length l.
Proof.
  revert t h. induction l as [|c l IH]; intros t h; simpl.
  - intros E. injection E as <- <-. reflexivity.
  - destruct (OsPath.is_sep c).
    + intros E. injection E as <- <-. reflexivity.
    + destruct (OsPath.span_not_sep l) as [t' h'].
      intros E. injection E as <- <-. simpl. rewrite (IH t' h' eq_refl). reflexivity.
Qed.

Lemma drop_seps_length (l : list ascii) : length (OsPath.drop_seps l) <= length l.
Proof.
  induction l as [|c l IH]; simpl; [lia|].
  destruct (OsPath.is_sep c); simpl; lia.
Qed.

Lemma split_lengths (p h t : string) :
  OsPath.split p = (h, t) -> String.length h + String.length t <= String.length p.
Proof.
  unfold OsPath.split.
  destruct (OsPath.span_not_sep (rev (OsPath.chars p))) as [tail_rev head_rev] eqn:Es.
  apply span_not_sep_length in Es. rewrite length_rev, length_chars in Es.
  intros E. injection E as <- <-.
  rewrite !length_of_chars, !length_rev.
  pose proof (drop_seps_length head_rev).
  destruct (forallb OsPath.is_sep head_rev); lia.
Qed.

Lemma split_head_shorter (p h t : string) :
  OsPath.split p = (h, t) -> t <> "" -> String.length h < String.length p.
Proof.
  intros Es Ht. apply split_lengths in Es.
  destruct t; [contradiction | simpl in Es; lia].
Qed.

Lemma length_zero_empty (s : string) : String.length s <= 0 -> s = "".
Proof. destruct s; simpl; [reflexivity | lia]. Qed.

Lemma makedirs_fuel_irrelevant (n m : nat) (name : string) (fs : gmap string node) :
  String.length name <= n -> String.length name <= m ->
  Fs.makedirs_fuel n name fs = Fs.makedirs_fuel m name fs.
Proof.
  revert m name fs. induction n as [|n IH]; intros m name fs Hn Hm.
  - apply length_zero_empty in Hn. subst name. destruct m; reflexivity.
  - destruct m as [|m].
    { apply length_zero_empty in Hm. subst name. reflexivity. }
    cbn [Fs.makedirs_fuel].
    destruct (OsPath.split name) as [head tail] eqn:Es.
    pose proof (split_lengths _ _ _ Es) as Hlen.
    destruct (String.eqb_spec tail "") as [->|Ht].
    + destruct (OsPath.split head) as [head2 tail2] eqn:Es2.
      destruct (String.eqb_spec tail2 "") as [->|Ht2].
      * destruct (negb (String.eqb head2 "")); reflexivity.
      * pose proof (split_lengths _ _ _ Es2) as Hlen2.
        pose proof (split_head_shorter _ _ _ Es2 Ht2) as Hlt.
        rewrite (IH m head2 fs) by lia. reflexivity.
    + pose proof (split_head_shorter _ _ _ Es Ht) as Hlt.
      rewrite (IH m head fs) by lia. reflexivity.
Qed.

(** More fuel than the length of the path changes nothing. *)
Lemma makedirs_fuel_enough (n : nat) (name : string) (fs : gmap string node) :
  String.length name <= n ->
  Fs.makedirs_fuel n name fs = Fs.makedirs name fs.
Proof.
  intros Hn. unfold Fs.makedirs. apply makedirs_fuel_irrelevant; [exact Hn | lia].
Qed.

Lemma resolved_output_dir_basename (w : world) :
  OsPath.basename (resolve w (output_dir_of (w_cwd w))) = "output".
Proof.
  destruct (resolved_output_dir_form w) as [p ->].
  unfold OsPath.basename. rewrite split_data_output. reflexivity.
Qed.

(** C9: in a processing run the save flag decides whether anything is
    stored.  Unset, the file tree stays as it was.  Set, and a table
    returned, the tree is the old one after [makedirs] on the output
    directory followed by a write of the table's CSV text to the output
    file: the directory exists and the file holds that text.  Both runs
    compute the same table; the saving run loses it only when creating
    the directory or writing fails, and a run that fails before saving
    stores nothing.  Creating the output directory when it is already
    there leaves the tree unchanged. *)
Theorem compile_data_saves_iff_flag `{Libraries}
    (directory dataset_name : string) (transformer_loss transmission_loss : float)
    (w : world) :
  fresh dataset_name w ->
  let dir := resolve w (output_dir_of (w_cwd w)) in
  let file := resolve w (output_file_of (w_cwd w) dataset_name) in
  let off := compile_data directory dataset_name transformer_loss transmission_loss false w in
  let on := compile_data directory dataset_name transformer_loss transmission_loss true w in
  w_fs (snd off) = w_fs w
  /\ (forall df, fst on = Ok df ->
        fst off = Ok df
        /\ saved_tree dir file (pd_format_csv df) (w_fs w) = Ok (w_fs (snd on))
        /\ Fs.isdir dir (w_fs (snd on)) = true
        /\ w_fs (snd on) !! file = Some (File (pd_format_csv df)))
  /\ (forall df, fst off = Ok df ->
        match saved_tree dir file (pd_format_csv df) (w_fs w) with
        | Ok _ => fst on = Ok df
        | Raise e => fst on = Raise e
        end)
  /\ (forall e, fst off = Raise e -> fst on = Raise e /\ w_fs (snd on) = w_fs w)
  /\ (forall fs, Fs.isdir dir fs = true ->
                 Fs.exists_ (OsPath.dirname dir) fs = true ->
                 Fs.makedirs dir fs = Ok fs).
Proof.
  intros Hg dir file off on. apply fresh_gate in Hg.
  destruct (check_frame (output_file_of (w_cwd w) dataset_name) w) as [Hf Hc].
  pose proof (compile_fresh_unsaved directory dataset_name transformer_loss transmission_loss
                (output_dir_of (w_cwd w)) (output_file_of (w_cwd w) dataset_name)
                (snd (check_file_processing (output_file_of (w_cwd w) dataset_name) w))) as Hu.
  pose proof (compile_fresh_saved directory dataset_name transformer_loss transmission_loss
                (output_dir_of (w_cwd w)) (output_file_of (w_cwd w) dataset_name)
                (snd (check_file_processing (output_file_of (w_cwd w) dataset_name) w))) as Hs.
  cbv zeta in Hu, Hs.
  rewrite <- (compile_data_when_fresh directory dataset_name transformer_loss
                transmission_loss false w Hg) in Hu.
  rewrite <- (compile_data_when_fresh directory dataset_name transformer_loss
                transmission_loss true w Hg) in Hs.
  fold off in Hu. fold on in Hs.
  rewrite (compiled_table_frame _ _ _ _ w _ Hc Hf) in Hu, Hs.
  unfold resolve in Hs. rewrite Hc, Hf in Hs.
  change (OsPath.join (w_cwd w) (output_dir_of (w_cwd w))) with dir in Hs.
  change (OsPath.join (w_cwd w) (output_file_of (w_cwd w) dataset_name)) with file in Hs.
  rewrite Hf in Hu.
  destruct Hu as (Hoff & Hofs & _). destruct Hs as (Hon & _).
  assert (Hbase : OsPath.basename dir = "output") by apply resolved_output_dir_basename.
  split; [exact Hofs|]. unfold saved_tree. rewrite Hoff.
  destruct (compiled_table directory dataset_name transformer_loss transmission_loss w)
    as [t|e0].
  - destruct (Fs.makedirs dir (w_fs w)) as [fs1|e1] eqn:Hmk; cbn [rbind].
    + destruct (Fs.write file (pd_format_csv t) fs1) as [fs2|e2] eqn:Hwr;
        destruct Hon as [Hr Hfs2].
      * split; [|split; [|split]].
        -- intros df Hdf. rewrite Hr in Hdf. injection Hdf as <-.
           rewrite Hwr, Hfs2. destruct (write_result _ _ _ _ Hwr) as [Hfile Hkeep].
           split; [reflexivity|]. split; [reflexivity|]. split; [|exact Hfile].
           apply Hkeep. apply (makedirs_creates dir (w_fs w)); [| |exact Hmk];
             rewrite Hbase; discriminate.
        -- intros df Hdf. injection Hdf as <-. rewrite Hwr. exact Hr.
        -- intros e He. discriminate He.
        -- intros fs Hd Hp. apply makedirs_idempotent; [|exact Hd|exact Hp].
           rewrite Hbase. discriminate.
      * split; [|split; [|split]].
        -- intros df Hdf. rewrite Hr in Hdf. discriminate Hdf.
        -- intros df Hdf. injection Hdf as <-. rewrite Hwr. exact Hr.
        -- intros e He. discriminate He.
        -- intros fs Hd Hp. apply makedirs_idempotent; [|exact Hd|exact Hp].
           rewrite Hbase. discriminate.
    + destruct Hon as [Hr Hfs1]. split; [|split; [|split]].
      * intros df Hdf. rewrite Hr in Hdf. discriminate Hdf.
      * intros df Hdf. injection Hdf as <-. exact Hr.
      * intros e He. discriminate He.
      * intros fs Hd Hp. apply makedirs_idempotent; [|exact Hd|exact Hp].
        rewrite Hbase. discriminate.
  - destruct Hon as [Hr Hfs0]. split; [|split; [|split]].
    + intros df Hdf. rewrite Hr in Hdf. discriminate Hdf.
    + intros df Hdf. discriminate Hdf.
    + intros e He. injection He as <-. split; [exact Hr | exact Hfs0].
    + intros fs Hd Hp. apply makedirs_idempotent; [|exact Hd|exact Hp].
      rewrite Hbase. discriminate.
Qed.

Lemma compile_data_saves_iff_flag_witness :
  let w := Demo.world0 [] in
  w_fs (snd (compile_data "src" "Solcast" 0.5%float 0.25%float false w)) = w_fs w
  /\ w_fs (snd (compile_data "src" "Solcast" 0.5%float 0.25%float true w))
       !! "/home/u/data/output/dados_compilados_Solcast.csv"
     = Some (File (pd_format_csv Demo.compiled)).
Proof.
  intros w.
  destruct (compile_data_saves_iff_flag "src" "Solcast" 0.5%float 0.25%float w)
    as (Hoff & Hon & _).
  - left. vm_compute. reflexivity.
  - split; [exact Hoff|].
    destruct (Hon Demo.compiled) as (_ & _ & _ & Hfile).
    + vm_compute. reflexivity.
    + exact Hfile.
Defined.

(** ** Selecting the largest rows *)

Lemma ltb_nan_l (a b : float) : PrimFloat.is_nan a = true -> PrimFloat.ltb a b = false.
Proof.
  rewrite is_nan_spec, FloatAxioms.ltb_spec. unfold SFltb.
  destruct (Prim2SF a); try discriminate. reflexivity.
Qed.

Lemma ltb_nan_r (a b : float) : PrimFloat.is_nan b = true -> PrimFloat.ltb a b = false.
Proof.
  rewrite is_nan_spec, FloatAxioms.ltb_spec. unfold SFltb.
  destruct (Prim2SF b); try discriminate. destruct (Prim2SF a); reflexivity.
Qed.

Section SortDesc.

Context {A : Type} (key : A -> float).

Lemma insert_desc_perm (x : A) (l : list A) :
  Permutation (Pd.insert_desc key x l) (x :: l).
Proof.
  induction l as [|y l IH]; simpl; [apply Permutation_refl|].
  destruct (PrimFloat.ltb (key x) (key y)); [|apply Permutation_refl].
  apply Permutation_trans with (y :: x :: l).
  - apply perm_skip. exact IH.
  - apply perm_swap.
Qed.

Lemma sort_desc_perm (l : list A) : Permutation (Pd.sort_desc key l) l.
Proof.
  induction l as [|x l IH]; simpl; [apply perm_nil|].
  apply Permutation_trans with (x :: Pd.sort_desc key l).
  - apply insert_desc_perm.
  - apply perm_skip. exact IH.
Qed.

Lemma insert_desc_sorted (x : A) (l : list A) :
  Forall (fun y => PrimFloat.is_nan (key y) = false) l ->
  StronglySorted (desc key) l ->
  StronglySorted (desc key) (Pd.insert_desc key x l).
Proof.
  induction l as [|y l IH]; intros Hnum Hs; simpl.
  - constructor; constructor.
  - apply List.Forall_cons_iff in Hnum as [Hy Hnum].
    apply StronglySorted_inv in Hs as [Hs Hall].
    destruct (PrimFloat.ltb (key x) (key y)) eqn:E.
    + constructor; [apply IH; assumption|].
      apply List.Forall_forall. intros z Hz.
      apply (Permutation_in _ (insert_desc_perm x l)) in Hz as [<-|Hz].
      * unfold desc, not_below. apply ltb_asym. exact E.
      * exact (proj1 (List.Forall_forall _ _) Hall z Hz).
    + constructor; [constructor; assumption|].
      constructor; [exact E|].
      apply List.Forall_forall. intros z Hz.
      apply (not_below_trans _ (key y)); [exact Hy | exact E |].
      exact (proj1 (List.Forall_forall _ _) Hall z Hz).
Qed.

Lemma sort_desc_sorted (l : list A) :
  Forall (fun y => PrimFloat.is_nan (key y) = false) l ->
  StronglySorted (desc key) (Pd.sort_desc key l).
Proof.
  induction l as [|x l IH]; intros Hnum; simpl; [constructor|].
  apply List.Forall_cons_iff in Hnum as [_ Hnum].
  apply insert_desc_sorted; [|apply IH; exact Hnum].
  apply List.Forall_forall. intros z Hz.
  apply (Permutation_in _ (sort_desc_perm l)) in Hz.
  exact (proj1 (List.Forall_forall _ _) Hnum z Hz).
Qed.

Lemma partition_perm (p : A -> bool) (l : list A) :
  Permutation (List.filter (fun r => negb (p r)) l ++ List.filter p l) l.
Proof.
  induction l as [|x l IH]; simpl; [apply perm_nil|].
  destruct (p x); simpl.
  - apply Permutation_sym. apply Permutation_cons_app. apply Permutation_sym. exact IH.
  - apply perm_skip. exact IH.
Qed.

Lemma ranked_perm (rows : list A) : Permutation (ranked key rows) rows.
Proof.
  unfold ranked.
  apply Permutation_trans
    with (List.filter (fun r => negb (PrimFloat.is_nan (key r))) rows
          ++ List.filter (fun r => PrimFloat.is_nan (key r)) rows).
  - apply Permutation_app_tail. apply sort_desc_perm.
  - apply (partition_perm (fun r => PrimFloat.is_nan (key r))).
Qed.

Lemma nan_rows_sorted (l : list A) :
  Forall (fun y => PrimFloat.is_nan (key y) = true) l -> StronglySorted (desc key) l.
Proof.
  induction l as [|x l IH]; intros Hnan; [constructor|].
  apply List.Forall_cons_iff in Hnan as [Hx Hnan].
  constructor; [apply IH; exact Hnan|].
  apply List.Forall_forall. intros z _. unfold desc, not_below.
  apply ltb_nan_l. exact Hx.
Qed.

Lemma sorted_app (l1 l2 : list A) :
  StronglySorted (desc key) l1 -> StronglySorted (desc key) l2 ->
  (forall a b, In a l1 -> In b l2 -> (desc key) a b) ->
  StronglySorted (desc key) (l1 ++ l2).
Proof.
  induction l1 as [|x l1 IH]; intros H1 H2 H12; simpl; [exact H2|].
  apply StronglySorted_inv in H1 as [H1 Hx].
  constructor.
  - apply IH; [exact H1 | exact H2|]. intros a b Ha Hb. apply H12; [right|]; assumption.
  - apply List.Forall_forall. intros z Hz. apply in_app_or in Hz as [Hz|Hz].
    + exact (proj1 (List.Forall_forall _ _) Hx z Hz).
    + apply H12; [left; reflexivity | exact Hz].
Qed.

Lemma ranked_sorted (rows : list A) : StronglySorted (desc key) (ranked key rows).
Proof.
  unfold ranked. apply sorted_app.
  - apply sort_desc_sorted. apply List.Forall_forall. intros z Hz.
    apply filter_In in Hz as [_ Hz]. apply negb_true_iff in Hz. exact Hz.
  - apply nan_rows_sorted. apply List.Forall_forall. intros z Hz.
    apply filter_In in Hz as [_ Hz]. exact Hz.
  - intros a b _ Hb. apply filter_In in Hb as [_ Hb].
    unfold desc, not_below. apply ltb_nan_r. exact Hb.
Qed.

Lemma sorted_split (l1 l2 : list A) :
  StronglySorted (desc key) (l1 ++ l2) ->
  StronglySorted (desc key) l1 /\ forall a b, In a l1 -> In b l2 -> (desc key) a b.
Proof.
  induction l1 as [|x l1 IH]; simpl; intros Hs.
  - split; [constructor | intros a b []].
  - apply StronglySorted_inv in Hs as [Hs Hx]. destruct (IH Hs) as [H1 H12].
    split.
    + constructor; [exact H1|]. apply List.Forall_forall. intros z Hz.
      apply (proj1 (List.Forall_forall _ _) Hx). apply in_or_app. left. exact Hz.
    + intros a b [<-|Ha] Hb.
      * apply (proj1 (List.Forall_forall _ _) Hx). apply in_or_app. right. exact Hb.
      * apply H12; assumption.
Qed.

(** The first [n] of the ranking: as many as asked for or all there are,
    in descending order, and nothing left out ranks above them. *)
Lemma top_of_ranked (n : nat) (rows : list A) :
  let top := firstn n (ranked key rows) in
  let rest := skipn n (ranked key rows) in
  length top = Nat.min n (length rows)
  /\ StronglySorted (desc key) top
  /\ Permutation (top ++ rest) rows
  /\ forall a b, In a top -> In b rest -> (desc key) a b.
Proof.
  intros top rest.
  pose proof (ranked_sorted rows) as Hs.
  rewrite <- (firstn_skipn n (ranked key rows)) in Hs. fold top rest in Hs.
  destruct (sorted_split top rest Hs) as [Htop Hdom].
  split; [|split; [exact Htop|split; [|exact Hdom]]].
  - unfold top. rewrite length_firstn.
    rewrite (Permutation_length (ranked_perm rows)). reflexivity.
  - unfold top, rest. rewrite firstn_skipn. apply ranked_perm.
Qed.

End SortDesc.

(** ** Grouping by year *)

Lemma insert_key_in (k : Z) (ks : list Z) (y : Z) :
  In y (Pd.insert_key k ks) <-> y = k \/ In y ks.
Proof.
  induction ks as [|k' ks IH]; simpl.
  - split; intros [->|[]]; auto.
  - destruct (Z.ltb_spec k k') as [Hlt|Hge]; simpl.
    + split; intros [->|[->|Hin]]; auto.
    + destruct (Z.eqb_spec k k') as [->|Hne]; simpl.
      * split; [intros [->|Hin]; auto | intros [->|[->|Hin]]; auto].
      * rewrite IH. split; intros [->|[->|Hin]]; auto.
Qed.

Lemma insert_key_sorted (k : Z) (ks : list Z) :
  StronglySorted Z.lt ks -> StronglySorted Z.lt (Pd.insert_key k ks).
Proof.
  induction ks as [|k' ks IH]; intros Hs; simpl.
  - constructor; constructor.
  - pose proof (StronglySorted_inv Hs) as [Hs' Hall].
    destruct (Z.ltb_spec k k') as [Hlt|Hge].
    + constructor; [exact Hs|]. constructor; [exact Hlt|].
      apply List.Forall_forall. intros z Hz.
      pose proof (proj1 (List.Forall_forall _ _) Hall z Hz). lia.
    + destruct (Z.eqb_spec k k') as [->|Hne]; [exact Hs|].
      constructor; [apply IH; exact Hs'|].
      apply List.Forall_forall. intros z Hz. apply insert_key_in in Hz as [->|Hz].
      * lia.
      * exact (proj1 (List.Forall_forall _ _) Hall z Hz).
Qed.

Lemma group_keys_in (keys : list Z) (y : Z) : In y (Pd.group_keys keys) <-> In y keys.
Proof.
  unfold Pd.group_keys. induction keys as [|k keys IH]; simpl; [reflexivity|].
  rewrite insert_key_in, IH. split; intros [->|Hin]; auto.
Qed.

Lemma group_keys_sorted (keys : list Z) : StronglySorted Z.lt (Pd.group_keys keys).
Proof.
  unfold Pd.group_keys. induction keys as [|k keys IH]; simpl; [constructor|].
  apply insert_key_sorted. exact IH.
Qed.

Lemma sorted_lt_nodup (l : list Z) : StronglySorted Z.lt l -> List.NoDup l.
Proof.
  induction l as [|x l IH]; intros Hs; [constructor|].
  apply StronglySorted_inv in Hs as [Hs Hall]. constructor; [|apply IH; exact Hs].
  intros Hin. pose proof (proj1 (List.Forall_forall _ _) Hall x Hin). lia.
Qed.

Lemma index_year_datetime (idx : list label) :
  Forall (fun l => match l with LTime _ => True | _ => False end) idx ->
  exists years, Pd.index_year idx = Ok years /\ length years = length idx.
Proof.
  unfold Pd.index_year. induction idx as [|l idx IH]; intros Hall.
  - exists []. split; reflexivity.
  - apply List.Forall_cons_iff in Hall as [Hl Hall].
    destruct (IH Hall) as (years & Hy & Hlen).
    destruct l as [s|t|z]; try contradiction.
    exists (ts_year t :: years). cbn [rmapM rbind]. rewrite Hy. cbn [rbind].
    split; [reflexivity | simpl; rewrite Hlen; reflexivity].
Qed.

Lemma combine_fst_snd {A B : Type} (l : list (A * B)) :
  combine (map fst l) (map snd l) = l.
Proof.
  induction l as [|[a b] l IH]; simpl; [reflexivity | rewrite IH; reflexivity].
Qed.

Lemma mem_index_of (c : string) (cols : list string) :
  Pd.mem c cols = false <-> Pd.index_of c cols = None.
Proof.
  unfold Pd.mem. destruct (Pd.index_of c cols); split; intros E; congruence.
Qed.

(** ** Columns selected by label *)

Lemma positions_absent (c : string) (cols : list string) (from : nat) :
  ~ In c cols -> Pd.positions c cols from = [].
Proof.
  revert from. induction cols as [|c' cols IH]; intros from Hno; simpl; [reflexivity|].
  destruct (String.eqb_spec c c') as [->|Hne].
  - exfalso. apply Hno. left. reflexivity.
  - apply IH. intros Hin. apply Hno. right. exact Hin.
Qed.

Lemma positions_in (c : string) (cols : list string) (from k : nat) :
  nth_error cols k = Some c -> In (from + k) (Pd.positions c cols from).
Proof.
  revert from k. induction cols as [|c' cols IH]; intros from k Hk.
  - destruct k; discriminate Hk.
  - simpl. destruct k as [|k].
    + injection Hk as ->. rewrite String.eqb_refl, Nat.add_0_r. left. reflexivity.
    + replace (from + S k) with (S from + k) by lia.
      destruct (String.eqb c c'); [right|]; apply IH; exact Hk.
Qed.

Lemma positions_once (c : string) (cols : list string) (from j : nat) :
  nth_error cols j = Some c ->
  (forall j', nth_error cols j' = Some c -> j' = j) ->
  Pd.positions c cols from = [from + j].
Proof.
  revert from j. induction cols as [|c' cols IH]; intros from j Hj Honly.
  - destruct j; discriminate Hj.
  - simpl. destruct j as [|j].
    + injection Hj as ->. rewrite String.eqb_refl, Nat.add_0_r.
      rewrite positions_absent; [reflexivity|].
      intros Hin. apply In_nth_error in Hin as [k Hk].
      specialize (Honly (S k) Hk). discriminate Honly.
    + destruct (String.eqb_spec c c') as [->|Hne].
      * specialize (Honly O eq_refl). discriminate Honly.
      * replace (from + S j) with (S from + j) by lia. apply IH; [exact Hj|].
        intros j' Hj'. specialize (Honly (S j') Hj'). lia.
Qed.

Lemma positions_twice (c : string) (cols : list string) (j j' : nat) :
  j <> j' ->
  nth_error cols j = Some c -> nth_error cols j' = Some c ->
  exists a b rest, Pd.positions c cols O = a :: b :: rest.
Proof.
  intros Hne Hj Hj'.
  pose proof (positions_in c cols O j Hj) as Hin.
  pose proof (positions_in c cols O j' Hj') as Hin'.
  destruct (Pd.positions c cols O) as [|a [|b rest]].
  - destruct Hin.
  - cbn [Nat.add] in Hin, Hin'. destruct Hin as [E|[]]. destruct Hin' as [E'|[]].
    congruence.
  - exists a, b, rest. reflexivity.
Qed.

(** ** Sums by year *)

Lemma kahan_fold_compensated (xs : list float) (acc : Pd.kahan) :
  Pd.sumx (fold_left Pd.kahan_step xs acc)
  = compensated (Pd.sumx acc) (Pd.compensation acc) xs.
Proof.
  revert acc. induction xs as [|x xs IH]; intros acc; simpl; [reflexivity|].
  rewrite IH. unfold Pd.kahan_step.
  destruct (PrimFloat.is_nan x); reflexivity.
Qed.

Lemma nansum_compensated (xs : list float) : Pd.nansum xs = compensated_sum xs.
Proof. apply kahan_fold_compensated. Qed.

Lemma index_year_in (idx : list label) (years : list Z) (y : Z) :
  Pd.index_year idx = Ok years ->
  In y years <-> exists t, In (LTime t) idx /\ ts_year t = y.
Proof.
  unfold Pd.index_year. revert years.
  induction idx as [|l idx IH]; intros years E; cbn [rmapM] in E.
  - injection E as <-. split; [intros [] | intros (t & [] & _)].
  - destruct l as [s|t|z]; cbn [rbind] in E; try discriminate E.
    destruct (rmapM _ idx) as [ys|e]; cbn [rbind] in E; [|discriminate E].
    injection E as <-. specialize (IH ys eq_refl). split.
    + intros [<-|Hin].
      * exists t. split; [left; reflexivity | reflexivity].
      * apply IH in Hin as (t' & Hin & Ht'). exists t'. split; [right; exact Hin | exact Ht'].
    + intros (t' & [E|Hin] & Ht').
      * injection E as ->. left. exact Ht'.
      * right. apply IH. exists t'. split; assumption.
Qed.

(** The cells that the grouping hands to the sum for year [y] are the
    cells of the rows whose timestamp lies in that year. *)
Lemma group_cells_of_year
    (idx : list label) (years : list Z) (rows : list (list float)) (j : nat) (y : Z) :
  Pd.index_year idx = Ok years ->
  Pd.column_cells j (Pd.group_rows y years rows)
  = flat_map (fun r : label * list float =>
                match fst r with
                | LTime t => if (ts_year t =? y)%Z then [nth j (snd r) PrimFloat.nan] else []
                | _ => []
                end)
             (combine idx rows).
Proof.
  unfold Pd.index_year, Pd.column_cells, Pd.group_rows. revert years rows.
  induction idx as [|l idx IH]; intros years rows E; cbn [rmapM] in E.
  - injection E as <-. reflexivity.
  - destruct l as [s|t|z]; cbn [rbind] in E; try discriminate E.
    destruct (rmapM _ idx) as [ys|e]; cbn [rbind] in E; [|discriminate E].
    injection E as <-. destruct rows as [|row rows]; [reflexivity|].
    cbn [combine List.filter flat_map fst snd].
    rewrite <- (IH ys rows eq_refl).
    destruct (ts_year t =? y)%Z; reflexivity.
Qed.

Lemma combine_map {A B C : Type} (f : A -> B) (g : A -> C) (l : list A) :
  combine (map f l) (map g l) = map (fun a => (f a, g a)) l.
Proof. induction l as [|a l IH]; simpl; [reflexivity | rewrite IH; reflexivity]. Qed.

(** The table of yearly sums, row by row. *)
Lemma groupby_sum_years (data : DataFrame) (years : list Z) :
  Pd.index_year (index data) = Ok years ->
  combine (index (Pd.groupby_sum years data)) (values (Pd.groupby_sum years data))
  = map (fun y => (LInt y, year_sums data y)) (Pd.group_keys years).
Proof.
  intros Hy. unfold Pd.groupby_sum. cbn [index values]. rewrite combine_map.
  apply map_ext. intros y. f_equal. unfold year_sums. apply map_ext. intros j.
  rewrite nansum_compensated, (group_cells_of_year _ _ _ _ _ Hy). reflexivity.
Qed.

(** ** The Top-N Years renderer *)

(** C8: on a table with a datetime index, the renderer stops with the
    key error [Energy] when no column carries that label, and with an
    attribute error when several columns carry it, in both cases before
    anything is drawn or saved.  When exactly one column is labelled
    [Energy], the table it draws holds [top_n] of the yearly sums, or all
    of them when there are fewer distinct years; its rows come in
    descending order of summed [Energy], they are rows of the yearly
    sums, and no year left out has a larger sum than a year kept.  The
    yearly sums have one row for each year that occurs in the index, and
    the cells of that row are the sums, column by column, of the rows
    whose timestamp lies in that year. *)
Theorem top_years_selection `{Libraries} (data : DataFrame) (top_n : Z) :
  datetime_indexed data ->
  (~ In "Energy" (columns data) ->
   top_years data top_n = Raise (KeyError "Energy")
   /\ forall save_image w,
       plot_top_years data top_n save_image w = (Raise (KeyError "Energy"), w))
  /\ (forall j j',
        j <> j' ->
        nth_error (columns data) j = Some "Energy" ->
        nth_error (columns data) j' = Some "Energy" ->
        top_years data top_n = Raise (AttributeError "dtype")
        /\ forall save_image w,
            plot_top_years data top_n save_image w = (Raise (AttributeError "dtype"), w))
  /\ (forall j,
        nth_error (columns data) j = Some "Energy" ->
        (forall j', nth_error (columns data) j' = Some "Energy" -> j' = j) ->
        exists years top rest,
          Pd.index_year (index data) = Ok years
          /\ top_years data top_n = Ok top
          /\ columns top = columns data
          /\ List.NoDup (Pd.group_keys years)
          /\ (forall y, In y (Pd.group_keys years) <-> In y years)
          /\ (forall y, In y years <-> exists t, In (LTime t) (index data) /\ ts_year t = y)
          /\ (let energy := fun r : label * list float => nth j (snd r) PrimFloat.nan in
              let sums := Pd.groupby_sum years data in
              let rows := combine (index top) (values top) in
              index top = map fst rows
              /\ values top = map snd rows
              /\ length rows = Nat.min (Z.to_nat top_n) (length (Pd.group_keys years))
              /\ StronglySorted (desc energy) rows
              /\ Permutation (rows ++ rest) (combine (index sums) (values sums))
              /\ (forall a b, In a rows -> In b rest -> desc energy a b)
              /\ combine (index sums) (values sums)
                 = map (fun y => (LInt y, year_sums data y)) (Pd.group_keys years))).
Proof.
  intros Hdt. destruct (index_year_datetime (index data) Hdt) as (years & Hy & _).
  split; [|split].
  - intros Hno.
    assert (Ht : top_years data top_n = Raise (KeyError "Energy")).
    { unfold top_years. rewrite Hy. cbn [rbind]. unfold Pd.nlargest.
      cbn [Pd.groupby_sum columns]. rewrite (positions_absent _ _ _ Hno). reflexivity. }
    split; [exact Ht|]. intros save_image w.
    unfold plot_top_years, bind, lift. rewrite Ht. reflexivity.
  - intros j j' Hne Hj Hj'.
    destruct (positions_twice _ _ _ _ Hne Hj Hj') as (a & b & l & Hpos).
    assert (Ht : top_years data top_n = Raise (AttributeError "dtype")).
    { unfold top_years. rewrite Hy. cbn [rbind]. unfold Pd.nlargest.
      cbn [Pd.groupby_sum columns]. rewrite Hpos. reflexivity. }
    split; [exact Ht|]. intros save_image w.
    unfold plot_top_years, bind, lift. rewrite Ht. reflexivity.
  - intros j Hj Honly.
    pose proof (positions_once _ _ O j Hj Honly) as Hpos. cbn [Nat.add] in Hpos.
    set (energy := fun r : label * list float => nth j (snd r) PrimFloat.nan).
    set (sums := Pd.groupby_sum years data).
    set (groups := combine (index sums) (values sums)).
    destruct (top_of_ranked energy (Z.to_nat top_n) groups) as (Hlen & Hsorted & Hperm & Hdom).
    exists years, (mkDataFrame (columns data)
                     (map fst (firstn (Z.to_nat top_n) (ranked energy groups)))
                     (map snd (firstn (Z.to_nat top_n) (ranked energy groups)))),
           (skipn (Z.to_nat top_n) (ranked energy groups)).
    split; [exact Hy|]. split.
    { unfold top_years. rewrite Hy. cbn [rbind]. unfold Pd.nlargest.
      cbn [Pd.groupby_sum columns]. rewrite Hpos. reflexivity. }
    split; [reflexivity|].
    split; [apply sorted_lt_nodup, group_keys_sorted|].
    split; [apply group_keys_in|].
    split; [intros y; apply index_year_in; exact Hy|].
    cbv zeta. cbn [index values]. rewrite combine_fst_snd.
    split; [reflexivity|]. split; [reflexivity|].
    split; [|split; [exact Hsorted | split; [exact Hperm | split; [exact Hdom|]]]].
    + rewrite Hlen. f_equal. unfold groups, sums, Pd.groupby_sum. cbn [index values].
      rewrite length_combine, !length_map. apply Nat.min_id.
    + apply groupby_sum_years. exact Hy.
Qed.

Lemma top_years_selection_witness :
  exists years top rest,
    Pd.index_year (index Demo.yearly) = Ok years
    /\ top_years Demo.yearly 2 = Ok top
    /\ columns top = columns Demo.yearly
    /\ List.NoDup (Pd.group_keys years)
    /\ (forall y, In y (Pd.group_keys years) <-> In y years)
    /\ (forall y, In y years
                  <-> exists t, In (LTime t) (index Demo.yearly) /\ ts_year t = y)
    /\ (let energy := fun r : label * list float => nth 0 (snd r) PrimFloat.nan in
        let sums := Pd.groupby_sum years Demo.yearly in
        let rows := combine (index top) (values top) in
        index top = map fst rows
        /\ values top = map snd rows
        /\ length rows = Nat.min (Z.to_nat 2) (length (Pd.group_keys years))
        /\ StronglySorted (desc energy) rows
        /\ Permutation (rows ++ rest) (combine (index sums) (values sums))
        /\ (forall a b, In a rows -> In b rest -> desc energy a b)
        /\ combine (index sums) (values sums)
           = map (fun y => (LInt y, year_sums Demo.yearly y)) (Pd.group_keys years)).
Proof.
  apply (proj2 (proj2 (top_years_selection Demo.yearly 2
                         ltac:(repeat constructor))) 0%nat).
  - reflexivity.
  - intros [|[|j']] Hj'; [reflexivity | discriminate Hj' | discriminate Hj'].
Defined.

(** C8, as stated, fails: both columns of this table are labelled
    [Energy], so the column is present, and yet the renderer selects no
    year; it stops with an attribute error, and it does so before
    anything is drawn. *)
Lemma top_years_repeated_label_counterexample :
  In "Energy" (columns Demo.doubled)
  /\ datetime_indexed Demo.doubled
  /\ top_years Demo.doubled 1 = Raise (AttributeError "dtype")
  /\ plot_top_years Demo.doubled 1 false (Demo.world0 [])
     = (Raise (AttributeError "dtype"), Demo.world0 []).
Proof.
  split; [left; reflexivity|]. split; [repeat constructor|].
  split; reflexivity.
Qed.

(** Ten readings of a tenth (the binary64 number nearest to 0.1) sum
    to one; adding them up without the compensation falls short of it by
    one unit in the last place. *)
Example sum_of_ten_tenths :
  Pd.nansum (repeat 0x1.999999999999ap-4%float 10) = 1%float
  /\ fold_left PrimFloat.add (repeat 0x1.999999999999ap-4%float 10) 0%float
     = 0x1.fffffffffffffp-1%float
  /\ Pd.nanmean (repeat 0x1.999999999999ap-4%float 10) = 0x1.999999999999ap-4%float.
Proof. vm_compute. repeat split. Qed.

(** ** Runs on the concrete world *)

Example join_relative :
  OsPath.join "data/input" "Solcast_1.csv" = "data/input/Solcast_1.csv"
  /\ OsPath.join "data/" "a.csv" = "data/a.csv"
  /\ OsPath.join "data" "/tmp/a.csv" = "/tmp/a.csv".
Proof. repeat split. Qed.

Example split_file :
  OsPath.split "/home/u/data/output/x.csv" = ("/home/u/data/output", "x.csv")
  /\ OsPath.split "/x" = ("/", "x").
Proof. repeat split. Qed.

(** Two files, one negative reading, losses 0.5 and 0.25: three rows,
    the negative one clamped to zero before the scaling. *)
Example compile_two_files :
  fst (compile_data "src" "Solcast" 0.5%float 0.25%float false (Demo.world0 []))
  = Ok Demo.compiled.
Proof. vm_compute. reflexivity. Qed.

(** Saving and compiling again with the answer [S] gives the same table:
    the second run starts from the source files, not from the saved one. *)
Example compile_twice_same_values :
  let first := compile_data "src" "Solcast" 0.5%float 0.25%float true (Demo.world0 ["S"]) in
  let second := compile_data "src" "Solcast" 0.5%float 0.25%float true (snd first) in
  fst first = Ok Demo.compiled /\ fst second = Ok Demo.compiled.
Proof. vm_compute. split; reflexivity. Qed.

(** A directory without matching files: the concatenation refuses an
    empty list. *)
Example compile_no_files :
  fst (compile_data "src" "Meteonorm" 0.5%float 0.25%float false (Demo.world0 []))
  = Raise (ValueError "No objects to concatenate").
Proof. vm_compute. reflexivity. Qed.

(** The yearly sums of the sample are 3 (2020), 5 (2021) and 4 (2019);
    the two largest come first. *)
Example top_two_years :
  top_years Demo.yearly 2
  = Ok (mkDataFrame ["Energy"] [LInt 2021; LInt 2019] [[5%float]; [4%float]]).
Proof. vm_compute. reflexivity. Qed.

Example top_years_without_energy :
  top_years (mkDataFrame ["kW"] [LTime (mkTimestamp 2020 1 1 10 0)] [[1%float]]) 3
  = Raise (KeyError "Energy").
Proof. vm_compute. reflexivity. Qed.

(** The long s is upper-cased to [S] and so reads as a yes. *)
Example long_s_answer :
  fst (check_file_processing "/home/u/data/output/dados_compilados_Solcast.csv"
                             (Demo.world_cached ["ſ"]))
  = Ok true.
Proof. vm_compute. reflexivity. Qed.

(** * Further properties *)

(** ** Entry names and joined paths *)

Lemma contains_empty (s : string) : PyStr.contains "" s = true.
Proof. destruct s; reflexivity. Qed.

Lemma filter_all {A : Type} (p : A -> bool) (l : list A) :
  (forall x, In x l -> p x = true) -> List.filter p l = l.
Proof.
  induction l as [|x l IH]; intros Hall; simpl; [reflexivity|].
  rewrite (Hall x (or_introl eq_refl)), IH; [reflexivity|].
  intros y Hy. apply Hall. right. exact Hy.
Qed.

(** With an empty dataset name nothing is filtered out: every entry of
    the directory comes back, joined, in listing order. *)
Theorem list_files_empty_name (directory : string) (w : world) (names : list string) :
  Fs.listdir (resolve w directory) (w_fs w) = Ok names ->
  fst (list_files directory "" w) = Ok (map (OsPath.join directory) names).
Proof.
  intros Hls. rewrite list_files_run, Hls. cbn [fst rbind].
  rewrite filter_all; [reflexivity|]. intros x _. apply contains_empty.
Qed.

Lemma list_files_empty_name_witness :
  fst (list_files "src" "" (Demo.world0 []))
  = Ok ["src/Solcast_A.csv"; "src/notes.txt"; "src/Solcast_B.csv"].
Proof.
  apply (list_files_empty_name "src" (Demo.world0 [])
           ["Solcast_A.csv"; "notes.txt"; "Solcast_B.csv"]).
  vm_compute. reflexivity.
Defined.

Lemma span_not_sep_app (t rest : list ascii) :
  forallb (fun c => negb (OsPath.is_sep c)) t = true ->
  match rest with [] => True | c :: _ => OsPath.is_sep c = true end ->
  OsPath.span_not_sep (t ++ rest) = (t, rest).
Proof.
  induction t as [|x t IH]; simpl; intros Ht Hrest.
  - destruct rest as [|c rest]; [reflexivity|]. simpl. rewrite Hrest. reflexivity.
  - apply andb_true_iff in Ht as [Hx Ht]. apply negb_true_iff in Hx.
    rewrite Hx, (IH Ht Hrest). reflexivity.
Qed.

Lemma forallb_rev {A : Type} (p : A -> bool) (l : list A) :
  forallb p (rev l) = forallb p l.
Proof.
  induction l as [|x l IH]; simpl; [reflexivity|].
  rewrite forallb_app, IH. simpl. rewrite andb_true_r. apply andb_comm.
Qed.

(** After a prefix that is empty or ends with a separator, a name
    without separators is the last component. *)
Lemma basename_after_sep (p b : string) :
  no_sep b = true ->
  p = "" \/ PyStr.endswith_char OsPath.sep p = true ->
  OsPath.basename (p +:+ b) = b.
Proof.
  intros Hb Hp. unfold OsPath.basename, OsPath.split.
  rewrite chars_app, rev_app_distr.
  rewrite (span_not_sep_app (rev (OsPath.chars b)) (rev (OsPath.chars p))).
  - cbn [snd]. rewrite rev_involutive. apply of_chars_chars.
  - rewrite forallb_rev. exact Hb.
  - destruct Hp as [->|Hp]; [exact I|].
    clear Hb. induction p as [|x p IH]; [discriminate Hp|].
    cbn [OsPath.chars rev]. cbn [PyStr.endswith_char] in Hp.
    destruct p as [|y p].
    + simpl. unfold OsPath.is_sep. exact Hp.
    + specialize (IH Hp). cbn [OsPath.chars rev] in IH |- *.
      destruct (rev (OsPath.chars p)) as [|c r]; simpl in *; exact IH.
Qed.

Lemma join_prefix_form (a b : string) :
  PyStr.startswith "/" b = false ->
  exists p, OsPath.join a b = p +:+ b
            /\ (p = "" \/ PyStr.endswith_char OsPath.sep p = true).
Proof.
  intros Hb. unfold OsPath.join. rewrite Hb.
  destruct (String.eqb_spec a "") as [->|Ha]; cbn [orb].
  - exists "". split; [reflexivity | left; reflexivity].
  - destruct (PyStr.endswith_char OsPath.sep a) eqn:E.
    + exists a. split; [reflexivity | right; exact E].
    + exists (a +:+ "/"). split; [symmetry; apply append_assoc|].
      right. rewrite endswith_char_app by discriminate. reflexivity.
Qed.

Lemma no_sep_not_absolute (b : string) : no_sep b = true -> PyStr.startswith "/" b = false.
Proof.
  unfold no_sep. destruct b as [|c b]; [reflexivity|].
  cbn [OsPath.chars forallb PyStr.startswith]. intros Hb.
  apply andb_true_iff in Hb as [Hc _]. apply negb_true_iff in Hc.
  unfold OsPath.is_sep, OsPath.sep in Hc.
  rewrite Ascii.eqb_sym, Hc. reflexivity.
Qed.

Lemma basename_join (a b : string) :
  no_sep b = true -> OsPath.basename (OsPath.join a b) = b.
Proof.
  intros Hb.
  destruct (join_prefix_form a b (no_sep_not_absolute b Hb)) as (p & -> & Hp).
  apply basename_after_sep; assumption.
Qed.

(** Directory entries carry no separator, so the entry name can be read
    back from each path that [list_files] returns: the base names of the
    result are the entries that passed the test, in listing order. *)
Theorem list_files_basenames
    (directory dataset_name : string) (w : world) (names files : list string) :
  Fs.listdir (resolve w directory) (w_fs w) = Ok names ->
  Forall (fun name => no_sep name = true) names ->
  fst (list_files directory dataset_name w) = Ok files ->
  map OsPath.basename files
  = List.filter (fun name => PyStr.contains dataset_name (OsPath.join directory name)) names
  /\ length files <= length names.
Proof.
  intros Hls Hnames. rewrite list_files_run, Hls. cbn [fst rbind].
  intros E. injection E as <-. clear Hls.
  induction names as [|name names IH]; [split; [reflexivity | simpl; lia]|].
  apply List.Forall_cons_iff in Hnames as [Hn Hnames].
  destruct (IH Hnames) as [IHm IHl]. cbn [map List.filter].
  destruct (PyStr.contains dataset_name (OsPath.join directory name)).
  - cbn [map length]. rewrite IHm, basename_join by exact Hn. split; [reflexivity | lia].
  - split; [exact IHm | simpl; lia].
Qed.

Lemma list_files_basenames_witness :
  map OsPath.basename ["src/Solcast_A.csv"; "src/Solcast_B.csv"]
  = List.filter (fun name => PyStr.contains "Solcast" (OsPath.join "src" name))
                ["Solcast_A.csv"; "notes.txt"; "Solcast_B.csv"]
  /\ length ["src/Solcast_A.csv"; "src/Solcast_B.csv"] <= 3.
Proof.
  apply (list_files_basenames "src" "Solcast" (Demo.world0 [])).
  - vm_compute. reflexivity.
  - repeat constructor.
  - vm_compute. reflexivity.
Defined.

(** ** The Record Parser: index and failures *)

Lemma rmapM_first_error {A B : Type} (f : A -> result B)
    (pre post : list A) (bad : A) (e : exn) :
  Forall (fun x => exists y, f x = Ok y) pre ->
  f bad = Raise e ->
  rmapM f (pre ++ bad :: post) = Raise e.
Proof.
  induction pre as [|x pre IH]; intros Hpre Hbad; simpl.
  - rewrite Hbad. reflexivity.
  - apply List.Forall_cons_iff in Hpre as [[y Hy] Hpre].
    rewrite Hy, (IH Hpre Hbad). reflexivity.
Qed.

Lemma to_datetime_labels `{Libraries} (fmt : string) (idx idx' : list label) :
  Pd.to_datetime fmt idx = Ok idx' ->
  Forall2 (fun l l' => exists t, pd_strptime fmt l = Ok t /\ l' = LTime t) idx idx'.
Proof.
  unfold Pd.to_datetime. intros E. apply rmapM_Forall2 in E.
  induction E as [|l l' idx idx' Hl _ IH]; constructor; [|exact IH].
  destruct (pd_strptime fmt l) as [t|e]; cbn [rbind] in Hl; [|discriminate Hl].
  injection Hl as <-. exists t. split; reflexivity.
Qed.

Lemma read_csv_run `{Libraries} (path : string) (kw : read_csv_kwargs) (w : world) :
  fst (Pd.read_csv path kw w)
  = rbind (Fs.read (resolve w path) (w_fs w)) (pd_parse_csv kw).
Proof.
  unfold Pd.read_csv, bind, read_text, lift. cbn [fst snd].
  destruct (Fs.read (resolve w path) (w_fs w)); reflexivity.
Qed.

Lemma read_and_format_data_result `{Libraries}
    (file_path : string) (kwargs : read_csv_kwargs) (w : world) :
  fst (read_and_format_data file_path kwargs w)
  = rbind (fst (Pd.read_csv file_path kwargs w)) format_data.
Proof.
  rewrite read_and_format_data_run, read_csv_run. cbn [fst].
  destruct (Fs.read (resolve w file_path) (w_fs w)); reflexivity.
Qed.



(** One label that does not match the format loses the whole file: the
    call raises the parser's error for the first such label and returns
    no table. *)
Theorem bad_timestamp_aborts_file `{Libraries}
    (file_path : string) (kwargs : read_csv_kwargs) (w : world)
    (raw : DataFrame) (pre post : list label) (bad : label) (e : exn) :
  fst (Pd.read_csv file_path kwargs w) = Ok raw ->
  index raw = pre ++ bad :: post ->
  Forall (fun l => exists t, pd_strptime "%d/%m/%y %H:%M" l = Ok t) pre ->
  pd_strptime "%d/%m/%y %H:%M" bad = Raise e ->
  fst (read_and_format_data file_path kwargs w) = Raise e.
Proof.
  intros Hraw Hidx Hpre Hbad. rewrite read_and_format_data_result, Hraw. cbn [rbind].
  unfold format_data. cbv zeta.
  unfold Pd.map_cells at 1 2. cbn [index]. unfold Pd.div_scalar, Pd.map_cells. cbn [index].
  unfold Pd.rename_column. cbn [index]. rewrite Hidx. unfold Pd.to_datetime.
  rewrite (rmapM_first_error _ pre post bad e); [reflexivity| |].
  - apply List.Forall_forall. intros l Hl.
    destruct (proj1 (List.Forall_forall _ _) Hpre l Hl) as [t Ht].
    exists (LTime t). rewrite Ht. reflexivity.
  - rewrite Hbad. reflexivity.
Qed.

Lemma bad_timestamp_aborts_file_witness :
  fst (@read_and_format_data DemoBad.libs "src/notes.txt" source_kwargs (Demo.world0 []))
  = Raise (ValueError "time data does not match format").
Proof.
  apply (@bad_timestamp_aborts_file DemoBad.libs "src/notes.txt" source_kwargs
           (Demo.world0 []) DemoBad.raw_bad
           [LStr "01/01/20 10:00"] [LStr "x"] (LStr "2020-01-01")).
  - vm_compute. reflexivity.
  - reflexivity.
  - repeat constructor. eexists. vm_compute. reflexivity.
  - vm_compute. reflexivity.
Defined.

(** ** The Compiler: failures *)

(** Whatever stops the table from being computed stops the run, with
    the same error, before anything is stored. *)
Lemma compile_data_fresh_error `{Libraries}
    (directory dataset_name : string) (transformer_loss transmission_loss : float)
    (save_data : bool) (w : world) (e : exn) :
  fresh dataset_name w ->
  compiled_table directory dataset_name transformer_loss transmission_loss w = Raise e ->
  fst (compile_data directory dataset_name transformer_loss transmission_loss save_data w)
  = Raise e
  /\ w_fs (snd (compile_data directory dataset_name transformer_loss transmission_loss
                             save_data w)) = w_fs w.
Proof.
  intros Hg Ht. apply fresh_gate in Hg.
  rewrite (compile_data_when_fresh _ _ _ _ _ _ Hg).
  destruct (check_frame (output_file_of (w_cwd w) dataset_name) w) as [Hf Hc].
  set (w1 := snd (check_file_processing (output_file_of (w_cwd w) dataset_name) w)) in *.
  rewrite <- (compiled_table_frame directory dataset_name transformer_loss transmission_loss
                w w1 Hc Hf) in Ht.
  destruct save_data.
  - pose proof (compile_fresh_saved directory dataset_name transformer_loss transmission_loss
                  (output_dir_of (w_cwd w)) (output_file_of (w_cwd w) dataset_name) w1) as Hs.
    cbv zeta in Hs. rewrite Ht in Hs. destruct Hs as [[Hr Hs] _].
    split; [exact Hr | rewrite Hs; exact Hf].
  - pose proof (compile_fresh_unsaved directory dataset_name transformer_loss transmission_loss
                  (output_dir_of (w_cwd w)) (output_file_of (w_cwd w) dataset_name) w1) as Hs.
    cbv zeta in Hs. rewrite Ht in Hs. destruct Hs as (Hr & Hs & _).
    split; [exact Hr | rewrite Hs; exact Hf].
Qed.

(** When no entry of the directory matches, a fresh compilation ends in
    the concatenation's refusal of an empty list; nothing is created or
    written, whatever the save flag. *)
Theorem compile_data_no_matching_file `{Libraries}
    (directory dataset_name : string) (transformer_loss transmission_loss : float)
    (save_data : bool) (w : world) (names : list string) :
  fresh dataset_name w ->
  Fs.listdir (resolve w directory) (w_fs w) = Ok names ->
  (forall name, In name names ->
                PyStr.contains dataset_name (OsPath.join directory name) = false) ->
  fst (compile_data directory dataset_name transformer_loss transmission_loss save_data w)
  = Raise (ValueError "No objects to concatenate")
  /\ w_fs (snd (compile_data directory dataset_name transformer_loss transmission_loss
                             save_data w)) = w_fs w.
Proof.
  intros Hg Hls Hnone. apply compile_data_fresh_error; [exact Hg|].
  unfold compiled_table, formatted_tables. rewrite list_files_run, Hls. cbn [fst rbind].
  assert (Hempty : List.filter (PyStr.contains dataset_name)
                               (map (OsPath.join directory) names) = []).
  { clear Hls. induction names as [|n names IH]; [reflexivity|].
    simpl. rewrite (Hnone n (or_introl eq_refl)). apply IH.
    intros name Hin. apply Hnone. right. exact Hin. }
  rewrite Hempty. reflexivity.
Qed.

Lemma compile_data_no_matching_file_witness :
  fst (compile_data "src" "Meteonorm" 0.5%float 0.25%float true (Demo.world0 []))
  = Raise (ValueError "No objects to concatenate")
  /\ w_fs (snd (compile_data "src" "Meteonorm" 0.5%float 0.25%float true (Demo.world0 [])))
     = w_fs (Demo.world0 []).
Proof.
  apply (compile_data_no_matching_file "src" "Meteonorm" 0.5%float 0.25%float true
           (Demo.world0 []) ["Solcast_A.csv"; "notes.txt"; "Solcast_B.csv"]).
  - left. vm_compute. reflexivity.
  - vm_compute. reflexivity.
  - intros name [<-|[<-|[<-|[]]]]; vm_compute; reflexivity.
Defined.

(** The first located file that cannot be read, parsed or formatted
    ends a fresh compilation with its error: the files after it do not
    matter, no partial table is returned, and nothing is stored. *)
Theorem compile_data_first_bad_file `{Libraries}
    (directory dataset_name : string) (transformer_loss transmission_loss : float)
    (save_data : bool) (w : world) (pre post : list string) (bad : string) (e : exn) :
  fresh dataset_name w ->
  fst (list_files directory dataset_name w) = Ok (pre ++ bad :: post) ->
  Forall (fun file => exists t, fst (read_and_format_data file source_kwargs w) = Ok t) pre ->
  fst (read_and_format_data bad source_kwargs w) = Raise e ->
  fst (compile_data directory dataset_name transformer_loss transmission_loss save_data w)
  = Raise e
  /\ w_fs (snd (compile_data directory dataset_name transformer_loss transmission_loss
                             save_data w)) = w_fs w.
Proof.
  intros Hg Hfiles Hpre Hbad. apply compile_data_fresh_error; [exact Hg|].
  unfold compiled_table, formatted_tables. rewrite Hfiles. cbn [rbind].
  rewrite (rmapM_first_error (formatted_table w) pre post bad e Hpre Hbad).
  reflexivity.
Qed.

Lemma compile_data_first_bad_file_witness :
  fst (compile_data "src" "" 0.5%float 0.25%float true (Demo.world0 []))
  = Raise ParserError
  /\ w_fs (snd (compile_data "src" "" 0.5%float 0.25%float true (Demo.world0 [])))
     = w_fs (Demo.world0 []).
Proof.
  apply (compile_data_first_bad_file "src" "" 0.5%float 0.25%float true (Demo.world0 [])
           ["src/Solcast_A.csv"] ["src/Solcast_B.csv"] "src/notes.txt").
  - left. vm_compute. reflexivity.
  - vm_compute. reflexivity.
  - repeat constructor. eexists. vm_compute. reflexivity.
  - vm_compute. reflexivity.
Defined.

(** ** From the Compiler to the renderers *)

Lemma format_data_datetime `{Libraries} (raw df : DataFrame) :
  format_data raw = Ok df -> datetime_indexed df.
Proof.
  intros Hdf. destruct (format_data_shape raw df Hdf) as (_ & _ & Hidx).
  apply to_datetime_labels in Hidx. unfold datetime_indexed.
  induction Hidx as [|l l' idx idx' (t & _ & ->) _ IH]; constructor; [exact I | exact IH].
Qed.

Lemma formatted_table_inv `{Libraries} (w : world) (file : string) (t : DataFrame) :
  formatted_table w file = Ok t ->
  exists raw, fst (Pd.read_csv file source_kwargs w) = Ok raw /\ format_data raw = Ok t.
Proof.
  unfold formatted_table. rewrite read_and_format_data_result.
  destruct (fst (Pd.read_csv file source_kwargs w)) as [raw|e]; cbn [rbind];
    intros E; [|discriminate E].
  exists raw. split; [reflexivity | exact E].
Qed.

Lemma index_hour_datetime (idx : list label) :
  Forall (fun l => match l with LTime _ => True | _ => False end) idx ->
  exists hours, Pd.index_hour idx = Ok hours
                /\ hours = map (fun l => match l with LTime t => ts_hour t | _ => 0%Z end) idx.
Proof.
  unfold Pd.index_hour. induction idx as [|l idx IH]; intros Hall.
  - exists []. split; reflexivity.
  - apply List.Forall_cons_iff in Hall as [Hl Hall].
    destruct (IH Hall) as (hours & Hy & ->).
    destruct l as [s|t|z]; try contradiction.
    eexists. cbn [rmapM rbind]. rewrite Hy. cbn [rbind]. split; reflexivity.
Qed.

Lemma index_month_datetime (idx : list label) :
  Forall (fun l => match l with LTime _ => True | _ => False end) idx ->
  exists months, Pd.index_month idx = Ok months
                 /\ months = map (fun l => match l with LTime t => ts_month t | _ => 0%Z end) idx.
Proof.
  unfold Pd.index_month. induction idx as [|l idx IH]; intros Hall.
  - exists []. split; reflexivity.
  - apply List.Forall_cons_iff in Hall as [Hl Hall].
    destruct (IH Hall) as (months & Hy & ->).
    destruct l as [s|t|z]; try contradiction.
    eexists. cbn [rmapM rbind]. rewrite Hy. cbn [rbind]. split; reflexivity.
Qed.

Lemma compiled_table_datetime `{Libraries}
    (directory dataset_name : string) (transformer_loss transmission_loss : float)
    (w : world) (df : DataFrame) :
  compiled_table directory dataset_name transformer_loss transmission_loss w = Ok df ->
  datetime_indexed df.
Proof.
  intros Ht.
  apply compiled_table_inv in Ht as (files & frames & cat & _ & Hframes & Hcat & ->).
  apply rmapM_Forall2 in Hframes.
  destruct (concat_rows frames cat Hcat) as (_ & Hidx & _).
  unfold datetime_indexed, Pd.mul_scalar, Pd.map_cells. cbn [index]. rewrite Hidx.
  clear Hcat Hidx. induction Hframes as [|file t files frames Hft _ IH]; [constructor|].
  cbn [flat_map]. apply List.Forall_app. split; [|exact IH].
  apply formatted_table_inv in Hft as (raw & _ & Hfmt).
  exact (format_data_datetime raw t Hfmt).
Qed.

(** The yearly selection on a table whose index has years: what
    happens is decided by the columns labelled [Energy]. *)
Lemma top_years_by_label (data : DataFrame) (top_n : Z) (years : list Z) :
  Pd.index_year (index data) = Ok years ->
  (~ In "Energy" (columns data) -> top_years data top_n = Raise (KeyError "Energy"))
  /\ (forall j,
        nth_error (columns data) j = Some "Energy" ->
        (forall j', nth_error (columns data) j' = Some "Energy" -> j' = j) ->
        exists top, top_years data top_n = Ok top)
  /\ (forall j j',
        j <> j' ->
        nth_error (columns data) j = Some "Energy" ->
        nth_error (columns data) j' = Some "Energy" ->
        top_years data top_n = Raise (AttributeError "dtype")).
Proof.
  intros Hy. unfold top_years. rewrite Hy. cbn [rbind]. unfold Pd.nlargest.
  cbn [Pd.groupby_sum columns]. split; [|split].
  - intros Hno. rewrite (positions_absent _ _ _ Hno). reflexivity.
  - intros j Hj Honly. rewrite (positions_once _ _ O j Hj Honly). eexists. reflexivity.
  - intros j j' Hne Hj Hj'.
    destruct (positions_twice _ _ _ _ Hne Hj Hj') as (a & b & l & ->). reflexivity.
Qed.



Lemma union_columns_nodup (acc cols : list string) :
  List.NoDup acc -> List.NoDup (Pd.union_columns acc cols).
Proof.
  revert acc. induction cols as [|c cols IH]; intros acc Hacc; simpl; [exact Hacc|].
  apply IH. destruct (Pd.mem c acc) eqn:Hm; [exact Hacc|].
  apply List.NoDup_app; [exact Hacc | repeat constructor; intros [] |].
  intros x Hx [<-|[]]. apply mem_In in Hx. rewrite Hx in Hm. discriminate Hm.
Qed.

Lemma all_columns_nodup (frames : list DataFrame) : List.NoDup (Pd.all_columns frames).
Proof.
  unfold Pd.all_columns. assert (Hnil : List.NoDup (@nil string)) by constructor.
  revert Hnil. generalize (@nil string).
  induction frames as [|t frames IH]; intros acc Hacc; simpl; [exact Hacc|].
  apply IH, union_columns_nodup, Hacc.
Qed.

(** The columns after a concatenation: those of every table when they
    all agree, otherwise the union, in which no label is repeated. *)
Lemma concat_columns (frames : list DataFrame) (cat : DataFrame) :
  Pd.concat frames = Ok cat ->
  Forall (fun t => columns t = columns cat) frames \/ List.NoDup (columns cat).
Proof.
  intros Hcat. destruct (concat_cells frames cat Hcat) as [[Hsame _]|_]; [left; exact Hsame|].
  revert Hcat. unfold Pd.concat. destruct frames as [|first rest] eqn:Ef; [discriminate|].
  rewrite <- Ef. destruct (forallb _ frames) eqn:Hsame.
  - intros E. injection E as <-. cbn [columns]. left.
    apply List.Forall_forall. intros t Ht.
    pose proof (proj1 (forallb_forall _ _) Hsame t Ht) as Heq.
    unfold Pd.list_eqb in Heq.
    destruct (decide (columns t = columns first)) as [E|]; [exact E | discriminate Heq].
  - destruct (existsb _ frames); [discriminate|].
    intros E. injection E as <-. cbn [columns]. right. apply all_columns_nodup.
Qed.

Lemma renamed_energy (c : string) :
  (if String.eqb c "kW" then "Energy" else c) = "Energy" <-> c = "kW" \/ c = "Energy".
Proof.
  destruct (String.eqb_spec c "kW") as [->|Hne]; split.
  - intros _. left. reflexivity.
  - intros _. reflexivity.
  - intros ->. right. reflexivity.
  - intros [->| ->]; [contradiction | reflexivity].
Qed.

(** When one of the located files has exactly one column labelled [kW]
    or [Energy], the compiled table has exactly one column labelled
    [Energy], and then the yearly selection succeeds for every
    [top_n]. *)
Theorem kw_column_gives_energy `{Libraries}
    (directory dataset_name : string) (transformer_loss transmission_loss : float)
    (save_data : bool) (w : world) (df : DataFrame)
    (files : list string) (file : string) (raw : DataFrame) (i : nat) :
  fresh dataset_name w ->
  fst (compile_data directory dataset_name transformer_loss transmission_loss save_data w) = Ok df ->
  fst (list_files directory dataset_name w) = Ok files ->
  In file files ->
  fst (Pd.read_csv file source_kwargs w) = Ok raw ->
  nth_error (columns raw) i = Some "kW" \/ nth_error (columns raw) i = Some "Energy" ->
  (forall i', nth_error (columns raw) i' = Some "kW"
              \/ nth_error (columns raw) i' = Some "Energy" -> i' = i) ->
  exists j,
    nth_error (columns df) j = Some "Energy"
    /\ (forall j', nth_error (columns df) j' = Some "Energy" -> j' = j)
    /\ forall top_n, exists top, top_years df top_n = Ok top.
Proof.
  intros Hg Hrun Hfiles Hfile Hraw Hcol Honly. apply fresh_gate in Hg.
  apply (compile_data_fresh_result _ _ _ _ _ _ _ Hg) in Hrun.
  pose proof (compiled_table_datetime _ _ _ _ _ _ Hrun) as Hdt.
  destruct (index_year_datetime _ Hdt) as (years & Hy & _).
  assert (Hone : exists j,
             nth_error (columns df) j = Some "Energy"
             /\ forall j', nth_error (columns df) j' = Some "Energy" -> j' = j).
  { clear Hdt Hy.
    apply compiled_table_inv in Hrun as (files' & frames & cat & Hfiles' & Hframes & Hcat & ->).
    rewrite Hfiles in Hfiles'. injection Hfiles' as <-.
    apply rmapM_Forall2 in Hframes.
    assert (Hin : exists t, In t frames /\ formatted_table w file = Ok t).
    { clear Hcat Hfiles. induction Hframes as [|f t fs ts Hft _ IH]; [destruct Hfile|].
      destruct Hfile as [->|Hfile].
      - exists t. split; [left; reflexivity | exact Hft].
      - destruct (IH Hfile) as (t' & Ht' & Hft').
        exists t'. split; [right; exact Ht' | exact Hft']. }
    destruct Hin as (t & Ht & Hft).
    apply formatted_table_inv in Hft as (raw' & Hraw' & Hfmt).
    rewrite Hraw in Hraw'. injection Hraw' as <-.
    destruct (format_data_shape raw t Hfmt) as (Hcols & _).
    assert (Hti : nth_error (columns t) i = Some "Energy").
    { rewrite Hcols, nth_error_map.
      destruct Hcol as [-> | ->]; reflexivity. }
    assert (Htonly : forall i', nth_error (columns t) i' = Some "Energy" -> i' = i).
    { intros i' Hi'. rewrite Hcols, nth_error_map in Hi'. apply Honly.
      destruct (nth_error (columns raw) i') as [c|]; [|discriminate Hi'].
      cbn [option_map] in Hi'. injection Hi' as Hc.
      apply renamed_energy in Hc as [-> | ->]; [left | right]; reflexivity. }
    cbn [Pd.mul_scalar Pd.map_cells columns].
    destruct (concat_columns frames cat Hcat) as [Hsame|Hnd].
    - pose proof (proj1 (List.Forall_forall _ _) Hsame t Ht) as <-.
      exists i. split; assumption.
    - assert (Hc : In "Energy" (columns cat)).
      { apply (concat_columns_cover frames cat t "Energy" Hcat Ht).
        exact (nth_error_In _ _ Hti). }
      apply In_nth_error in Hc as [j Hj]. exists j. split; [exact Hj|].
      intros j' Hj'. symmetry.
      apply (proj1 (NoDup_nth_error (columns cat)) Hnd j j').
      + apply nth_error_Some. rewrite Hj. discriminate.
      + rewrite Hj, Hj'. reflexivity. }
  destruct Hone as (j & Hj & Hjonly). exists j.
  split; [exact Hj|]. split; [exact Hjonly|]. intros top_n.
  exact (proj1 (proj2 (top_years_by_label df top_n years Hy)) j Hj Hjonly).
Qed.

Lemma kw_column_gives_energy_witness :
  exists j,
    nth_error (columns Demo.compiled) j = Some "Energy"
    /\ (forall j', nth_error (columns Demo.compiled) j' = Some "Energy" -> j' = j)
    /\ forall top_n, exists top, top_years Demo.compiled top_n = Ok top.
Proof.
  apply (kw_column_gives_energy "src" "Solcast" 0.5%float 0.25%float false
           (Demo.world0 []) Demo.compiled
           ["src/Solcast_A.csv"; "src/Solcast_B.csv"] "src/Solcast_B.csv" Demo.raw_b 0).
  - left. vm_compute. reflexivity.
  - vm_compute. reflexivity.
  - vm_compute. reflexivity.
  - right. left. reflexivity.
  - vm_compute. reflexivity.
  - left. reflexivity.
  - intros [|[|i']] [Hi'|Hi']; try reflexivity; discriminate Hi'.
Defined.

(** ** Saving into the output directory *)

Lemma last_char_not_sep (a : string) :
  a <> "" -> PyStr.endswith_char OsPath.sep a = false ->
  exists c r, rev (OsPath.chars a) = c :: r /\ OsPath.is_sep c = false.
Proof.
  induction a as [|x a IH]; intros Hne Hend; [contradiction|].
  destruct a as [|y a].
  - exists x, []. split; [reflexivity|]. unfold OsPath.is_sep. exact Hend.
  - cbn [PyStr.endswith_char] in Hend.
    destruct (IH ltac:(discriminate) Hend) as (c & r & Hrev & Hc).
    exists c, (r ++ [x]). split; [|exact Hc].
    change (OsPath.chars (String x (String y a))) with (x :: OsPath.chars (String y a)).
    cbn [rev]. rewrite Hrev. reflexivity.
Qed.

(** Round trip of [join] and [split] for a file placed in a directory. *)
Lemma split_after_dir (a b : string) :
  a <> "" -> PyStr.endswith_char OsPath.sep a = false -> no_sep b = true ->
  OsPath.split (a +:+ "/" +:+ b) = (a, b).
Proof.
  intros Hne Hend Hb. unfold OsPath.split.
  rewrite chars_app, rev_app_distr.
  change (OsPath.chars ("/" +:+ b)) with ("/"%char :: OsPath.chars b).
  cbn [rev]. rewrite <- app_assoc. cbn [app].
  rewrite (span_not_sep_app (rev (OsPath.chars b)) ("/"%char :: rev (OsPath.chars a)));
    [|rewrite forallb_rev; exact Hb | reflexivity].
  destruct (last_char_not_sep a Hne Hend) as (c & r & Hrev & Hc).
  rewrite Hrev. cbn [forallb OsPath.drop_seps].
  change (OsPath.is_sep "/") with true. rewrite Hc. cbn [andb].
  rewrite <- Hrev, !rev_involutive, !of_chars_chars. reflexivity.
Qed.

Lemma startswith_sep_app (x y : string) :
  x <> "" -> PyStr.startswith "/" (x +:+ y) = PyStr.startswith "/" x.
Proof. destruct x as [|c x]; [contradiction | reflexivity]. Qed.

Lemma join_app (a x y : string) :
  x <> "" -> OsPath.join a (x +:+ y) = OsPath.join a x +:+ y.
Proof.
  intros Hx. unfold OsPath.join. rewrite (startswith_sep_app x y Hx).
  destruct (PyStr.startswith "/" x); [reflexivity|].
  destruct (String.eqb a "" || PyStr.endswith_char OsPath.sep a)%bool;
    rewrite ?append_assoc; reflexivity.
Qed.

Lemma no_sep_app (a b : string) : no_sep (a +:+ b) = (no_sep a && no_sep b)%bool.
Proof. unfold no_sep. rewrite chars_app, forallb_app. reflexivity. Qed.

(** The output file lies directly in the output directory when the
    dataset name has no separator. *)
Lemma resolved_output_file_split (w : world) (dataset_name : string) :
  no_sep dataset_name = true ->
  OsPath.split (resolve w (output_file_of (w_cwd w) dataset_name))
  = (resolve w (output_dir_of (w_cwd w)),
     "dados_compilados_" +:+ dataset_name +:+ ".csv").
Proof.
  intros Hn. set (fname := "dados_compilados_" +:+ dataset_name +:+ ".csv").
  destruct (output_dir_form (w_cwd w)) as [p Hp].
  assert (Hfile : output_file_of (w_cwd w) dataset_name
                  = output_dir_of (w_cwd w) +:+ "/" +:+ fname).
  { unfold output_file_of. fold fname. unfold OsPath.join at 1.
    change (PyStr.startswith "/" fname) with false. cbv iota. rewrite Hp.
    rewrite eqb_app_nonempty by discriminate.
    rewrite endswith_char_app by discriminate. reflexivity. }
  assert (Hod : output_dir_of (w_cwd w) <> "").
  { rewrite Hp. destruct p; discriminate. }
  unfold resolve. rewrite Hfile, (join_app _ _ _ Hod).
  fold (resolve w (output_dir_of (w_cwd w))).
  destruct (resolved_output_dir_form w) as [q Hq]. rewrite Hq.
  apply split_after_dir.
  - destruct q; discriminate.
  - rewrite endswith_char_app by discriminate. reflexivity.
  - unfold fname. rewrite !no_sep_app, Hn. reflexivity.
Qed.

(** The saving run, case by case, in terms of the world it starts in. *)
Lemma compile_data_saved_cases `{Libraries}
    (directory dataset_name : string) (transformer_loss transmission_loss : float)
    (w : world) :
  gate dataset_name w = Ok true ->
  let dir := resolve w (output_dir_of (w_cwd w)) in
  let file := resolve w (output_file_of (w_cwd w) dataset_name) in
  let on := compile_data directory dataset_name transformer_loss transmission_loss true w in
  match compiled_table directory dataset_name transformer_loss transmission_loss w with
  | Raise e => fst on = Raise e /\ w_fs (snd on) = w_fs w
  | Ok df =>
      match Fs.makedirs dir (w_fs w) with
      | Raise e => fst on = Raise e /\ w_fs (snd on) = w_fs w
      | Ok fs1 =>
          match Fs.write file (pd_format_csv df) fs1 with
          | Raise e => fst on = Raise e /\ w_fs (snd on) = fs1
          | Ok fs2 => fst on = Ok df /\ w_fs (snd on) = fs2
          end
      end
  end
  /\ w_cwd (snd on) = w_cwd w.
Proof.
  intros Hg dir file on.
  destruct (check_frame (output_file_of (w_cwd w) dataset_name) w) as [Hf Hc].
  pose proof (compile_fresh_saved directory dataset_name transformer_loss transmission_loss
                (output_dir_of (w_cwd w)) (output_file_of (w_cwd w) dataset_name)
                (snd (check_file_processing (output_file_of (w_cwd w) dataset_name) w))) as Hs.
  cbv zeta in Hs.
  rewrite <- (compile_data_when_fresh directory dataset_name transformer_loss
                transmission_loss true w Hg) in Hs.
  fold on in Hs.
  rewrite (compiled_table_frame _ _ _ _ w _ Hc Hf) in Hs.
  unfold resolve in Hs. rewrite Hc, Hf in Hs.
  destruct Hs as (Hon & Hcwd & _). split; [exact Hon | exact Hcwd].
Qed.

(** With a dataset name free of separators, saving needs nothing but
    the output directory: once [makedirs] has succeeded and the output
    path is not itself a directory, the write succeeds, the saving run
    returns the table that the plain run returns, and the file holds its
    CSV text. *)
Theorem save_needs_only_the_directory `{Libraries}
    (directory dataset_name : string) (transformer_loss transmission_loss : float)
    (w : world) (df : DataFrame) (fs1 : gmap string node) :
  fresh dataset_name w ->
  no_sep dataset_name = true ->
  fst (compile_data directory dataset_name transformer_loss transmission_loss false w) = Ok df ->
  Fs.makedirs (resolve w (output_dir_of (w_cwd w))) (w_fs w) = Ok fs1 ->
  Fs.isdir (resolve w (output_file_of (w_cwd w) dataset_name)) fs1 = false ->
  let on := compile_data directory dataset_name transformer_loss transmission_loss true w in
  fst on = Ok df
  /\ w_fs (snd on) !! resolve w (output_file_of (w_cwd w) dataset_name)
     = Some (File (pd_format_csv df)).
Proof.
  intros Hg Hn Hoff Hmk Hnd on. apply fresh_gate in Hg.
  apply (compile_data_fresh_result _ _ _ _ _ _ _ Hg) in Hoff.
  destruct (compile_data_saved_cases directory dataset_name transformer_loss
              transmission_loss w Hg) as [Hon _].
  cbv zeta in Hon. fold on in Hon. rewrite Hoff, Hmk in Hon.
  set (dir := resolve w (output_dir_of (w_cwd w))) in *.
  set (file := resolve w (output_file_of (w_cwd w) dataset_name)) in *.
  assert (Hdir : Fs.isdir dir fs1 = true).
  { apply (makedirs_creates dir (w_fs w)); [| |exact Hmk];
      unfold dir; rewrite resolved_output_dir_basename; discriminate. }
  assert (Hparent : OsPath.dirname file = dir).
  { unfold OsPath.dirname, file. rewrite (resolved_output_file_split w dataset_name Hn).
    reflexivity. }
  assert (Hwr : exists fs2, Fs.write file (pd_format_csv df) fs1 = Ok fs2).
  { unfold Fs.write. unfold Fs.isdir in Hnd, Hdir.
    destruct (fs1 !! file) as [[c|es]|]; [eexists; reflexivity | discriminate Hnd |].
    rewrite Hparent. destruct (fs1 !! dir) as [[c|es]|]; try discriminate Hdir.
    eexists. reflexivity. }
  destruct Hwr as [fs2 Hwr]. rewrite Hwr in Hon. destruct Hon as [Hr Hfs].
  split; [exact Hr|]. rewrite Hfs. exact (proj1 (write_result _ _ _ _ Hwr)).
Qed.

Lemma save_needs_only_the_directory_witness :
  fst (compile_data "src" "Solcast" 0.5%float 0.25%float true (Demo.world0 []))
  = Ok Demo.compiled
  /\ w_fs (snd (compile_data "src" "Solcast" 0.5%float 0.25%float true (Demo.world0 [])))
       !! "/home/u/data/output/dados_compilados_Solcast.csv"
     = Some (File "C").
Proof.
  refine (save_needs_only_the_directory "src" "Solcast" 0.5%float 0.25%float
            (Demo.world0 []) Demo.compiled
            (<["/home/u/data/output" := Dir []]>
               (<["/home/u/data" := Dir ["output"]]>
                  (<["/home/u" := Dir ["src"; "data"]]> Demo.tree))) _ _ _ _ _).
  - left. vm_compute. reflexivity.
  - reflexivity.
  - vm_compute. reflexivity.
  - vm_compute. reflexivity.
  - vm_compute. reflexivity.
Defined.

(** ** Saving, then calling again *)

(** After a saving run has returned a table, the next call for the same
    dataset finds the file and asks; answered with [N] it returns what
    the CSV reader makes of the text that was written, for whatever
    directory, loss factors and save flag it is given. *)
Theorem saved_table_is_read_back `{Libraries}
    (directory dataset_name : string) (transformer_loss transmission_loss : float)
    (w : world) (df : DataFrame) (line : string) (rest : list string) :
  fresh dataset_name w ->
  fst (compile_data directory dataset_name transformer_loss transmission_loss true w) = Ok df ->
  let w1 := snd (compile_data directory dataset_name transformer_loss transmission_loss true w) in
  w_stdin w1 = line :: rest ->
  PyStr.upper line = "N" ->
  forall directory' transformer_loss' transmission_loss' save_data',
    let again := compile_data directory' dataset_name transformer_loss' transmission_loss'
                              save_data' w1 in
    fst again = pd_parse_csv (mkKwargs 0 "," "utf-8" (Some O) "." true) (pd_format_csv df)
    /\ w_stdout (snd again) = w_stdout w1 ++ [prompt_text]
    /\ w_fs (snd again) = w_fs w1.
Proof.
  intros Hg Hrun w1 Hin Hn d' tl' txl' s' again. apply fresh_gate in Hg.
  destruct (compile_data_saved_cases directory dataset_name transformer_loss
              transmission_loss w Hg) as [Hon Hcwd].
  cbv zeta in Hon, Hcwd. fold w1 in Hon, Hcwd.
  assert (Hfile : w_fs w1 !! resolve w (output_file_of (w_cwd w) dataset_name)
                  = Some (File (pd_format_csv df))).
  { destruct (compiled_table directory dataset_name transformer_loss transmission_loss w)
      as [t|e]; [|destruct Hon as [Hr _]; rewrite Hr in Hrun; discriminate Hrun].
    destruct (Fs.makedirs _ _) as [fs1|e];
      [|destruct Hon as [Hr _]; rewrite Hr in Hrun; discriminate Hrun].
    destruct (Fs.write _ _ fs1) as [fs2|e] eqn:Hwr; destruct Hon as [Hr Hfs];
      rewrite Hr in Hrun; [|discriminate Hrun].
    injection Hrun as <-. rewrite Hfs. exact (proj1 (write_result _ _ _ _ Hwr)). }
  assert (Hres : resolve w1 (output_file_of (w_cwd w1) dataset_name)
                 = resolve w (output_file_of (w_cwd w) dataset_name)).
  { unfold resolve. rewrite Hcwd. reflexivity. }
  rewrite <- Hres in Hfile.
  assert (Hex : Fs.exists_ (resolve w1 (output_file_of (w_cwd w1) dataset_name)) (w_fs w1)
                = true).
  { unfold Fs.exists_. rewrite Hfile. reflexivity. }
  pose proof (check_present _ w1 line rest Hex Hin) as Hc.
  rewrite Hn in Hc. change (String.eqb "N" "S") with false in Hc.
  change (String.eqb "N" "N") with true in Hc. cbv iota in Hc.
  assert (Hgate : gate dataset_name w1 = Ok false) by (unfold gate; rewrite Hc; reflexivity).
  unfold again. rewrite (compile_data_when_cached _ _ _ _ _ _ Hgate), Hc. cbn [snd].
  unfold Pd.read_csv, bind, read_text, lift, Fs.read, resolve. cbn [fst snd w_cwd w_fs].
  unfold resolve in Hfile. rewrite Hfile. cbn [fst snd log w_stdout w_fs].
  repeat split.
Qed.

Lemma saved_table_is_read_back_witness :
  let w1 := snd (compile_data "src" "Solcast" 0.5%float 0.25%float true (Demo.world0 ["n"])) in
  fst (compile_data "elsewhere" "Solcast" 0%float 0%float false w1)
  = pd_parse_csv (mkKwargs 0 "," "utf-8" (Some O) "." true) (pd_format_csv Demo.compiled).
Proof.
  intros w1.
  apply (saved_table_is_read_back "src" "Solcast" 0.5%float 0.25%float
           (Demo.world0 ["n"]) Demo.compiled "n" []).
  - left. vm_compute. reflexivity.
  - vm_compute. reflexivity.
  - vm_compute. reflexivity.
  - reflexivity.
Defined.

(** ** The prompt at the edges *)

(** When the file exists and the terminal has no line left, the prompt
    is still printed and the call ends in [EOFError]; [compile_data]
    passes the error on without listing, reading or writing anything. *)
Theorem prompt_without_answer `{Libraries}
    (directory dataset_name : string) (transformer_loss transmission_loss : float)
    (save_data : bool) (w : world) :
  Fs.exists_ (resolve w (output_file_of (w_cwd w) dataset_name)) (w_fs w) = true ->
  w_stdin w = [] ->
  let out := output_file_of (w_cwd w) dataset_name in
  let run := compile_data directory dataset_name transformer_loss transmission_loss save_data w in
  fst (check_file_processing out w) = Raise EOFError
  /\ w_stdout (snd (check_file_processing out w)) = w_stdout w ++ [prompt_text]
  /\ fst run = Raise EOFError
  /\ w_fs (snd run) = w_fs w
  /\ w_trace (snd run) = w_trace w ++ [EvExists out; EvInput prompt_text].
Proof.
  intros Hex Hin out run.
  assert (Hc : check_file_processing out w
               = (Raise EOFError,
                  mkWorld (w_cwd w) (w_fs w) [] (w_stdout w ++ [prompt_text])
                          (w_trace w ++ [EvExists out; EvInput prompt_text]))).
  { unfold check_file_processing, bind, path_exists, input. fold out in Hex.
    rewrite Hex. cbn [fst snd log w_stdin w_cwd w_fs w_stdout w_trace].
    rewrite Hin, <- app_assoc. reflexivity. }
  unfold run, compile_data, bind, getcwd. fold out. rewrite Hc. cbn [fst snd w_stdout w_fs w_trace].
  repeat split.
Qed.

Lemma prompt_without_answer_witness :
  fst (compile_data "src" "Solcast" 0.5%float 0.25%float true (Demo.world_cached []))
  = Raise EOFError.
Proof.
  apply (prompt_without_answer "src" "Solcast" 0.5%float 0.25%float true
           (Demo.world_cached [])).
  - vm_compute. reflexivity.
  - reflexivity.
Defined.

(** Whatever the outcome, the check leaves the file tree and the working
    directory alone, takes at most one line from the terminal and prints
    at most the one prompt. *)
Theorem check_file_processing_footprint (file_path : string) (w : world) :
  let w' := snd (check_file_processing file_path w) in
  w_fs w' = w_fs w
  /\ w_cwd w' = w_cwd w
  /\ (w_stdin w' = w_stdin w \/ exists line, w_stdin w = line :: w_stdin w')
  /\ (w_stdout w' = w_stdout w \/ w_stdout w' = w_stdout w ++ [prompt_text])
  /\ (w_stdout w' = w_stdout w <-> Fs.exists_ (resolve w file_path) (w_fs w) = false).
Proof.
  assert (Hneq : forall (l : list string) (x : string), l ++ [x] <> l).
  { intros l x E. apply (f_equal (@length string)) in E.
    rewrite length_app in E. simpl in E. lia. }
  unfold check_file_processing, bind, path_exists, input. cbn [fst snd].
  destruct (Fs.exists_ (resolve w file_path) (w_fs w)).
  - cbn [log w_stdin]. destruct (w_stdin w) as [|line rest].
    + cbn. repeat split; auto; try discriminate. intros E. exfalso. exact (Hneq _ _ E).
    + destruct (String.eqb (PyStr.upper line) "S"); [|destruct (String.eqb (PyStr.upper line) "N")];
        cbn; repeat split; eauto; try discriminate;
        intros E; exfalso; exact (Hneq _ _ E).
  - cbn. repeat split; auto.
Qed.

(** ** Exporting a figure *)

Lemma images_dir_form (w : world) :
  exists q, (q = "" \/ PyStr.endswith_char OsPath.sep q = true)
            /\ resolve w (OsPath.join (w_cwd w) "images") = q +:+ "images".
Proof.
  unfold resolve.
  destruct (join_prefix_form (w_cwd w) "images" eq_refl) as (p & Hp & [->|Hends]).
  - rewrite Hp. change ("" +:+ "images") with "images".
    destruct (join_prefix_form (w_cwd w) "images" eq_refl) as (q & Hq & Hends).
    exists q. split; [exact Hends | exact Hq].
  - assert (Hne : p <> "") by (intros ->; discriminate Hends).
    rewrite Hp, (join_app _ _ _ Hne).
    destruct (join_suffix (w_cwd w) p) as [pre Hpre]. rewrite Hpre.
    exists (pre +:+ p). split; [|reflexivity].
    right. rewrite (endswith_char_app _ _ _ Hne). exact Hends.
Qed.

Lemma images_dir_basename (w : world) :
  OsPath.basename (resolve w (OsPath.join (w_cwd w) "images")) = "images".
Proof.
  destruct (images_dir_form w) as (q & Hq & ->).
  apply basename_after_sep; [reflexivity | exact Hq].
Qed.

Lemma image_file_split (w : world) (filename : string) :
  no_sep filename = true ->
  OsPath.split (resolve w (OsPath.join (OsPath.join (w_cwd w) "images") filename))
  = (resolve w (OsPath.join (w_cwd w) "images"), filename).
Proof.
  intros Hn. destruct (join_suffix (w_cwd w) "images") as [p Hp].
  assert (Hne : OsPath.join (w_cwd w) "images" <> "").
  { rewrite Hp. destruct p; discriminate. }
  assert (Hfile : OsPath.join (OsPath.join (w_cwd w) "images") filename
                  = OsPath.join (w_cwd w) "images" +:+ "/" +:+ filename).
  { unfold OsPath.join at 1. rewrite (no_sep_not_absolute filename Hn), Hp.
    rewrite eqb_app_nonempty by discriminate.
    rewrite endswith_char_app by discriminate. reflexivity. }
  unfold resolve. rewrite Hfile, (join_app _ _ _ Hne).
  fold (resolve w (OsPath.join (w_cwd w) "images")).
  destruct (images_dir_form w) as (q & _ & Hq). rewrite Hq.
  apply split_after_dir.
  - destruct q; discriminate.
  - rewrite endswith_char_app by discriminate. reflexivity.
  - exact Hn.
Qed.

Lemma images_join (cwd filename : string) :
  no_sep filename = true ->
  OsPath.join (OsPath.join cwd "images") filename
  = OsPath.join cwd "images" +:+ "/" +:+ filename.
Proof.
  intros Hn. destruct (join_suffix cwd "images") as [p Hp].
  unfold OsPath.join at 1. rewrite (no_sep_not_absolute filename Hn), Hp.
  rewrite eqb_app_nonempty by discriminate.
  rewrite endswith_char_app by discriminate. reflexivity.
Qed.

(** *** Extensions *)

Lemma rfind_bound (c : ascii) (l : list ascii) (d : nat) :
  OsPath.rfind c l = Some d -> d < length l.
Proof.
  revert d. induction l as [|x l IH]; intros d E; simpl in *; [discriminate E|].
  destruct (OsPath.rfind c l) as [i|].
  - injection E as <-. specialize (IH i eq_refl). lia.
  - destruct (Ascii.eqb x c); [injection E as <-; lia | discriminate E].
Qed.

Lemma rfind_app (c : ascii) (a b : list ascii) :
  OsPath.rfind c (a ++ b)
  = match OsPath.rfind c b with
    | Some i => Some (length a + i)
    | None => OsPath.rfind c a
    end.
Proof.
  induction a as [|x a IH]; simpl.
  - destruct (OsPath.rfind c b); reflexivity.
  - rewrite IH. destruct (OsPath.rfind c b); reflexivity.
Qed.

Lemma rfind_absent (c : ascii) (l : list ascii) :
  forallb (fun x => negb (Ascii.eqb x c)) l = true -> OsPath.rfind c l = None.
Proof.
  induction l as [|x l IH]; simpl; [reflexivity|]. intros Hall.
  apply andb_true_iff in Hall as [Hx Hl]. rewrite (IH Hl).
  apply negb_true_iff in Hx. rewrite Hx. reflexivity.
Qed.

Lemma firstn_past {A : Type} (a l : list A) (n : nat) :
  firstn (length a + n) (a ++ l) = a ++ firstn n l.
Proof. induction a as [|x a IH]; simpl; [reflexivity | rewrite IH; reflexivity]. Qed.

Lemma skipn_past {A : Type} (a l : list A) (n : nat) :
  skipn (length a + n) (a ++ l) = skipn n l.
Proof. induction a as [|x a IH]; simpl; [reflexivity | exact IH]. Qed.

(** The extension of a path is the extension of its last component. *)
Lemma splitext_after_sep (q f : string) :
  no_sep f = true ->
  OsPath.splitext (q +:+ "/" +:+ f)
  = (q +:+ "/" +:+ fst (OsPath.splitext f), snd (OsPath.splitext f)).
Proof.
  intros Hn. unfold no_sep, OsPath.is_sep in Hn. unfold OsPath.splitext.
  rewrite !chars_app. change (OsPath.chars "/") with [OsPath.sep].
  set (a := OsPath.chars q). set (b := OsPath.chars f).
  change (a ++ [OsPath.sep] ++ b) with (a ++ OsPath.sep :: b).
  fold b in Hn. pose proof (rfind_absent OsPath.sep b Hn) as Hsep.
  rewrite (rfind_app OsPath.sep a), (rfind_app "."%char a). cbn [OsPath.rfind].
  rewrite Hsep. change (Ascii.eqb OsPath.sep OsPath.sep) with true.
  change (Ascii.eqb OsPath.sep "."%char) with false.
  destruct (OsPath.rfind "."%char b) as [d0|] eqn:Hd.
  - assert (Hle : (S (length a + 0) <=? length a + S d0)%nat = true)
      by (apply Nat.leb_le; lia).
    rewrite Hle. cbn [Nat.leb andb].
    replace (length a + S d0 - S (length a + 0)) with d0 by lia.
    replace (S (length a + 0)) with (length (a ++ [OsPath.sep]) + 0)
      by (rewrite length_app; simpl; lia).
    replace (a ++ OsPath.sep :: b) with ((a ++ [OsPath.sep]) ++ b)
      by (rewrite <- app_assoc; reflexivity).
    rewrite skipn_past. change (skipn 0 b) with b. rewrite Nat.sub_0_r.
    destruct (existsb _ (firstn d0 b)); cbn [fst snd].
    + replace (length a + S d0) with (length (a ++ [OsPath.sep]) + d0)
        by (rewrite length_app; simpl; lia).
      rewrite firstn_past, skipn_past, <- app_assoc, !of_chars_app.
      unfold a. rewrite of_chars_chars. reflexivity.
    + reflexivity.
  - cbn [fst snd]. destruct (OsPath.rfind "."%char a) as [d|] eqn:Hda; [|reflexivity].
    apply rfind_bound in Hda.
    assert (Hgt : (S (length a + 0) <=? d)%nat = false) by (apply Nat.leb_gt; lia).
    rewrite Hgt. reflexivity.
Qed.

(** A name made of a stem and [.png] has that extension, whatever
    dots the stem holds, provided it holds another character too. *)
Lemma splitext_png (stem : string) :
  no_sep stem = true ->
  existsb (fun c => negb (OsPath.is_dot c)) (OsPath.chars stem) = true ->
  OsPath.splitext (stem +:+ ".png") = (stem, ".png").
Proof.
  intros Hn Hstem. unfold no_sep, OsPath.is_sep in Hn. unfold OsPath.splitext.
  rewrite chars_app. set (a := OsPath.chars stem) in *.
  rewrite (rfind_app OsPath.sep a), (rfind_app "."%char a).
  change (OsPath.rfind OsPath.sep (OsPath.chars ".png")) with (@None nat).
  change (OsPath.rfind "."%char (OsPath.chars ".png")) with (Some O).
  rewrite (rfind_absent OsPath.sep a Hn). cbn [Nat.leb andb].
  change (skipn 0 (a ++ OsPath.chars ".png")) with (a ++ OsPath.chars ".png").
  rewrite Nat.sub_0_r, firstn_past, skipn_past.
  change (firstn 0 (OsPath.chars ".png")) with (@nil ascii).
  change (skipn 0 (OsPath.chars ".png")) with (OsPath.chars ".png").
  rewrite app_nil_r, Hstem. unfold a. rewrite of_chars_chars. reflexivity.
Qed.

Lemma drop_dots_before_sep (x y : list ascii) :
  OsPath.drop_dots (x ++ OsPath.sep :: y) = OsPath.drop_dots x ++ OsPath.sep :: y.
Proof.
  induction x as [|c x IH]; [reflexivity|]. cbn [app OsPath.drop_dots].
  destruct (OsPath.is_dot c); [exact IH | reflexivity].
Qed.

(** Trailing dots are stripped within the last component. *)
Lemma rstrip_after_sep (q f : string) :
  OsPath.rstrip_dots (q +:+ "/" +:+ f) = q +:+ "/" +:+ OsPath.rstrip_dots f.
Proof.
  unfold OsPath.rstrip_dots. rewrite !chars_app. change (OsPath.chars "/") with [OsPath.sep].
  rewrite !rev_app_distr. cbn [rev app]. rewrite <- app_assoc. cbn [app].
  rewrite drop_dots_before_sep, rev_app_distr. cbn [rev].
  rewrite rev_involutive, <- !app_assoc, !of_chars_app, of_chars_chars. reflexivity.
Qed.

Lemma chars_of_chars (l : list ascii) : OsPath.chars (OsPath.of_chars l) = l.
Proof. induction l as [|c l IH]; simpl; [reflexivity | rewrite IH; reflexivity]. Qed.

Lemma forallb_drop_dots (p : ascii -> bool) (l : list ascii) :
  forallb p l = true -> forallb p (OsPath.drop_dots l) = true.
Proof.
  induction l as [|c l IH]; [reflexivity|]. cbn [OsPath.drop_dots].
  destruct (OsPath.is_dot c); [|intros Hall; exact Hall].
  cbn [forallb]. intros Hall. apply andb_true_iff in Hall as [_ Hl]. exact (IH Hl).
Qed.

Lemma rstrip_no_sep (f : string) : no_sep f = true -> no_sep (OsPath.rstrip_dots f) = true.
Proof.
  unfold no_sep, OsPath.rstrip_dots. intros Hn.
  rewrite chars_of_chars, forallb_rev. apply forallb_drop_dots.
  rewrite forallb_rev. exact Hn.
Qed.

(** The format that [savefig] reads off the image path is the one of
    the file name. *)
Lemma image_path_format (cwd filename : string) :
  no_sep filename = true ->
  snd (OsPath.splitext (OsPath.join (OsPath.join cwd "images") filename))
  = snd (OsPath.splitext filename).
Proof.
  intros Hn. rewrite (images_join cwd filename Hn), (splitext_after_sep _ _ Hn).
  reflexivity.
Qed.

(** *** [savefig], case by case *)

Lemma savefig_png `{Libraries} (figure : DataFrame) (fname : string) :
  PyStr.lower (PyStr.tail (snd (OsPath.splitext fname))) = "png" ->
  savefig figure fname = write_text fname (plt_encode_png figure).
Proof.
  intros Hpng. unfold savefig.
  destruct (String.eqb_spec (PyStr.tail (snd (OsPath.splitext fname))) "") as [E|_].
  - rewrite E in Hpng. discriminate Hpng.
  - rewrite Hpng. reflexivity.
Qed.

Lemma savefig_default `{Libraries} (figure : DataFrame) (fname : string) :
  PyStr.tail (snd (OsPath.splitext fname)) = "" ->
  savefig figure fname
  = write_text (OsPath.rstrip_dots fname +:+ ".png") (plt_encode_png figure).
Proof. intros E. unfold savefig. rewrite E. reflexivity. Qed.

Lemma savefig_other `{Libraries} (figure : DataFrame) (fname : string) :
  PyStr.tail (snd (OsPath.splitext fname)) <> "" ->
  PyStr.lower (PyStr.tail (snd (OsPath.splitext fname))) <> "png" ->
  savefig figure fname
  = (content <- lift (plt_encode (PyStr.tail (snd (OsPath.splitext fname))) figure) ;;
     write_text fname content).
Proof.
  intros Hne Hnp. unfold savefig.
  destruct (String.eqb_spec (PyStr.tail (snd (OsPath.splitext fname))) "") as [E|_];
    [contradiction|].
  destruct (String.eqb_spec (PyStr.lower (PyStr.tail (snd (OsPath.splitext fname)))) "png")
    as [E|_]; [contradiction | reflexivity].
Qed.

(** [export_figure] when [savefig] comes down to writing [content] to
    [target], case by case. *)
Lemma export_figure_cases `{Libraries}
    (figure : DataFrame) (filename target content : string) (w : world) :
  savefig figure (OsPath.join (OsPath.join (w_cwd w) "images") filename)
  = write_text target content ->
  let dir := resolve w (OsPath.join (w_cwd w) "images") in
  let file := resolve w target in
  let run := export_figure figure filename w in
  match Fs.makedirs dir (w_fs w) with
  | Raise e => fst run = Raise e /\ w_fs (snd run) = w_fs w
  | Ok fs1 =>
      match Fs.write file content fs1 with
      | Raise e => fst run = Raise e /\ w_fs (snd run) = fs1
      | Ok fs2 => fst run = Ok tt /\ w_fs (snd run) = fs2
      end
  end.
Proof.
  intros Hsave dir file run.
  unfold run, export_figure, bind, getcwd, makedirs_exist_ok.
  rewrite Hsave. unfold write_text. rewrite update_fs_run. fold dir.
  destruct (Fs.makedirs dir (w_fs w)) as [fs1|e]; cbn [rbind fst snd];
    [|repeat split].
  rewrite update_fs_run. cbn [log set_fs w_cwd w_fs].
  change (resolve (log (EvMakedirs (OsPath.join (w_cwd w) "images")) (set_fs fs1 w))
                  target) with file.
  destruct (Fs.write file content fs1) as [fs2|e]; cbn [rbind fst snd]; repeat split.
Qed.

(** Where [savefig] writes for a name with the extension [png] and for
    a name without extension. *)
Lemma export_figure_png `{Libraries} (figure : DataFrame) (filename : string) (w : world) :
  no_sep filename = true ->
  PyStr.lower (PyStr.tail (snd (OsPath.splitext filename))) = "png" ->
  savefig figure (OsPath.join (OsPath.join (w_cwd w) "images") filename)
  = write_text (OsPath.join (OsPath.join (w_cwd w) "images") filename)
               (plt_encode_png figure).
Proof.
  intros Hn Hpng. apply savefig_png. rewrite (image_path_format _ _ Hn). exact Hpng.
Qed.

Lemma export_figure_default `{Libraries}
    (figure : DataFrame) (filename : string) (w : world) :
  no_sep filename = true ->
  PyStr.tail (snd (OsPath.splitext filename)) = "" ->
  savefig figure (OsPath.join (OsPath.join (w_cwd w) "images") filename)
  = write_text (OsPath.join (OsPath.join (w_cwd w) "images")
                            (OsPath.rstrip_dots filename +:+ ".png"))
               (plt_encode_png figure).
Proof.
  intros Hn Hno. rewrite savefig_default by (rewrite (image_path_format _ _ Hn); exact Hno).
  f_equal. rewrite (images_join _ _ Hn), rstrip_after_sep, images_join.
  - rewrite !append_assoc. reflexivity.
  - rewrite no_sep_app, (rstrip_no_sep _ Hn). reflexivity.
Qed.

(** A file written into the images directory once it is made. *)
Lemma write_into_images
    (w : world) (name content : string) (fs1 : gmap string node) :
  no_sep name = true ->
  Fs.makedirs (images_dir w) (w_fs w) = Ok fs1 ->
  Fs.isdir (image_file w name) fs1 = false ->
  exists fs2,
    Fs.write (image_file w name) content fs1 = Ok fs2
    /\ fs2 !! image_file w name = Some (File content)
    /\ Fs.isdir (images_dir w) fs2 = true.
Proof.
  intros Hn Hmk Hnd.
  assert (Hdir : Fs.isdir (images_dir w) fs1 = true).
  { apply (makedirs_creates _ (w_fs w)); [| |exact Hmk];
      unfold images_dir; rewrite images_dir_basename; discriminate. }
  assert (Hparent : OsPath.dirname (image_file w name) = images_dir w).
  { unfold OsPath.dirname, image_file. rewrite (image_file_split w name Hn). reflexivity. }
  assert (Hwr : exists fs2, Fs.write (image_file w name) content fs1 = Ok fs2).
  { unfold Fs.write. unfold Fs.isdir in Hnd, Hdir.
    destruct (fs1 !! image_file w name) as [[c|es]|];
      [eexists; reflexivity | discriminate Hnd |].
    rewrite Hparent. destruct (fs1 !! images_dir w) as [[c|es]|]; try discriminate Hdir.
    eexists. reflexivity. }
  destruct Hwr as [fs2 Hwr]. exists fs2. split; [exact Hwr|].
  destruct (write_result _ _ _ _ Hwr) as [Hfile Hkeep].
  split; [exact Hfile | apply Hkeep; exact Hdir].
Qed.

(** The image goes under [<cwd>/images], and its name follows the
    extension of [filename].  With the extension [png], in any case of
    letters, the file is [filename] itself; without an extension it is
    [filename] stripped of trailing dots with [.png] added.  In both
    cases the export succeeds as soon as the directory could be made and
    the target is not a directory; afterwards the directory exists and
    the file holds the encoded figure.  With another extension that the
    encoder refuses, the directory is made and nothing is written.  A
    failure to make the directory leaves the tree as it was, and making
    it when it is already there changes nothing. *)
Theorem export_figure_stores_image `{Libraries}
    (figure : DataFrame) (filename : string) (w : world) :
  no_sep filename = true ->
  let format := PyStr.tail (snd (OsPath.splitext filename)) in
  let dir := resolve w (OsPath.join (w_cwd w) "images") in
  let run := export_figure figure filename w in
  (PyStr.lower format = "png" ->
   let file := resolve w (OsPath.join (OsPath.join (w_cwd w) "images") filename) in
   forall fs1,
     Fs.makedirs dir (w_fs w) = Ok fs1 -> Fs.isdir file fs1 = false ->
     fst run = Ok tt
     /\ w_fs (snd run) !! file = Some (File (plt_encode_png figure))
     /\ Fs.isdir dir (w_fs (snd run)) = true)
  /\ (format = "" ->
      let file := resolve w (OsPath.join (OsPath.join (w_cwd w) "images")
                                         (OsPath.rstrip_dots filename +:+ ".png")) in
      forall fs1,
        Fs.makedirs dir (w_fs w) = Ok fs1 -> Fs.isdir file fs1 = false ->
        fst run = Ok tt
        /\ w_fs (snd run) !! file = Some (File (plt_encode_png figure))
        /\ Fs.isdir dir (w_fs (snd run)) = true)
  /\ (format <> "" -> PyStr.lower format <> "png" ->
      forall e fs1,
        plt_encode format figure = Raise e ->
        Fs.makedirs dir (w_fs w) = Ok fs1 ->
        fst run = Raise e /\ w_fs (snd run) = fs1)
  /\ (forall e, Fs.makedirs dir (w_fs w) = Raise e ->
                fst run = Raise e /\ w_fs (snd run) = w_fs w)
  /\ (forall fs, Fs.isdir dir fs = true -> Fs.exists_ (OsPath.dirname dir) fs = true ->
                 Fs.makedirs dir fs = Ok fs).
Proof.
  intros Hn format dir run.
  pose proof (images_dir_basename w) as Hbase. fold dir in Hbase.
  split; [|split; [|split; [|split]]].
  - intros Hpng file fs1 Hmk Hnd.
    pose proof (export_figure_cases figure filename _ _ w
                  (export_figure_png figure filename w Hn Hpng)) as Hrun.
    cbv zeta in Hrun. fold dir file run in Hrun. rewrite Hmk in Hrun.
    destruct (write_into_images w filename (plt_encode_png figure) fs1 Hn Hmk Hnd)
      as (fs2 & Hwr & Hfile & Hdir).
    change (image_file w filename) with file in Hwr, Hfile.
    rewrite Hwr in Hrun. destruct Hrun as [Hr Hfs].
    split; [exact Hr|]. rewrite Hfs. split; [exact Hfile | exact Hdir].
  - intros Hno file fs1 Hmk Hnd.
    pose proof (export_figure_cases figure filename _ _ w
                  (export_figure_default figure filename w Hn Hno)) as Hrun.
    cbv zeta in Hrun. fold dir file run in Hrun. rewrite Hmk in Hrun.
    assert (Hn' : no_sep (OsPath.rstrip_dots filename +:+ ".png") = true).
    { rewrite no_sep_app, (rstrip_no_sep _ Hn). reflexivity. }
    destruct (write_into_images w _ (plt_encode_png figure) fs1 Hn' Hmk Hnd)
      as (fs2 & Hwr & Hfile & Hdir).
    change (image_file w (OsPath.rstrip_dots filename +:+ ".png")) with file in Hwr, Hfile.
    rewrite Hwr in Hrun. destruct Hrun as [Hr Hfs].
    split; [exact Hr|]. rewrite Hfs. split; [exact Hfile | exact Hdir].
  - intros Hne Hnp e fs1 Henc Hmk.
    unfold run, export_figure, bind, getcwd, makedirs_exist_ok.
    rewrite update_fs_run. fold dir. rewrite Hmk. cbn [rbind fst snd].
    rewrite savefig_other by (rewrite (image_path_format _ _ Hn); assumption).
    rewrite (image_path_format _ _ Hn). fold format. rewrite Henc.
    unfold bind, lift. cbn [fst snd]. split; reflexivity.
  - intros e Hmk.
    unfold run, export_figure, bind, getcwd, makedirs_exist_ok.
    rewrite update_fs_run. fold dir. rewrite Hmk. cbn [rbind fst snd].
    split; reflexivity.
  - intros fs Hd Hp. apply makedirs_idempotent; [|exact Hd|exact Hp].
    rewrite Hbase. discriminate.
Qed.

Lemma export_figure_stores_image_witness :
  fst (export_figure Demo.yearly "chart.png" (Demo.world0 [])) = Ok tt
  /\ w_fs (snd (export_figure Demo.yearly "chart.png" (Demo.world0 [])))
       !! "/home/u/images/chart.png" = Some (File "PNG")
  /\ Fs.isdir "/home/u/images"
              (w_fs (snd (export_figure Demo.yearly "chart.png" (Demo.world0 [])))) = true.
Proof.
  refine (proj1 (export_figure_stores_image Demo.yearly "chart.png" (Demo.world0 []) _)
            _ (<["/home/u/images" := Dir []]>
                 (<["/home/u" := Dir ["src"; "images"]]> Demo.tree)) _ _).
  - reflexivity.
  - reflexivity.
  - vm_compute. reflexivity.
  - vm_compute. reflexivity.
Defined.

(** A name without extension is stored with [.png] added, and nothing
    is stored under the name itself; an extension that the encoder
    refuses stores nothing at all. *)
Example export_without_extension :
  let w := snd (export_figure Demo.yearly "chart" (Demo.world0 [])) in
  w_fs w !! "/home/u/images/chart.png" = Some (File "PNG")
  /\ w_fs w !! "/home/u/images/chart" = None
  /\ w_fs w !! "/home/u/images" = Some (Dir ["chart.png"]).
Proof. vm_compute. repeat split. Qed.

Example export_refused_extension :
  let run := export_figure Demo.yearly "chart.xyz" (Demo.world0 []) in
  fst run = Raise (ValueError "Format is not supported")
  /\ w_fs (snd run) !! "/home/u/images/chart.xyz" = None
  /\ w_fs (snd run) !! "/home/u/images" = Some (Dir []).
Proof. vm_compute. repeat split. Qed.

(** ** The renderers and the index *)

Lemma index_field_error (field : Timestamp -> Z) (name : string) (idx : list label) :
  Exists (fun l => match l with LTime _ => False | _ => True end) idx ->
  rmapM (fun l => match l with
                  | LTime t => Ok (field t)
                  | _ => Raise (AttributeError name)
                  end) idx
  = Raise (AttributeError name).
Proof.
  induction idx as [|l idx IH]; intros Hex; [inversion Hex|].
  cbn [rmapM]. destruct l as [s|t|z]; try reflexivity.
  cbn [rbind]. rewrite IH; [reflexivity|].
  inversion Hex as [? ? Hl|? ? Htl]; subst; [contradiction | exact Htl].
Qed.

(** A table with a label that is not a timestamp (text left unparsed,
    a number) is refused by every renderer with an attribute error on
    the field it groups by; nothing is drawn, shown or saved. *)
Theorem renderers_refuse_other_indexes `{Libraries}
    (data : DataFrame) (top_n : Z) (save_image : bool) (w : world) :
  Exists (fun l => match l with LTime _ => False | _ => True end) (index data) ->
  plot_hourly_distribution data save_image w = (Raise (AttributeError "hour"), w)
  /\ plot_monthly_distribution data save_image w = (Raise (AttributeError "month"), w)
  /\ plot_top_years data top_n save_image w = (Raise (AttributeError "year"), w).
Proof.
  intros Hex.
  unfold plot_hourly_distribution, plot_monthly_distribution, plot_top_years,
    hourly_table, monthly_table, top_years, Pd.index_hour, Pd.index_month, Pd.index_year.
  rewrite (index_field_error ts_hour "hour" _ Hex).
  rewrite (index_field_error ts_month "month" _ Hex).
  rewrite (index_field_error ts_year "year" _ Hex).
  repeat split.
Qed.

Lemma renderers_refuse_other_indexes_witness :
  plot_top_years Demo.raw_a 3 true (Demo.world0 [])
  = (Raise (AttributeError "year"), Demo.world0 []).
Proof.
  apply (renderers_refuse_other_indexes Demo.raw_a 3 true (Demo.world0 [])).
  left. exact I.
Defined.

(** ** Hourly and monthly tables *)

Lemma sorted_range_length (l : list Z) (lo hi : Z) :
  StronglySorted Z.lt l ->
  Forall (fun x => (lo <= x <= hi)%Z) l ->
  (Z.of_nat (length l) <= Z.max 0 (hi - lo + 1))%Z.
Proof.
  revert lo. induction l as [|x l IH]; intros lo Hs Hr; [simpl; lia|].
  apply StronglySorted_inv in Hs as [Hs Hx].
  apply List.Forall_cons_iff in Hr as [Hxr Hr].
  assert (Hr' : Forall (fun y => (x + 1 <= y <= hi)%Z) l).
  { apply List.Forall_forall. intros y Hy.
    pose proof (proj1 (List.Forall_forall _ _) Hx y Hy).
    pose proof (proj1 (List.Forall_forall _ _) Hr y Hy). simpl in *. lia. }
  specialize (IH (x + 1)%Z Hs Hr'). cbn [length]. lia.
Qed.

Lemma datetime_label_field (field : Timestamp -> Z) (idx : list label) (h : Z) :
  Forall (fun l => match l with LTime _ => True | _ => False end) idx ->
  In h (map (fun l => match l with LTime t => field t | _ => 0%Z end) idx)
  <-> exists ts, In (LTime ts) idx /\ field ts = h.
Proof.
  intros Hdt. rewrite List.in_map_iff. split.
  - intros (l & Hl & Hin).
    pose proof (proj1 (List.Forall_forall _ _) Hdt l Hin) as Ht.
    destruct l as [s|t|z]; try contradiction. exists t. split; assumption.
  - intros (ts & Hin & Hf). exists (LTime ts). split; assumption.
Qed.

Lemma group_rows_width {A : Type} (n : nat) (ks : list Z) (g : Z -> nat -> A) :
  Forall (fun row => length row = n) (map (fun k => map (g k) (seq 0 n)) ks).
Proof.
  apply List.Forall_forall. intros row Hrow.
  apply List.in_map_iff in Hrow as (k & <- & _).
  rewrite length_map, length_seq. reflexivity.
Qed.

(** On a datetime-indexed table the hourly aggregation always succeeds,
    with or without an [Energy] column.  Its table keeps the columns,
    has one full-width row per hour that occurs in the data, hours
    ascending; with clock hours between 0 and 23 that is at most 24
    rows. *)
Theorem hourly_table_shape (data : DataFrame) :
  datetime_indexed data ->
  exists hours t,
    Pd.index_hour (index data) = Ok hours
    /\ hourly_table data = Ok t
    /\ columns t = columns data
    /\ index t = map LInt (Pd.group_keys hours)
    /\ StronglySorted Z.lt (Pd.group_keys hours)
    /\ (forall h, In h (Pd.group_keys hours)
                  <-> exists ts, In (LTime ts) (index data) /\ ts_hour ts = h)
    /\ length (values t) = length (index t)
    /\ Forall (fun row => length row = length (columns data)) (values t)
    /\ (Forall valid_clock (index data) -> length (index t) <= 24).
Proof.
  intros Hdt. destruct (index_hour_datetime (index data) Hdt) as (hours & Hh & Hmap).
  exists hours, (Pd.groupby_sum hours data).
  split; [exact Hh|]. split; [unfold hourly_table; rewrite Hh; reflexivity|].
  split; [reflexivity|]. split; [reflexivity|].
  split; [apply group_keys_sorted|]. split; [|split; [|split]].
  - intros h. rewrite group_keys_in, Hmap. apply datetime_label_field. exact Hdt.
  - unfold Pd.groupby_sum. cbn [values index]. rewrite !length_map. reflexivity.
  - unfold Pd.groupby_sum. cbn [values].
    apply group_rows_width.
  - intros Hvalid. unfold Pd.groupby_sum. cbn [index]. rewrite length_map.
    assert (Hr : Forall (fun x => (0 <= x <= 23)%Z) (Pd.group_keys hours)).
    { apply List.Forall_forall. intros h Hin. apply (proj1 (group_keys_in _ _)) in Hin.
      rewrite Hmap in Hin.
      apply (proj1 (datetime_label_field ts_hour _ _ Hdt)) in Hin as (ts & Hin & <-).
      pose proof (proj1 (List.Forall_forall _ _) Hvalid _ Hin) as Hv. simpl in Hv. tauto. }
    pose proof (sorted_range_length _ 0 23 (group_keys_sorted hours) Hr). lia.
Qed.

Lemma hourly_table_shape_witness :
  exists hours t,
    Pd.index_hour (index Demo.yearly) = Ok hours
    /\ hourly_table Demo.yearly = Ok t
    /\ columns t = columns Demo.yearly
    /\ index t = map LInt (Pd.group_keys hours)
    /\ StronglySorted Z.lt (Pd.group_keys hours)
    /\ (forall h, In h (Pd.group_keys hours)
                  <-> exists ts, In (LTime ts) (index Demo.yearly) /\ ts_hour ts = h)
    /\ length (values t) = length (index t)
    /\ Forall (fun row => length row = length (columns Demo.yearly)) (values t)
    /\ (Forall valid_clock (index Demo.yearly) -> length (index t) <= 24).
Proof.
  apply (hourly_table_shape Demo.yearly). repeat constructor.
Defined.

(** The same for the monthly aggregation, which averages: one row per
    month that occurs, months ascending, at most 12 rows for calendar
    months. *)
Theorem monthly_table_shape (data : DataFrame) :
  datetime_indexed data ->
  exists months t,
    Pd.index_month (index data) = Ok months
    /\ monthly_table data = Ok t
    /\ columns t = columns data
    /\ index t = map LInt (Pd.group_keys months)
    /\ StronglySorted Z.lt (Pd.group_keys months)
    /\ (forall m, In m (Pd.group_keys months)
                  <-> exists ts, In (LTime ts) (index data) /\ ts_month ts = m)
    /\ length (values t) = length (index t)
    /\ Forall (fun row => length row = length (columns data)) (values t)
    /\ (Forall valid_clock (index data) -> length (index t) <= 12).
Proof.
  intros Hdt. destruct (index_month_datetime (index data) Hdt) as (months & Hh & Hmap).
  exists months, (Pd.groupby_mean months data).
  split; [exact Hh|]. split; [unfold monthly_table; rewrite Hh; reflexivity|].
  split; [reflexivity|]. split; [reflexivity|].
  split; [apply group_keys_sorted|]. split; [|split; [|split]].
  - intros h. rewrite group_keys_in, Hmap. apply datetime_label_field. exact Hdt.
  - unfold Pd.groupby_mean. cbn [values index]. rewrite !length_map. reflexivity.
  - unfold Pd.groupby_mean. cbn [values].
    apply group_rows_width.
  - intros Hvalid. unfold Pd.groupby_mean. cbn [index]. rewrite length_map.
    assert (Hr : Forall (fun x => (1 <= x <= 12)%Z) (Pd.group_keys months)).
    { apply List.Forall_forall. intros h Hin. apply (proj1 (group_keys_in _ _)) in Hin.
      rewrite Hmap in Hin.
      apply (proj1 (datetime_label_field ts_month _ _ Hdt)) in Hin as (ts & Hin & <-).
      pose proof (proj1 (List.Forall_forall _ _) Hvalid _ Hin) as Hv. simpl in Hv. tauto. }
    pose proof (sorted_range_length _ 1 12 (group_keys_sorted months) Hr). lia.
Qed.

Lemma monthly_table_shape_witness :
  exists months t,
    Pd.index_month (index Demo.yearly) = Ok months
    /\ monthly_table Demo.yearly = Ok t
    /\ columns t = columns Demo.yearly
    /\ index t = map LInt (Pd.group_keys months)
    /\ StronglySorted Z.lt (Pd.group_keys months)
    /\ (forall m, In m (Pd.group_keys months)
                  <-> exists ts, In (LTime ts) (index Demo.yearly) /\ ts_month ts = m)
    /\ length (values t) = length (index t)
    /\ Forall (fun row => length row = length (columns Demo.yearly)) (values t)
    /\ (Forall valid_clock (index Demo.yearly) -> length (index t) <= 12).
Proof.
  apply (monthly_table_shape Demo.yearly). repeat constructor.
Defined.

(** ** Saving a chart *)

Lemma export_figure_success `{Libraries}
    (figure : DataFrame) (filename : string) (w : world) :
  no_sep filename = true ->
  PyStr.lower (PyStr.tail (snd (OsPath.splitext filename))) = "png" ->
  fst (export_figure figure filename w) = Ok tt ->
  w_fs (snd (export_figure figure filename w)) !! image_file w filename
  = Some (File (plt_encode_png figure)).
Proof.
  intros Hn Hpng Hr.
  pose proof (export_figure_cases figure filename _ _ w
                (export_figure_png figure filename w Hn Hpng)) as Hrun.
  cbv zeta in Hrun. fold (images_dir w) (image_file w filename) in Hrun.
  destruct (Fs.makedirs (images_dir w) (w_fs w)) as [fs1|e].
  - destruct (Fs.write (image_file w filename) (plt_encode_png figure) fs1)
      as [fs2|e] eqn:Hwr.
    + destruct Hrun as [_ Hfs]. rewrite Hfs. exact (proj1 (write_result _ _ _ _ Hwr)).
    + destruct Hrun as [He _]. rewrite He in Hr. discriminate Hr.
  - destruct Hrun as [He _]. rewrite He in Hr. discriminate Hr.
Qed.

(** A chart of [table] drawn, saved under a [.png] name and shown. *)
Lemma chart_saved `{Libraries}
    (table : DataFrame) (title filename : string) (w : world) :
  no_sep filename = true ->
  PyStr.lower (PyStr.tail (snd (OsPath.splitext filename))) = "png" ->
  let run := (render title ;;; export_figure table filename ;;; show) w in
  fst run = Ok tt ->
  w_fs (snd run) !! image_file w filename = Some (File (plt_encode_png table)).
Proof.
  intros Hn Hpng run. unfold run, bind, render, show.
  pose proof (export_figure_success table filename (log (EvRender title) w) Hn Hpng) as Hex.
  destruct (export_figure table filename (log (EvRender title) w)) as [[[]|e] w2];
    cbn [fst snd] in *; intros Hr; [|discriminate Hr].
  exact (Hex eq_refl).
Qed.

Lemma pretty_N_go_no_sep (x : N) (s : string) :
  no_sep s = true -> no_sep (pretty_N_go x s) = true.
Proof.
  revert s. induction (N.lt_wf_0 x) as [x _ IH]; intros s Hs.
  assert (x = 0 \/ 0 < x)%N as [->|Hpos] by lia.
  - rewrite pretty_N_go_0. exact Hs.
  - rewrite pretty_N_go_step by exact Hpos. apply IH.
    + apply N.div_lt; lia.
    + unfold no_sep in *. cbn [OsPath.chars forallb]. rewrite Hs, andb_true_r.
      unfold pretty_N_char. repeat case_match; reflexivity.
Qed.

Lemma pretty_Z_no_sep (n : Z) : no_sep (pretty n) = true.
Proof.
  assert (HN : forall x : N, no_sep (pretty x) = true).
  { intros x. unfold pretty, pretty_N. case_decide; [reflexivity|].
    apply pretty_N_go_no_sep. reflexivity. }
  destruct n as [|p|p]; unfold pretty, pretty_Z; [reflexivity|apply (HN (Npos p))|].
  rewrite no_sep_app. apply andb_true_iff. split; [reflexivity | apply (HN (Npos p))].
Qed.

Lemma top_years_filename_no_sep (top_n : Z) : no_sep (top_years_filename top_n) = true.
Proof.
  unfold top_years_filename. rewrite !no_sep_app, pretty_Z_no_sep. reflexivity.
Qed.

(** The name of the Top-N image has the extension [png]. *)
Lemma top_years_filename_png (top_n : Z) :
  PyStr.lower (PyStr.tail (snd (OsPath.splitext (top_years_filename top_n)))) = "png".
Proof.
  assert (E : top_years_filename top_n = ("top_" +:+ pretty top_n +:+ "_anos") +:+ ".png").
  { unfold top_years_filename. rewrite !append_assoc. reflexivity. }
  rewrite E, splitext_png; [reflexivity | |].
  - rewrite !no_sep_app, pretty_Z_no_sep. reflexivity.
  - rewrite chars_app. reflexivity.
Qed.

Lemma string_length_app (a b : string) :
  String.length (a +:+ b) = String.length a + String.length b.
Proof. rewrite <- !length_chars, chars_app. apply length_app. Qed.

Lemma append_cancel_r (a b c : string) : a +:+ c = b +:+ c -> a = b.
Proof.
  revert b. induction a as [|x a IH]; intros b E.
  - destruct b as [|y b]; [reflexivity|]. exfalso.
    apply (f_equal String.length) in E. rewrite !string_length_app in E.
    simpl in E. lia.
  - destruct b as [|y b].
    + exfalso. apply (f_equal String.length) in E. rewrite !string_length_app in E.
      simpl in E. lia.
    + injection E as -> E. rewrite (IH b E). reflexivity.
Qed.

(** The image of the Top-N chart is named after [top_n] in decimal: the
    name never holds a separator, so the file lies directly in the images
    directory, and two different values of [top_n] never share a file. *)
Theorem top_years_image_names (top_n top_m : Z) :
  no_sep (top_years_filename top_n) = true
  /\ (top_years_filename top_n = top_years_filename top_m -> top_n = top_m)
  /\ (forall w, OsPath.split (image_file w (top_years_filename top_n))
                = (images_dir w, top_years_filename top_n)).
Proof.
  split; [apply top_years_filename_no_sep|]. split.
  - unfold top_years_filename. intros E.
    apply (inj (String.append "top_")) in E.
    apply append_cancel_r in E. apply (inj pretty) in E. exact E.
  - intros w. apply image_file_split. apply top_years_filename_no_sep.
Qed.

(** Whenever a renderer called with [save_image] returns normally, the
    file of its own name in the images directory holds the picture of
    exactly the table it drew: the hourly sums, the monthly means, the
    [top_n] years. *)
Theorem charts_are_saved_on_request `{Libraries}
    (data : DataFrame) (top_n : Z) (w : world) :
  (fst (plot_hourly_distribution data true w) = Ok tt ->
   exists t,
     hourly_table data = Ok t
     /\ w_fs (snd (plot_hourly_distribution data true w))
          !! image_file w "distribuicao_horaria.png"
        = Some (File (plt_encode_png t)))
  /\ (fst (plot_monthly_distribution data true w) = Ok tt ->
      exists t,
        monthly_table data = Ok t
        /\ w_fs (snd (plot_monthly_distribution data true w))
             !! image_file w "distribuicao_mensal.png"
           = Some (File (plt_encode_png t)))
  /\ (fst (plot_top_years data top_n true w) = Ok tt ->
      exists t,
        top_years data top_n = Ok t
        /\ w_fs (snd (plot_top_years data top_n true w))
             !! image_file w (top_years_filename top_n)
           = Some (File (plt_encode_png t))).
Proof.
  split; [|split].
  - unfold plot_hourly_distribution.
    destruct (hourly_table data) as [t|e]; [|intros Hr; discriminate Hr].
    intros Hr. exists t. split; [reflexivity|].
    exact (chart_saved t _ "distribuicao_horaria.png" w eq_refl eq_refl Hr).
  - unfold plot_monthly_distribution.
    destruct (monthly_table data) as [t|e]; [|intros Hr; discriminate Hr].
    intros Hr. exists t. split; [reflexivity|].
    exact (chart_saved t _ "distribuicao_mensal.png" w eq_refl eq_refl Hr).
  - unfold plot_top_years.
    destruct (top_years data top_n) as [t|e]; [|intros Hr; discriminate Hr].
    intros Hr. exists t. split; [reflexivity|].
    exact (chart_saved t _ (top_years_filename top_n) w
             (top_years_filename_no_sep top_n) (top_years_filename_png top_n) Hr).
Qed.

Lemma charts_are_saved_on_request_witness :
  exists t,
    top_years Demo.yearly 2 = Ok t
    /\ w_fs (snd (plot_top_years Demo.yearly 2 true (Demo.world0 [])))
         !! image_file (Demo.world0 []) (top_years_filename 2)
       = Some (File (plt_encode_png t)).
Proof.
  apply (proj2 (proj2 (charts_are_saved_on_request Demo.yearly 2 (Demo.world0 [])))).
  vm_compute. reflexivity.
Defined.

(** ** The years on the Top-N chart *)

Lemma map_fst_combine {A B : Type} (a : list A) (b : list B) :
  length a = length b -> map fst (combine a b) = a.
Proof.
  revert b. induction a as [|x a IH]; intros [|y b] Hlen; simpl in *; try discriminate;
    [reflexivity|]. rewrite IH; [reflexivity | lia].
Qed.

Lemma map_snd_combine {A B : Type} (a : list A) (b : list B) :
  length a = length b -> map snd (combine a b) = b.
Proof.
  revert b. induction a as [|x a IH]; intros [|y b] Hlen; simpl in *; try discriminate;
    [reflexivity|]. rewrite IH; [reflexivity | lia].
Qed.

Lemma nodup_map_LInt (ks : list Z) : List.NoDup ks -> List.NoDup (map LInt ks).
Proof.
  induction 1 as [|k ks Hk _ IH]; simpl; constructor; [|exact IH].
  intros Hin. apply List.in_map_iff in Hin as (k' & E & Hk'). injection E as ->.
  contradiction.
Qed.

Lemma nodup_firstn {A : Type} (n : nat) (l : list A) :
  List.NoDup l -> List.NoDup (firstn n l).
Proof.
  intros Hl. rewrite <- (firstn_skipn n l) in Hl.
  exact (NoDup_app_remove_r _ _ Hl).
Qed.

Lemma in_firstn {A : Type} (n : nat) (l : list A) (x : A) : In x (firstn n l) -> In x l.
Proof.
  intros Hin. rewrite <- (firstn_skipn n l). apply in_or_app. left. exact Hin.
Qed.

(** Every bar of the Top-N chart stands for a year that occurs in the
    data, no year has two bars, and each bar has its row of values. *)
Theorem top_years_labels (data : DataFrame) (top_n : Z) (top : DataFrame) :
  top_years data top_n = Ok top ->
  exists years,
    Pd.index_year (index data) = Ok years
    /\ List.NoDup (index top)
    /\ (forall l, In l (index top) -> exists y, l = LInt y /\ In y years)
    /\ length (values top) = length (index top)
    /\ length (index top) <= Z.to_nat top_n.
Proof.
  unfold top_years. destruct (Pd.index_year (index data)) as [years|e]; cbn [rbind];
    intros E; [|discriminate E].
  exists years. split; [reflexivity|].
  unfold Pd.nlargest in E. cbn [Pd.groupby_sum columns index values] in E.
  destruct (Pd.positions "Energy" (columns data) O) as [|j [|j' l]];
    [discriminate E | | discriminate E].
  injection E as <-. cbn [index values].
  set (key := fun r : label * list float => nth j (snd r) PrimFloat.nan).
  set (vals := map (fun k => map (fun j => Pd.nansum
                                  (Pd.column_cells j (Pd.group_rows k years (values data))))
                                 (seq 0 (length (columns data))))
                   (Pd.group_keys years)).
  set (groups := combine (map LInt (Pd.group_keys years)) vals).
  assert (Hlen : length (map LInt (Pd.group_keys years)) = length vals).
  { unfold vals. rewrite !length_map. reflexivity. }
  change (Pd.sort_desc key (List.filter (fun r => negb (PrimFloat.is_nan (key r))) groups)
          ++ List.filter (fun r => PrimFloat.is_nan (key r)) groups)
    with (ranked key groups).
  assert (Hperm : Permutation (map fst (ranked key groups)) (map LInt (Pd.group_keys years))).
  { rewrite <- (map_fst_combine _ vals Hlen). apply Permutation_map. apply ranked_perm. }
  split; [|split; [|split]].
  - rewrite <- firstn_map. apply nodup_firstn.
    apply (Permutation_NoDup (Permutation_sym Hperm)).
    apply nodup_map_LInt, sorted_lt_nodup, group_keys_sorted.
  - intros l Hin. rewrite <- firstn_map in Hin. apply in_firstn in Hin.
    apply (Permutation_in _ Hperm) in Hin.
    apply List.in_map_iff in Hin as (y & <- & Hy). exists y. split; [reflexivity|].
    apply group_keys_in. exact Hy.
  - rewrite !length_map. reflexivity.
  - rewrite length_map, length_firstn. lia.
Qed.

Lemma top_years_labels_witness :
  exists years,
    Pd.index_year (index Demo.yearly) = Ok years
    /\ List.NoDup [LInt 2021; LInt 2019]
    /\ (forall l, In l [LInt 2021; LInt 2019] -> exists y, l = LInt y /\ In y years)
    /\ length [[5%float]; [4%float]] = length [LInt 2021; LInt 2019]
    /\ length [LInt 2021; LInt 2019] <= Z.to_nat 2.
Proof.
  apply (top_years_labels Demo.yearly 2
           (mkDataFrame ["Energy"] [LInt 2021; LInt 2019] [[5%float]; [4%float]])).
  vm_compute. reflexivity.
Defined.

(** ** Groups *)

Lemma flat_map_ext_in {A B : Type} (f g : A -> list B) (l : list A) :
  (forall a, In a l -> f a = g a) -> flat_map f l = flat_map g l.
Proof.
  induction l as [|a l IH]; intros Hfg; simpl; [reflexivity|].
  rewrite (Hfg a (or_introl eq_refl)), IH; [reflexivity|].
  intros b Hb. apply Hfg. right. exact Hb.
Qed.

Lemma map_flat_map_comm {A B C : Type} (f : B -> C) (g : A -> list B) (l : list A) :
  map f (flat_map g l) = flat_map (fun a => map f (g a)) l.
Proof.
  induction l as [|a l IH]; simpl; [reflexivity|]. rewrite map_app, IH. reflexivity.
Qed.

Lemma filter_after_exclusion {A : Type} (key : A -> Z) (k k' : Z) (l : list A) :
  k' <> k ->
  List.filter (fun p => (key p =? k')%Z) (List.filter (fun p => negb (key p =? k)%Z) l)
  = List.filter (fun p => (key p =? k')%Z) l.
Proof.
  intros Hne. induction l as [|p l IH]; simpl; [reflexivity|].
  destruct (Z.eqb_spec (key p) k) as [Hk|Hk]; simpl.
  - destruct (Z.eqb_spec (key p) k') as [Hk'|_]; [congruence | exact IH].
  - destruct (key p =? k')%Z; rewrite IH; reflexivity.
Qed.

(** Splitting a list by a list of distinct keys that covers it loses
    and repeats nothing. *)
Lemma partition_by_keys {A : Type} (key : A -> Z) (ks : list Z) (l : list A) :
  List.NoDup ks ->
  (forall p, In p l -> In (key p) ks) ->
  Permutation (flat_map (fun k => List.filter (fun p => (key p =? k)%Z) l) ks) l.
Proof.
  intros Hnd. revert l. induction Hnd as [|k ks Hk Hnd IH]; intros l Hcover.
  - destruct l as [|p l]; [apply perm_nil|]. destruct (Hcover p (or_introl eq_refl)).
  - cbn [flat_map].
    set (l' := List.filter (fun p => negb (key p =? k)%Z) l).
    rewrite (flat_map_ext_in _ (fun k' => List.filter (fun p => (key p =? k')%Z) l') ks).
    + apply Permutation_trans with (List.filter (fun p => (key p =? k)%Z) l ++ l').
      * apply Permutation_app_head. apply IH. intros p Hp.
        apply filter_In in Hp as [Hp Hne]. apply negb_true_iff, Z.eqb_neq in Hne.
        destruct (Hcover p Hp) as [E|Hin]; [congruence | exact Hin].
      * apply Permutation_trans with (l' ++ List.filter (fun p => (key p =? k)%Z) l).
        -- apply Permutation_app_comm.
        -- apply (partition_perm (fun p => (key p =? k)%Z)).
    + intros k' Hk'. symmetry. apply filter_after_exclusion. intros ->. contradiction.
Qed.

Lemma groups_cover_rows (keys : list Z) (rows : list (list float)) :
  length keys = length rows ->
  Permutation (flat_map (fun k => Pd.group_rows k keys rows) (Pd.group_keys keys)) rows.
Proof.
  intros Hlen. unfold Pd.group_rows.
  rewrite <- (map_flat_map_comm snd
                (fun k => List.filter (fun kr => (fst kr =? k)%Z) (combine keys rows))).
  pattern rows at 2. rewrite <- (map_snd_combine keys rows Hlen).
  apply Permutation_map. apply (partition_by_keys fst).
  - apply sorted_lt_nodup, group_keys_sorted.
  - intros p Hp. apply group_keys_in. destruct p as [k r]. exact (in_combine_l _ _ _ _ Hp).
Qed.

(** In a well-formed datetime-indexed table (one label per row), the
    groups that the three renderers aggregate cover the rows exactly:
    every row is in the group of its own hour, month or year and in no
    other, so no reading is dropped or counted twice. *)
Theorem renderer_groups_partition_rows (data : DataFrame) :
  datetime_indexed data ->
  length (index data) = length (values data) ->
  exists hours months years,
    Pd.index_hour (index data) = Ok hours
    /\ Pd.index_month (index data) = Ok months
    /\ Pd.index_year (index data) = Ok years
    /\ hourly_table data = Ok (Pd.groupby_sum hours data)
    /\ monthly_table data = Ok (Pd.groupby_mean months data)
    /\ (forall top_n,
          top_years data top_n = Pd.nlargest top_n "Energy" (Pd.groupby_sum years data))
    /\ Permutation (flat_map (fun h => Pd.group_rows h hours (values data))
                             (Pd.group_keys hours)) (values data)
    /\ Permutation (flat_map (fun m => Pd.group_rows m months (values data))
                             (Pd.group_keys months)) (values data)
    /\ Permutation (flat_map (fun y => Pd.group_rows y years (values data))
                             (Pd.group_keys years)) (values data).
Proof.
  intros Hdt Hlen.
  destruct (index_hour_datetime _ Hdt) as (hours & Hh & Eh).
  destruct (index_month_datetime _ Hdt) as (months & Hm & Em).
  destruct (index_year_datetime _ Hdt) as (years & Hy & Ey).
  exists hours, months, years.
  split; [exact Hh|]. split; [exact Hm|]. split; [exact Hy|].
  split; [unfold hourly_table; rewrite Hh; reflexivity|].
  split; [unfold monthly_table; rewrite Hm; reflexivity|].
  split; [intros top_n; unfold top_years; rewrite Hy; reflexivity|].
  split; [|split]; apply groups_cover_rows.
  - rewrite Eh, length_map. exact Hlen.
  - rewrite Em, length_map. exact Hlen.
  - rewrite Ey. exact Hlen.
Qed.

Lemma renderer_groups_partition_rows_witness :
  exists hours months years,
    Pd.index_hour (index Demo.yearly) = Ok hours
    /\ Pd.index_month (index Demo.yearly) = Ok months
    /\ Pd.index_year (index Demo.yearly) = Ok years
    /\ hourly_table Demo.yearly = Ok (Pd.groupby_sum hours Demo.yearly)
    /\ monthly_table Demo.yearly = Ok (Pd.groupby_mean months Demo.yearly)
    /\ (forall top_n,
          top_years Demo.yearly top_n
          = Pd.nlargest top_n "Energy" (Pd.groupby_sum years Demo.yearly))
    /\ Permutation (flat_map (fun h => Pd.group_rows h hours (values Demo.yearly))
                             (Pd.group_keys hours)) (values Demo.yearly)
    /\ Permutation (flat_map (fun m => Pd.group_rows m months (values Demo.yearly))
                             (Pd.group_keys months)) (values Demo.yearly)
    /\ Permutation (flat_map (fun y => Pd.group_rows y years (values Demo.yearly))
                             (Pd.group_keys years)) (values Demo.yearly).
Proof.
  apply (renderer_groups_partition_rows Demo.yearly).
  - repeat constructor.
  - reflexivity.
Defined.

(** ** Columns without a number *)

Lemma nth_map_seq {A : Type} (g : nat -> A) (n j : nat) (d : A) :
  j < n -> nth j (map g (seq 0 n)) d = g j.
Proof.
  intros Hj. rewrite (nth_indep _ d (g 0)) by (rewrite length_map, length_seq; exact Hj).
  rewrite map_nth, seq_nth by exact Hj. reflexivity.
Qed.

Lemma group_rows_in (k : Z) (keys : list Z) (rows : list (list float)) (row : list float) :
  In row (Pd.group_rows k keys rows) -> In row rows.
Proof.
  unfold Pd.group_rows. intros Hin.
  apply List.in_map_iff in Hin as ([k' r] & <- & Hin).
  apply filter_In in Hin as [Hin _]. exact (in_combine_r _ _ _ _ Hin).
Qed.

Lemma kahan_fold_all_nan (xs : list float) (acc : Pd.kahan) :
  List.Forall (fun x => PrimFloat.is_nan x = true) xs ->
  fold_left Pd.kahan_step xs acc = acc.
Proof.
  induction 1 as [|x xs Hx _ IH]; simpl; [reflexivity|].
  unfold Pd.kahan_step at 2. rewrite Hx. exact IH.
Qed.

Lemma nansum_all_nan (xs : list float) :
  List.Forall (fun x => PrimFloat.is_nan x = true) xs -> Pd.nansum xs = PrimFloat.zero.
Proof.
  intros Hall. unfold Pd.nansum. rewrite (kahan_fold_all_nan _ _ Hall). reflexivity.
Qed.

Lemma count_numbers_all_nan (xs : list float) :
  List.Forall (fun x => PrimFloat.is_nan x = true) xs -> Pd.count_numbers xs = 0.
Proof.
  unfold Pd.count_numbers. induction 1 as [|x xs Hx _ IH]; simpl; [reflexivity|].
  rewrite Hx. exact IH.
Qed.

Lemma nanmean_all_nan (xs : list float) :
  List.Forall (fun x => PrimFloat.is_nan x = true) xs ->
  PrimFloat.is_nan (Pd.nanmean xs) = true.
Proof.
  intros Hall. unfold Pd.nanmean. rewrite (count_numbers_all_nan _ Hall). reflexivity.
Qed.

Lemma group_column_all_nan
  (j : nat) (k : Z) (keys : list Z) (rows : list (list float)) :
  List.Forall (fun row => PrimFloat.is_nan (nth j row PrimFloat.nan) = true) rows ->
  List.Forall (fun x => PrimFloat.is_nan x = true)
              (Pd.column_cells j (Pd.group_rows k keys rows)).
Proof.
  intros Hall. apply List.Forall_forall. intros x Hx. unfold Pd.column_cells in Hx.
  apply List.in_map_iff in Hx as (row & <- & Hrow).
  apply group_rows_in in Hrow.
  exact (proj1 (List.Forall_forall _ _) Hall row Hrow).
Qed.

(** A column that holds no number at all (every cell NaN, as for a
    column that only other files have) is charted differently by the two
    aggregations: the hourly sums show it as zero in every hour, the
    monthly means show it as NaN in every month. *)
Theorem empty_column_sum_and_mean (data : DataFrame) (j : nat) :
  j < length (columns data) ->
  List.Forall (fun row => PrimFloat.is_nan (nth j row PrimFloat.nan) = true) (values data) ->
  (forall t, hourly_table data = Ok t ->
             List.Forall (fun row => nth j row PrimFloat.nan = PrimFloat.zero) (values t))
  /\ (forall t, monthly_table data = Ok t ->
                List.Forall (fun row => PrimFloat.is_nan (nth j row PrimFloat.nan) = true)
                            (values t)).
Proof.
  intros Hj Hall. split; intros t Ht.
  - unfold hourly_table in Ht.
    destruct (Pd.index_hour (index data)) as [hours|e]; cbn [rbind] in Ht;
      [|discriminate Ht].
    injection Ht as <-. cbn [Pd.groupby_sum values].
    apply List.Forall_forall. intros row Hrow.
    apply List.in_map_iff in Hrow as (k & <- & _).
    rewrite (nth_map_seq _ _ _ _ Hj).
    apply nansum_all_nan, group_column_all_nan. exact Hall.
  - unfold monthly_table in Ht.
    destruct (Pd.index_month (index data)) as [months|e]; cbn [rbind] in Ht;
      [|discriminate Ht].
    injection Ht as <-. cbn [Pd.groupby_mean values].
    apply List.Forall_forall. intros row Hrow.
    apply List.in_map_iff in Hrow as (k & <- & _).
    rewrite (nth_map_seq _ _ _ _ Hj).
    apply nanmean_all_nan, group_column_all_nan. exact Hall.
Qed.

Lemma empty_column_sum_and_mean_witness :
  (forall t,
      hourly_table
        (mkDataFrame ["Energy"; "Cloud"]
           [LTime (mkTimestamp 2020 1 1 10 0); LTime (mkTimestamp 2020 2 1 11 0)]
           [[1%float; PrimFloat.nan]; [2%float; PrimFloat.nan]]) = Ok t ->
      List.Forall (fun row => nth 1 row PrimFloat.nan = PrimFloat.zero) (values t))
  /\ (forall t,
         monthly_table
           (mkDataFrame ["Energy"; "Cloud"]
              [LTime (mkTimestamp 2020 1 1 10 0); LTime (mkTimestamp 2020 2 1 11 0)]
              [[1%float; PrimFloat.nan]; [2%float; PrimFloat.nan]]) = Ok t ->
         List.Forall (fun row => PrimFloat.is_nan (nth 1 row PrimFloat.nan) = true)
                     (values t)).
Proof.
  apply (empty_column_sum_and_mean
           (mkDataFrame ["Energy"; "Cloud"]
              [LTime (mkTimestamp 2020 1 1 10 0); LTime (mkTimestamp 2020 2 1 11 0)]
              [[1%float; PrimFloat.nan]; [2%float; PrimFloat.nan]]) 1).
  - simpl. lia.
  - repeat constructor.
Defined.
